(** * BitBucketClient: a shallow embedding of
      app/lib/package_control/clients/bitbucket_client.py

    A Python [str] is a sequence of code points, [str], and every operation
    on text counts, cuts and compares code points as Python does; only
    [urllib.parse.quote] looks at the UTF-8 bytes of a text.  The case
    mapping [str.lower] belongs to Python's Unicode tables and is a
    parameter of the client.  JSON documents and the Python values built
    from them are the inductive [value]; the duck-typed accesses of the
    source raise [KeyError], [TypeError] or [AttributeError] exactly where
    Python does; the HTTP collaborator [fetch_json] is an oracle threaded
    through an explicit world, so that the order and the number of requests
    is part of every statement; the two [while] loops carry fuel. *)

From Stdlib Require Import Bool Arith NArith ZArith List Lia.
From Stdlib Require Import Sorting.Sorted.
From Stdlib Require Strings.Byte Strings.String Numbers.DecimalString.
Import ListNotations.

Set Implicit Arguments.

(* ------------------------------------------------------------------ *)
(** ** Python text *)

(** A character of a Python [str]: its code point. *)
Definition char : Type := N.

Bind Scope N_scope with char.

(** A Python [str]. *)
Inductive str : Type :=
| EmptyString
| String (c : char) (s : str).

(** Literals: the printable ASCII texts of the source are written between
    double quotes; a code point above 127 is written as a number. *)
Module Literal.

Fixpoint parse (l : list Byte.byte) : option str :=
  match l with
  | [] => Some EmptyString
  | b :: l' =>
      let n := Byte.to_N b in
      if (n <? 128)%N then
        match parse l' with
        | Some s => Some (String n s)
        | None => None
        end
      else None
  end.

Fixpoint print (s : str) : option (list Byte.byte) :=
  match s with
  | EmptyString => Some []
  | String c s' =>
      if (c <? 128)%N then
        match Byte.of_N c, print s' with
        | Some b, Some l => Some (b :: l)
        | _, _ => None
        end
      else None
  end.

End Literal.

Declare Scope str_scope.
Delimit Scope str_scope with str.
Bind Scope str_scope with str.
String Notation str Literal.parse Literal.print : str_scope.

Local Open Scope str_scope.
Local Open Scope list_scope.
Local Open Scope nat_scope.

(* ------------------------------------------------------------------ *)
(** ** Python string primitives *)

Module PyStr.

(** The character of a one-character literal. *)
Definition ch (s : str) : char :=
  match s with
  | String c _ => c
  | EmptyString => 0%N
  end.

Definition nl : char := 10%N.

(** [a == b] *)
Fixpoint eqb (a b : str) : bool :=
  match a, b with
  | EmptyString, EmptyString => true
  | String c a', String d b' => N.eqb c d && eqb a' b'
  | _, _ => false
  end.

(** [len(s)] *)
Fixpoint length (s : str) : nat :=
  match s with
  | EmptyString => 0
  | String _ s' => S (length s')
  end.

(** [a + b] *)
Fixpoint append (a b : str) : str :=
  match a with
  | EmptyString => b
  | String c a' => String c (append a' b)
  end.

(** [s.startswith(p)] *)
Fixpoint prefix (p s : str) : bool :=
  match p with
  | EmptyString => true
  | String c p' =>
      match s with
      | String d s' => N.eqb c d && prefix p' s'
      | EmptyString => false
      end
  end.

(** [a <= b], the order of code points. *)
Fixpoint leb (a b : str) : bool :=
  match a, b with
  | EmptyString, _ => true
  | String _ _, EmptyString => false
  | String c a', String d b' =>
      if N.eqb c d then leb a' b' else N.ltb c d
  end.

(** [a < b] *)
Definition ltb (a b : str) : bool := negb (leb b a).

(** [c in cs] for characters. *)
Definition mem_char (c : char) (cs : list char) : bool :=
  existsb (N.eqb c) cs.

(** The characters of a text, as a list. *)
Fixpoint chars (s : str) : list char :=
  match s with
  | EmptyString => []
  | String c s' => c :: chars s'
  end.

(** [s[0:n]] *)
Fixpoint slice_to (n : nat) (s : str) : str :=
  match n, s with
  | S n', String c s' => String c (slice_to n' s')
  | _, _ => EmptyString
  end.

Fixpoint map_chars (f : char -> char) (s : str) : str :=
  match s with
  | EmptyString => EmptyString
  | String c s' => String (f c) (map_chars f s')
  end.

(** [s.replace(a, b)] for one-character [a] and [b]. *)
Definition replace_char (a b : char) (s : str) : str :=
  map_chars (fun c => if N.eqb c a then b else c) s.

(** What [str.lower()] does to an ASCII character: 'A'..'Z' move to
    'a'..'z'. *)
Definition lower_ascii (c : char) : char :=
  if (65 <=? c)%N && (c <=? 90)%N then (c + 32)%N else c.

(** [needle in hay] for strings. *)
Fixpoint contains (needle hay : str) : bool :=
  prefix needle hay ||
  match hay with
  | EmptyString => false
  | String _ hay' => contains needle hay'
  end.

(** [s in l] for a list of strings. *)
Definition mem_string (s : str) (l : list str) : bool :=
  existsb (eqb s) l.

(** Every character of [s] passes [f]. *)
Fixpoint all_chars (f : char -> bool) (s : str) : bool :=
  match s with
  | EmptyString => true
  | String c s' => f c && all_chars f s'
  end.

(** Upper-case hexadecimal digit, as ['%02X'] prints it. *)
Definition hex_digit (n : N) : char :=
  if (n <? 10)%N then (48 + n)%N else (55 + n)%N.

(** The bytes [c.encode('utf-8')] gives; lone surrogates have none, and
    [UnicodeEncodeError] is raised for them. *)
Definition utf8 (c : char) : option (list N) :=
  (if c <? 128 then Some [c]
   else if c <? 2048 then Some [192 + c / 64; 128 + c mod 64]
   else if c <? 65536 then
     if (55296 <=? c) && (c <=? 57343) then None
     else Some [224 + c / 4096; 128 + (c / 64) mod 64; 128 + c mod 64]
   else if c <? 1114112 then
     Some [240 + c / 262144; 128 + (c / 4096) mod 64;
           128 + (c / 64) mod 64; 128 + c mod 64]
   else None)%N.

(** ['%{:02X}'.format(b)] after a percent sign. *)
Definition percent (b : N) : str :=
  String (ch "%") (String (hex_digit (b / 16))
                     (String (hex_digit (b mod 16)) EmptyString)).

Fixpoint percent_all (bytes : list N) : str :=
  match bytes with
  | [] => EmptyString
  | b :: rest => append (percent b) (percent_all rest)
  end.

(** The characters [urllib.parse.quote] never escapes, plus its default
    [safe='/']. *)
Definition quote_safe (c : char) : bool :=
  ((65 <=? c)%N && (c <=? 90)%N) || ((97 <=? c)%N && (c <=? 122)%N) ||
  ((48 <=? c)%N && (c <=? 57)%N) ||
  mem_char c [ch "_"; ch "."; ch "-"; ch "~"; ch "/"].

(** [urllib.parse.quote(s)]: the text is encoded as UTF-8, the bytes that
    are safe characters stay, every other byte becomes a percent sign and
    two hexadecimal digits.  [None] stands for [UnicodeEncodeError]. *)
Fixpoint quote (s : str) : option str :=
  match s with
  | EmptyString => Some EmptyString
  | String c s' =>
      match utf8 c, quote s' with
      | Some bytes, Some q =>
          if quote_safe c then Some (String c q)
          else Some (append (percent_all bytes) q)
      | _, _ => None
      end
  end.

(** The text of a Rocq string of ASCII characters. *)
Fixpoint of_string (s : Stdlib.Strings.String.string) : str :=
  match s with
  | Stdlib.Strings.String.EmptyString => EmptyString
  | Stdlib.Strings.String.String c s' =>
      String (Stdlib.Strings.Ascii.N_of_ascii c) (of_string s')
  end.

(** [str(z)] for an integer. *)
Definition of_Z (z : Z) : str :=
  of_string (DecimalString.NilZero.string_of_int (Z.to_int z)).

End PyStr.

Infix "++" := PyStr.append (right associativity, at level 60) : str_scope.

(* ------------------------------------------------------------------ *)
(** ** The fragment of Python's [re] the client uses

    Patterns are compiled from the very strings of the source.  The
    fragment has literal characters, [.], bracketed sets (negated or not,
    without ranges), a backslash escape, the greedy quantifiers [?] and [+]
    on one-character atoms, capture groups and [$].  Matching is the
    backtracking search of [re.match] on a [str]: anchored at the start,
    greedy, first success wins, one code point at a time. *)

Module Re.
Import PyStr.

Inductive cclass : Type :=
| CChar (c : char)
| CDot
| CSet (neg : bool) (cs : list char).

Definition cmatch (k : cclass) (c : char) : bool :=
  match k with
  | CChar a => N.eqb c a
  | CDot => negb (N.eqb c nl)
  | CSet neg cs => xorb neg (mem_char c cs)
  end.

Inductive item : Type :=
| One (k : cclass)
| Opt (k : cclass)
| Plus (k : cclass)
| Open
| Close
| Dollar.

Inductive mode : Type :=
| Top
| Esc
| SetStart
| InSet (neg : bool) (acc : list char)
| InSetEsc (neg : bool) (acc : list char).

Definition flush (pend : option cclass) : list item :=
  match pend with
  | Some k => [One k]
  | None => []
  end.

Fixpoint parse (m : mode) (pend : option cclass) (s : str) : list item :=
  match s with
  | EmptyString => flush pend
  | String c s' =>
      match m with
      | Top =>
          if N.eqb c (ch "?") then
            match pend with
            | Some k => Opt k :: parse Top None s'
            | None => parse Top None s'
            end
          else if N.eqb c (ch "+") then
            match pend with
            | Some k => Plus k :: parse Top None s'
            | None => parse Top None s'
            end
          else
            flush pend ++
            (if N.eqb c (ch "(") then Open :: parse Top None s'
             else if N.eqb c (ch ")") then Close :: parse Top None s'
             else if N.eqb c (ch "$") then Dollar :: parse Top None s'
             else if N.eqb c (ch ".") then parse Top (Some CDot) s'
             else if N.eqb c (ch "[") then parse SetStart None s'
             else if N.eqb c (ch "\") then parse Esc None s'
             else parse Top (Some (CChar c)) s')
      | Esc => parse Top (Some (CChar c)) s'
      | SetStart =>
          if N.eqb c (ch "^") then parse (InSet true []) None s'
          else if N.eqb c (ch "\") then parse (InSetEsc false []) None s'
          else parse (InSet false [c]) None s'
      | InSet neg acc =>
          if N.eqb c (ch "]") then parse Top (Some (CSet neg (rev acc))) s'
          else if N.eqb c (ch "\") then parse (InSetEsc neg acc) None s'
          else parse (InSet neg (c :: acc)) None s'
      | InSetEsc neg acc => parse (InSet neg (c :: acc)) None s'
      end
  end.

Definition compile (pattern : str) : list item := parse Top None pattern.

(** [$] without [re.MULTILINE]: the end of the string, or just before a
    newline that ends the string. *)
Definition at_end (s : str) : bool :=
  match s with
  | EmptyString => true
  | String c EmptyString => N.eqb c nl
  | _ => false
  end.

(** The text between the place a group opened ([from]) and the current
    place ([to], a suffix of [from]). *)
Definition captured (from to : str) : str :=
  slice_to (length from - length to) from.

(** The greedy loop of [k+]: take one more character if it can and the
    rest then matches, else go on with [cont] from here. *)
Fixpoint plus_loop (k : cclass) (cont : str -> option (list str))
    (t : str) : option (list str) :=
  match t with
  | String c t' =>
      if cmatch k c then
        match plus_loop k cont t' with
        | Some r => Some r
        | None => cont t'
        end
      else None
  | EmptyString => None
  end.

(** [run p opens caps s]: match the items [p] against [s]; [opens] holds
    the places where the groups still open began, [caps] the groups
    already closed, latest first. *)
Fixpoint run (p : list item) (opens caps : list str) (s : str)
  : option (list str) :=
  match p with
  | [] => Some (rev caps)
  | One k :: p' =>
      match s with
      | String c s' => if cmatch k c then run p' opens caps s' else None
      | EmptyString => None
      end
  | Opt k :: p' =>
      match s with
      | String c s' =>
          if cmatch k c then
            match run p' opens caps s' with
            | Some r => Some r
            | None => run p' opens caps s
            end
          else run p' opens caps s
      | EmptyString => run p' opens caps s
      end
  | Plus k :: p' => plus_loop k (run p' opens caps) s
  | Open :: p' => run p' (s :: opens) caps s
  | Close :: p' =>
      match opens with
      | o :: os => run p' os (captured o s :: caps) s
      | [] => None
      end
  | Dollar :: p' => if at_end s then run p' opens caps s else None
  end.

(** [re.match(pattern, s)]: [None], or the groups of the match object. *)
Definition re_match (pattern s : str) : option (list str) :=
  run (compile pattern) [] [] s.

(** [re.sub(pattern, repl, s)] for the patterns that are a single
    one-character atom, the only kind the client substitutes. *)
Definition re_sub (pattern : str) (repl : char) (s : str) : str :=
  match compile pattern with
  | [One k] => map_chars (fun c => if cmatch k c then repl else c) s
  | _ => s
  end.

(** *** Reading a pattern without running it *)

(** No group opens or closes in [p]. *)
Fixpoint is_segment (p : list item) : bool :=
  match p with
  | [] => true
  | Open :: _ | Close :: _ => false
  | _ :: p' => is_segment p'
  end.

(** The characters every match of the segment [p] takes at least. *)
Fixpoint consumes (p : list item) : nat :=
  match p with
  | [] => 0
  | One _ :: p' | Plus _ :: p' => S (consumes p')
  | _ :: p' => consumes p'
  end.

(** The groups [p] closes. *)
Fixpoint closes (p : list item) : nat :=
  match p with
  | [] => 0
  | Close :: p' => S (closes p')
  | _ :: p' => closes p'
  end.

(** [p] cut at its first [stop] item. *)
Fixpoint cut_at (is_stop : item -> bool) (p : list item)
  : option (list item * list item) :=
  match p with
  | [] => None
  | x :: p' =>
      if is_stop x then Some ([], p')
      else
        match cut_at is_stop p' with
        | Some (before, after) => Some (x :: before, after)
        | None => None
        end
  end.

Definition is_open (x : item) : bool :=
  match x with Open => true | _ => false end.

Definition is_close (x : item) : bool :=
  match x with Close => true | _ => false end.

(** The pattern is [pre ( body ) rest] with [pre] and [body] free of
    groups and [body] taking at least one character. *)
Definition first_group_takes_text (p : list item) : bool :=
  match cut_at is_open p with
  | Some (pre, after) =>
      match cut_at is_close after with
      | Some (body, _) =>
          is_segment pre && is_segment body && (1 <=? consumes body)
      | None => false
      end
  | None => false
  end.

End Re.

(* ------------------------------------------------------------------ *)
(** ** Python values, exceptions and outcomes *)

(** A decoded JSON document, and more generally every Python value the
    client handles.  JSON numbers are the integers; an object keeps the
    order of its keys. *)
#[warnings="-register-all"]
Inductive value : Type :=
| VNone
| VBool (b : bool)
| VInt (z : Z)
| VStr (s : str)
| VList (l : list value)
| VDict (d : list (str * value)).

Inductive exn : Type :=
| DownloaderException (msg : str)
| ClientException (msg : str)
| KeyError (key : str)
| TypeError
| AttributeError
| UnicodeEncodeError
| OtherError (name msg : str).

(** What running a piece of the client gives: a value, a raised exception,
    or a loop that used up its fuel. *)
Inductive outcome (A : Type) : Type :=
| Ok (a : A)
| Raise (e : exn)
| OutOfFuel.

Arguments Ok {A} a.
Arguments Raise {A} e.
Arguments OutOfFuel {A}.

Definition obind {A B : Type} (o : outcome A) (k : A -> outcome B)
  : outcome B :=
  match o with
  | Ok a => k a
  | Raise e => Raise e
  | OutOfFuel => OutOfFuel
  end.

Notation "x <~ o ;; k" := (obind o (fun x => k))
  (at level 61, o at next level, right associativity).

Module Py.
Import PyStr.

(** [bool(v)] *)
Definition truthy (v : value) : bool :=
  match v with
  | VNone => false
  | VBool b => b
  | VInt z => negb (Z.eqb z 0)
  | VStr s => negb (eqb s "")
  | VList l => match l with [] => false | _ => true end
  | VDict d => match d with [] => false | _ => true end
  end.

Fixpoint assoc (k : str) (d : list (str * value)) : option value :=
  match d with
  | [] => None
  | (k', v) :: d' => if eqb k k' then Some v else assoc k d'
  end.

(** [v[k]] for a string [k]. *)
Definition subscript (v : value) (k : str) : outcome value :=
  match v with
  | VDict d =>
      match assoc k d with
      | Some x => Ok x
      | None => Raise (KeyError k)
      end
  | _ => Raise TypeError
  end.

(** [v.get(k, default)] *)
Definition get (v : value) (k : str) (default : value) : outcome value :=
  match v with
  | VDict d =>
      match assoc k d with
      | Some x => Ok x
      | None => Ok default
      end
  | _ => Raise AttributeError
  end.

Definition is_str (s : str) (v : value) : bool :=
  match v with
  | VStr t => eqb s t
  | _ => false
  end.

(** [k in v] for a string [k]. *)
Definition contains (k : str) (v : value) : outcome bool :=
  match v with
  | VDict d => Ok (match assoc k d with Some _ => true | None => false end)
  | VList l => Ok (existsb (is_str k) l)
  | VStr s => Ok (PyStr.contains k s)
  | _ => Raise TypeError
  end.

Fixpoint chars (s : str) : list value :=
  match s with
  | EmptyString => []
  | String c s' => VStr (String c EmptyString) :: chars s'
  end.

(** The elements [for x in v] visits. *)
Definition iterate (v : value) : outcome (list value) :=
  match v with
  | VList l => Ok l
  | VDict d => Ok (map (fun kv => VStr (fst kv)) d)
  | VStr s => Ok (chars s)
  | _ => Raise TypeError
  end.

(** [v[0:n]] *)
Definition slice (v : value) (n : nat) : outcome value :=
  match v with
  | VStr s => Ok (VStr (slice_to n s))
  | VList l => Ok (VList (firstn n l))
  | _ => Raise TypeError
  end.

(** [v.replace(a, b)], which gives a string or fails. *)
Definition replace (v : value) (a b : char) : outcome str :=
  match v with
  | VStr s => Ok (replace_char a b s)
  | _ => Raise AttributeError
  end.

(** [v.lower()], over the case mapping [str_lower] of Python. *)
Definition lower (str_lower : str -> str) (v : value) : outcome str :=
  match v with
  | VStr s => Ok (str_lower s)
  | _ => Raise AttributeError
  end.

(** [quote(s)] of [urllib.parse]. *)
Definition quote (s : str) : outcome str :=
  match PyStr.quote s with
  | Some q => Ok q
  | None => Raise UnicodeEncodeError
  end.

(** [v is None] *)
Definition is_none (v : value) : bool :=
  match v with
  | VNone => true
  | _ => false
  end.

(** [a or b] *)
Definition or (a b : value) : value := if truthy a then a else b.

(** Keys of the tag dictionary: [hash(v)] fails on lists and dicts. *)
Definition hashable (v : value) : bool :=
  match v with
  | VList _ | VDict _ => false
  | _ => true
  end.

Definition num (v : value) : option Z :=
  match v with
  | VBool b => Some (if b then 1%Z else 0%Z)
  | VInt z => Some z
  | _ => None
  end.

(** [a == b] on hashable values: [True == 1] and [False == 0]. *)
Definition key_eqb (a b : value) : bool :=
  match a, b with
  | VNone, VNone => true
  | VStr s, VStr t => eqb s t
  | _, _ =>
      match num a, num b with
      | Some x, Some y => Z.eqb x y
      | _, _ => false
      end
  end.

End Py.

Section Format.

(** [str(v)] of a list or an object is Python's [repr], which the client
    never looks into: it is a parameter. *)
Variable py_repr : value -> str.

(** The conversion ['%s' % v] applies. *)
Definition format_s (v : value) : str :=
  match v with
  | VStr s => s
  | VNone => "None"
  | VBool true => "True"
  | VBool false => "False"
  | VInt z => PyStr.of_Z z
  | _ => py_repr v
  end.

End Format.
(* ------------------------------------------------------------------ *)
(** ** Records handed to the host *)

(** One entry of the list [download_info] returns. *)
Record release : Type := {
  rel_url : str;
  rel_version : str;
  rel_date : str
}.

(** [None], [False], or a list of releases. *)
Inductive download_result : Type :=
| DNone
| DFalse
| DList (output : list release).

(** The dict [repo_info] returns. *)
Record repo_metadata : Type := {
  md_name : value;
  md_description : value;
  md_homepage : value;
  md_author : value;
  md_donate : option str;
  md_readme : option str;
  md_issues : option str
}.

(** [repo_info] returns the falsy [user_repo] itself when the URL does not
    match, else the metadata. *)
Inductive repo_result : Type :=
| RNoMatch (user_repo : option str)
| RMeta (m : repo_metadata).

(** An element of the list the version collaborator yields:
    [{'version': ..., 'prefix': ...}]. *)
Record version_info : Type := {
  vi_version : str;
  vi_prefix : str
}.

(** [self.settings], as far as the client reads it. *)
Record settings : Type := {
  st_max_releases : option Z
}.

(** [settings.get('max_releases', 0)] *)
Definition get_max_releases (st : settings) : Z :=
  match st_max_releases st with
  | Some n => n
  | None => 0%Z
  end.

(** The tag dictionary [tags_list]: keys in insertion order. *)
Definition tag_dict : Type := list (value * str).

Module TagDict.

Fixpoint update (k : value) (x : str) (d : tag_dict) : tag_dict :=
  match d with
  | [] => [(k, x)]
  | (k', x') :: d' =>
      if Py.key_eqb k' k then (k', x) :: d' else (k', x') :: update k x d'
  end.

(** [d[k] = x] *)
Definition set (d : tag_dict) (k : value) (x : str) : outcome tag_dict :=
  if Py.hashable k then Ok (update k x d) else Raise TypeError.

(** [d.keys()] *)
Definition keys (d : tag_dict) : list value := map fst d.

Fixpoint find (k : value) (d : tag_dict) : option str :=
  match d with
  | [] => None
  | (k', x) :: d' => if Py.key_eqb k' k then Some x else find k d'
  end.

(** [d[tag]] for a string [tag]. *)
Definition lookup (d : tag_dict) (tag : str) : outcome str :=
  match find (VStr tag) d with
  | Some x => Ok x
  | None => Raise (KeyError tag)
  end.

End TagDict.

(* ------------------------------------------------------------------ *)
(** ** The pure part of the client *)

Definition _readme_filenames : list str :=
  ["readme"; "readme.txt"; "readme.md"; "readme.mkd"; "readme.mdown";
   "readme.markdown"; "readme.textile"; "readme.creole"; "readme.rst"].

(** [quote] raises [UnicodeEncodeError] on a name that has no UTF-8
    encoding; the owner is quoted first. *)
Definition make_repo_url (owner_name repo_name : str) : outcome str :=
  owner <~ Py.quote owner_name ;;
  repo <~ Py.quote repo_name ;;
  Ok ("https://bitbucket.com/" ++ owner ++ "/" ++ repo)%str.

(** [False] is [None] here. *)
Definition make_tags_url (repo_url : str) : option str :=
  match Re.re_match "https?://bitbucket.org/([^/]+/[^/]+)/?$" repo_url with
  | Some (g1 :: _) => Some ("https://bitbucket.org/" ++ g1 ++ "#tags")%str
  | _ => None
  end.

(** [False] is [None] here. *)
Definition make_branch_url (repo_url branch : str)
  : outcome (option str) :=
  match Re.re_match "https?://bitbucket.org/([^/]+/[^/]+)/?$" repo_url with
  | Some (g1 :: _) =>
      quoted <~ Py.quote branch ;;
      Ok (Some ("https://bitbucket.org/" ++ g1 ++ "/src/" ++ quoted)%str)
  | _ => Ok None
  end.

Definition _make_api_url (user_repo suffix : str) : str :=
  ("https://api.bitbucket.org/2.0/repositories/" ++ user_repo ++
   suffix)%str.

Definition _user_repo_branch (url : str) : option str * option str :=
  match Re.re_match "https?://bitbucket.org/([^/]+/[^/]+)/src/([^/]+)/?$" url
  with
  | Some [g1; g2] => (Some g1, Some g2)
  | _ =>
      match Re.re_match "https?://bitbucket.org/([^/]+/[^/]+)/?$" url with
      | Some (g1 :: _) => (Some g1, None)
      | _ => (None, None)
      end
  end.

(** [not user_repo] *)
Definition falsy_str (user_repo : option str) : bool :=
  match user_repo with
  | None => true
  | Some s => PyStr.eqb s ""
  end.

(** ['https://bitbucket.org/%s/issues' % user_repo] *)
Definition issues_url_of (user_repo : str) : str :=
  ("https://bitbucket.org/" ++ user_repo ++ "/issues")%str.

(** ['https://bitbucket.org/%s/raw/%s/%s' % (user_repo, branch, path)] *)
Definition raw_url_of (user_repo branch path : str) : str :=
  ("https://bitbucket.org/" ++ user_repo ++ "/raw/" ++ branch ++ "/" ++
   path)%str.

(** [url_pattern % (user_repo, ref)] *)
Definition url_pattern (user_repo ref : str) : str :=
  ("https://bitbucket.org/" ++ user_repo ++ "/get/" ++ ref ++ ".zip")%str.

(** [v[0:19].replace('T', ' ')] *)
Definition timestamp_of (v : value) : outcome str :=
  d <~ Py.slice v 19 ;;
  Py.replace d (PyStr.ch "T") (PyStr.ch " ").

(** The body of [for tag in tags_json['values']].  The right-hand side of
    the assignment is evaluated before the key. *)
Fixpoint add_tags (tags : list value) (tags_list : tag_dict)
  : outcome tag_dict :=
  match tags with
  | [] => Ok tags_list
  | tag :: rest =>
      target <~ Py.subscript tag "target" ;;
      date <~ Py.subscript target "date" ;;
      stamp <~ timestamp_of date ;;
      name <~ Py.subscript tag "name" ;;
      tags_list' <~ TagDict.set tags_list name stamp ;;
      add_tags rest tags_list'
  end.

(** [for info in tag_info], with its [continue] and its [break];
    [used_versions] is the set, [output] the list built so far. *)
Fixpoint release_loop (max_releases : Z) (user_repo : str)
    (tags_list : tag_dict) (tag_info : list version_info)
    (used_versions : list str) (output : list release)
  : outcome (list release) :=
  match tag_info with
  | [] => Ok output
  | info :: rest =>
      let version := vi_version info in
      if PyStr.mem_string version used_versions then
        release_loop max_releases user_repo tags_list rest used_versions output
      else
        let tag := (vi_prefix info ++ version)%str in
        date <~ TagDict.lookup tags_list tag ;;
        let output' :=
          output ++ [ {| rel_url := url_pattern user_repo tag;
                         rel_version := version;
                         rel_date := date |} ] in
        let used_versions' := version :: used_versions in
        if (0 <? max_releases)%Z &&
           (max_releases <=? Z.of_nat (List.length used_versions'))%Z
        then Ok output'
        else release_loop max_releases user_repo tags_list rest
               used_versions' output'
  end.

(** The name of the main branch in the [mainbranch] object of a
    repository answer, [master] when the object names none. *)
Definition main_branch_of (mainbranch : list (str * value)) : value :=
  match Py.assoc "name" mainbranch with
  | Some name => name
  | None => VStr "master"
  end.

(* ------------------------------------------------------------------ *)
(** ** The client over its collaborators *)

Section Client.

(** The state of everything outside the client: the network, the cache,
    the clock. *)
Variable W : Type.

(** [self.fetch_json(url, prefer_cached)] of [JSONApiClient]: a decoded
    document or a raised exception, and the world after the request. *)
Variable fetch_json : value -> bool -> W -> outcome value * W.

(** [version_process(names, tag_prefix)] of [..versions]. *)
Variable version_process :
  list value -> option str -> outcome (list version_info).

(** [version_sort(tag_info, reverse=...)] of [..versions]. *)
Variable version_sort : list version_info -> bool -> list version_info.

Variable py_repr : value -> str.

(** [str.lower] of Python. *)
Variable str_lower : str -> str.

Variable st : settings.

(** Computations of the client: a world in, an outcome and a world out. *)
Definition M (A : Type) : Type := W -> outcome A * W.

Definition ret {A : Type} (a : A) : M A := fun w => (Ok a, w).

Definition bind {A B : Type} (m : M A) (k : A -> M B) : M B :=
  fun w =>
    match m w with
    | (Ok a, w') => k a w'
    | (Raise e, w') => (Raise e, w')
    | (OutOfFuel, w') => (OutOfFuel, w')
    end.

Definition lift {A : Type} (o : outcome A) : M A := fun w => (o, w).

Notation "x <- m ;; k" := (bind m (fun x => k))
  (at level 61, m at next level, right associativity).

(** [page['next'] if 'next' in page else None] *)
Definition next_of (page : value) : outcome value :=
  has_next <~ Py.contains "next" page ;;
  if has_next then Py.subscript page "next" else Ok VNone.

(** [while tags_url: ...] of [download_info]. *)
Fixpoint tags_walk (fuel : nat) (tags_url : value) (tags_list : tag_dict)
  : M tag_dict :=
  if Py.truthy tags_url then
    match fuel with
    | O => lift OutOfFuel
    | S fuel' =>
        tags_json <- fetch_json tags_url false ;;
        values <- lift (Py.subscript tags_json "values") ;;
        tags <- lift (Py.iterate values) ;;
        tags_list' <- lift (add_tags tags tags_list) ;;
        tags_url' <- lift (next_of tags_json) ;;
        tags_walk fuel' tags_url' tags_list'
    end
  else ret tags_list.

Definition download_info (fuel : nat) (url : str)
    (tag_prefix : option str) : M download_result :=
  match Re.re_match "https?://bitbucket.org/([^/]+/[^#/]+)/?#tags$" url with
  | Some (user_repo :: _) =>
      let tags_url := _make_api_url user_repo "/refs/tags?pagelen=100" in
      tags_list <- tags_walk fuel (VStr tags_url) [] ;;
      tag_info <- lift (version_process (TagDict.keys tags_list)
                          tag_prefix) ;;
      let tag_info := version_sort tag_info true in
      match tag_info with
      | [] => ret DFalse
      | _ =>
          let max_releases := get_max_releases st in
          output <- lift (release_loop max_releases user_repo tags_list
                            tag_info [] []) ;;
          ret (DList output)
      end
  | _ =>
      let '(user_repo, branch) := _user_repo_branch url in
      if falsy_str user_repo then ret DNone
      else
        let user_repo := match user_repo with Some s => s | None => "" end in
        branch <-
          match branch with
          | None =>
              repo_info <- fetch_json (VStr (_make_api_url user_repo ""))
                             false ;;
              mainbranch <- lift (Py.subscript repo_info "mainbranch") ;;
              lift (Py.get mainbranch "name" (VStr "master"))
          | Some b => ret (VStr b)
          end ;;
        let branch := format_s py_repr branch in
        let branch_url :=
          _make_api_url user_repo ("/refs/branches/" ++ branch)%str in
        branch_info <- fetch_json (VStr branch_url) false ;;
        target <- lift (Py.subscript branch_info "target") ;;
        date <- lift (Py.subscript target "date") ;;
        timestamp <- lift (timestamp_of date) ;;
        ret (DList [ {| rel_url := url_pattern user_repo branch;
                        rel_version :=
                          Re.re_sub "[\-: ]" (PyStr.ch ".") timestamp;
                        rel_date := timestamp |} ])
  end.

(** [for entry in root_dir_info['values']] of [_readme_url]: the URL it
    returns from, if any. *)
Fixpoint scan_entries (user_repo branch : str) (entries : list value)
  : outcome (option str) :=
  match entries with
  | [] => Ok None
  | entry :: rest =>
      path <~ Py.subscript entry "path" ;;
      low <~ Py.lower str_lower path ;;
      if PyStr.mem_string low _readme_filenames then
        Ok (Some (raw_url_of user_repo branch (format_s py_repr path)))
      else scan_entries user_repo branch rest
  end.

(** [while listing_url: ...] of [_readme_url], inside its [try]. *)
Fixpoint listing_walk (fuel : nat) (user_repo branch : str)
    (prefer_cached : bool) (listing_url : value) : M (option str) :=
  if Py.truthy listing_url then
    match fuel with
    | O => lift OutOfFuel
    | S fuel' =>
        root_dir_info <- fetch_json listing_url prefer_cached ;;
        values <- lift (Py.subscript root_dir_info "values") ;;
        entries <- lift (Py.iterate values) ;;
        found <- lift (scan_entries user_repo branch entries) ;;
        match found with
        | Some readme => ret (Some readme)
        | None =>
            listing_url' <- lift (next_of root_dir_info) ;;
            listing_walk fuel' user_repo branch prefer_cached listing_url'
        end
    end
  else ret None.

(** [except (DownloaderException) as e] and the final [return None]. *)
Definition _readme_url (fuel : nat) (user_repo : str) (branch : value)
    (prefer_cached : bool) : M (option str) :=
  let branch := format_s py_repr branch in
  let listing_url :=
    _make_api_url user_repo ("/src/" ++ branch ++ "/?pagelen=100")%str in
  fun w =>
    match listing_walk fuel user_repo branch prefer_cached
            (VStr listing_url) w with
    | (Raise (DownloaderException msg), w') =>
        if negb (PyStr.contains "HTTP error 404" msg)
        then (Raise (DownloaderException msg), w')
        else (Ok None, w')
    | r => r
    end.

Definition repo_info (fuel : nat) (url : str) : M repo_result :=
  let '(user_repo, branch) := _user_repo_branch url in
  if falsy_str user_repo then ret (RNoMatch user_repo)
  else
    let user_repo := match user_repo with Some s => s | None => "" end in
    let api_url := _make_api_url user_repo "" in
    repo_info <- fetch_json (VStr api_url) false ;;
    branch <-
      match branch with
      | None =>
          mainbranch <- lift (Py.subscript repo_info "mainbranch") ;;
          lift (Py.get mainbranch "name" (VStr "master"))
      | Some b => ret (VStr b)
      end ;;
    let issues_url := issues_url_of user_repo in
    owner <- lift (Py.subscript repo_info "owner") ;;
    author <- lift (Py.get owner "nickname" VNone) ;;
    author <-
      (if Py.is_none author then
         owner <- lift (Py.subscript repo_info "owner") ;;
         lift (Py.get owner "username" VNone)
       else ret author) ;;
    name <- lift (Py.subscript repo_info "name") ;;
    description <- lift (Py.subscript repo_info "description") ;;
    website <- lift (Py.subscript repo_info "website") ;;
    readme <- _readme_url fuel user_repo branch false ;;
    has_issues <- lift (Py.subscript repo_info "has_issues") ;;
    ret (RMeta {| md_name := name;
                  md_description :=
                    Py.or description (VStr "No description provided");
                  md_homepage := Py.or website (VStr url);
                  md_author := author;
                  md_donate := None;
                  md_readme := readme;
                  md_issues :=
                    if Py.truthy has_issues then Some issues_url
                    else None |}).

Definition user_info (url : str) : M (option unit) := ret None.

Definition _main_branch_name (user_repo : str) : M value :=
  let main_branch_url := _make_api_url user_repo "" in
  main_branch_info <- fetch_json (VStr main_branch_url) true ;;
  mainbranch <- lift (Py.subscript main_branch_info "mainbranch") ;;
  lift (Py.subscript mainbranch "name").

(** The pages a pagination walk meets: [chain pc url w pages url' w'] says
    that from [url] in world [w] the requests succeed one after the other,
    each page naming the next, give [pages], and leave the walk at [url']
    in world [w'].  The walk is over when [url'] is falsy. *)
Inductive chain (prefer_cached : bool)
  : value -> W -> list value -> value -> W -> Prop :=
| chain_done : forall url w, chain prefer_cached url w [] url w
| chain_step : forall url w page w1 next pages url' w',
    Py.truthy url = true ->
    fetch_json url prefer_cached w = (Ok page, w1) ->
    next_of page = Ok next ->
    chain prefer_cached next w1 pages url' w' ->
    chain prefer_cached url w (page :: pages) url' w'.

(** The branch [download_info] works on: the one of the URL, else the
    repository's main branch, asked for with one request, [master] when
    the answer names none. *)
Inductive branch_resolved (user_repo : str)
  : option str -> W -> value -> W -> Prop :=
| branch_given : forall b w, branch_resolved user_repo (Some b) w (VStr b) w
| branch_default : forall w fields w1 mainbranch,
    fetch_json (VStr (_make_api_url user_repo "")) false w
      = (Ok (VDict fields), w1) ->
    Py.assoc "mainbranch" fields = Some (VDict mainbranch) ->
    branch_resolved user_repo None w (main_branch_of mainbranch) w1.

End Client.

(* ------------------------------------------------------------------ *)
(** ** Vocabulary of the specification *)

(** The items of one page: [page['values']], iterated. *)
Definition page_items (page : value) : outcome (list value) :=
  values <~ Py.subscript page "values" ;;
  Py.iterate values.

(** The items of all pages, in the order the server lists them. *)
Fixpoint all_items (pages : list value) : outcome (list value) :=
  match pages with
  | [] => Ok []
  | page :: rest =>
      items <~ page_items page ;;
      more <~ all_items rest ;;
      Ok (items ++ more)
  end.

(** A directory entry that carries a string [path]. *)
Definition entry_path (entry : value) : option str :=
  match Py.subscript entry "path" with
  | Ok (VStr path) => Some path
  | _ => None
  end.

Fixpoint entry_paths (entries : list value) : option (list str) :=
  match entries with
  | [] => Some []
  | entry :: rest =>
      match entry_path entry, entry_paths rest with
      | Some path, Some paths => Some (path :: paths)
      | _, _ => None
      end
  end.

(** The paths of one listing page, when all its entries carry one. *)
Definition page_paths (page : value) : option (list str) :=
  match page_items page with
  | Ok entries => entry_paths entries
  | _ => None
  end.

(** The paths of all pages, in the order the server lists them. *)
Fixpoint all_paths (pages : list value) : option (list str) :=
  match pages with
  | [] => Some []
  | page :: rest =>
      match page_paths page, all_paths rest with
      | Some paths, Some more => Some (paths ++ more)
      | _, _ => None
      end
  end.

(** The author of a repository: the owner's nickname, else the owner's
    username, else nothing. *)
Definition author_of (owner : list (str * value)) : value :=
  match Py.assoc "nickname" owner with
  | Some VNone | None =>
      match Py.assoc "username" owner with
      | Some username => username
      | None => VNone
      end
  | Some nickname => nickname
  end.

(** A path the specification calls a readme: its lower-cased form is one
    of the known file names. *)
Definition is_readme (str_lower : str -> str) (path : str) : bool :=
  PyStr.mem_string (str_lower path) _readme_filenames.

(** Deduplication by version, first occurrence kept; [seen] holds the
    versions already met. *)
Fixpoint dedup_by_version (seen : list str) (l : list version_info)
  : list version_info :=
  match l with
  | [] => []
  | info :: rest =>
      if PyStr.mem_string (vi_version info) seen
      then dedup_by_version seen rest
      else info :: dedup_by_version (vi_version info :: seen) rest
  end.

(** The cap: a positive [max_releases] keeps that many entries, any other
    value keeps them all. *)
Definition cap (max_releases : Z) (l : list version_info)
  : list version_info :=
  if (0 <? max_releases)%Z then firstn (Z.to_nat max_releases) l else l.

(** The release record of one version entry, when its tag has a date. *)
Definition release_of (user_repo : str) (tags_list : tag_dict)
    (info : version_info) : option release :=
  let tag := (vi_prefix info ++ vi_version info)%str in
  match TagDict.find (VStr tag) tags_list with
  | Some date => Some {| rel_url := url_pattern user_repo tag;
                         rel_version := vi_version info;
                         rel_date := date |}
  | None => None
  end.

Fixpoint releases_of (user_repo : str) (tags_list : tag_dict)
    (l : list version_info) : option (list release) :=
  match l with
  | [] => Some []
  | info :: rest =>
      match release_of user_repo tags_list info,
            releases_of user_repo tags_list rest with
      | Some r, Some rs => Some (r :: rs)
      | _, _ => None
      end
  end.

(** The first entry of [l] that carries the version [v]. *)
Definition first_with_version (v : str) (l : list version_info)
  : option version_info :=
  find (fun info => PyStr.eqb (vi_version info) v) l.

(** The date a tag gives to the name [name], when it is a well-formed tag
    of that name. *)
Definition stamp_named (name : str) (tag : value) : option str :=
  match Py.subscript tag "name",
        (target <~ Py.subscript tag "target" ;;
         date <~ Py.subscript target "date" ;;
         timestamp_of date) with
  | Ok key, Ok stamp => if Py.key_eqb key (VStr name) then Some stamp else None
  | _, _ => None
  end.

(** The date of the last tag named [name], [before] when there is none. *)
Fixpoint latest (name : str) (tags : list value) (before : option str)
  : option str :=
  match tags with
  | [] => before
  | tag :: rest =>
      latest name rest
        (match stamp_named name tag with
         | Some stamp => Some stamp
         | None => before
         end)
  end.

(** The tag an entry of the version collaborator stands for. *)
Definition tag_of (info : version_info) : str :=
  (vi_prefix info ++ vi_version info)%str.

(** The pseudo-version of a timestamp: hyphens, colons and spaces become
    periods. *)
Definition dotted (timestamp : str) : str :=
  PyStr.map_chars
    (fun c =>
       if PyStr.mem_char c [PyStr.ch "-"; PyStr.ch ":"; PyStr.ch " "]
       then PyStr.ch "." else c)
    timestamp.

(** The URL has one of the three shapes the client accepts: a tags URL,
    a branch URL or a bare repository URL. *)
Definition accepted_shape (url : str) : bool :=
  let matched (m : option (list str)) :=
    match m with Some _ => true | None => false end in
  matched (Re.re_match "https?://bitbucket.org/([^/]+/[^#/]+)/?#tags$" url) ||
  matched (Re.re_match "https?://bitbucket.org/([^/]+/[^/]+)/src/([^/]+)/?$"
             url) ||
  matched (Re.re_match "https?://bitbucket.org/([^/]+/[^/]+)/?$" url).

(** A part of a URL path: a text that is not empty and has no slash. *)
Definition path_part (s : str) : Prop :=
  s <> "" /\
  PyStr.all_chars (fun c => negb (N.eqb c (PyStr.ch "/"))) s = true.

(** The three URL shapes as the specification writes them: the scheme
    [https], the host [bitbucket.org], an owner and a repository, and then
    nothing, or [/src/] and a branch, or [#tags]; a slash may end the
    URL. *)
Definition spec_shape (url : str) : Prop :=
  exists owner repo rest : str,
    path_part owner /\ path_part repo /\
    url = ("https://bitbucket.org/" ++ owner ++ "/" ++ repo ++ rest)%str /\
    (rest = "" \/ rest = "/" \/ rest = "#tags" \/ rest = "#tags/" \/
     exists branch : str,
       path_part branch /\
       (rest = ("/src/" ++ branch)%str \/
        rest = ("/src/" ++ branch ++ "/")%str)).

(** The code points of ASCII. *)
Definition is_ascii (s : str) : bool :=
  PyStr.all_chars (fun c => (c <? 128)%N) s.

(** On ASCII text, [str.lower] moves the letters [A] to [Z] and nothing
    else. *)
Definition lowers_ascii (str_lower : str -> str) : Prop :=
  forall s : str,
    is_ascii s = true -> str_lower s = PyStr.map_chars PyStr.lower_ascii s.

(** The value of a hexadecimal digit, upper case. *)
Definition unhex (c : char) : option N :=
  if (48 <=? c)%N && (c <=? 57)%N then Some (c - 48)%N
  else if (65 <=? c)%N && (c <=? 70)%N then Some (c - 55)%N
  else None.

(** The bytes a percent-encoded text stands for.  A character that
    [quote] keeps stands for itself; a percent sign and two upper-case
    hexadecimal digits stand for a byte that [quote] does not keep;
    anything else is no percent-encoded text. *)
Fixpoint unquote (s : str) : option (list N) :=
  match s with
  | EmptyString => Some []
  | String c s' =>
      if N.eqb c (PyStr.ch "%") then
        match s' with
        | String h (String l rest) =>
            match unhex h, unhex l, unquote rest with
            | Some x, Some y, Some bytes =>
                if PyStr.quote_safe (16 * x + y)%N then None
                else Some ((16 * x + y)%N :: bytes)
            | _, _, _ => None
            end
        | _ => None
        end
      else if PyStr.quote_safe c then
        match unquote s' with
        | Some bytes => Some (c :: bytes)
        | None => None
        end
      else None
  end.

(** The UTF-8 bytes of a text, when it has an encoding. *)
Fixpoint utf8_bytes (s : str) : option (list N) :=
  match s with
  | EmptyString => Some []
  | String c s' =>
      match PyStr.utf8 c, utf8_bytes s' with
      | Some here, Some more => Some (here ++ more)
      | _, _ => None
      end
  end.

(** [quoted] is the percent-encoding of [text]: it stands for the UTF-8
    bytes of [text]. *)
Definition percent_encoded (text quoted : str) : Prop :=
  exists bytes : list N,
    utf8_bytes text = Some bytes /\ unquote quoted = Some bytes.


(* ------------------------------------------------------------------ *)
(** ** A small server and version collaborator to run the client on *)

Module Demo.

(** The world is the log of the requests made, latest first. *)
Definition world : Type := list (value * bool).

Definition site : Type := list (str * outcome value).

Fixpoint answer (pages : site) (url : str) : outcome value :=
  match pages with
  | [] => Raise (DownloaderException "HTTP error 404 downloading")
  | (u, r) :: rest => if PyStr.eqb u url then r else answer rest url
  end.

Definition fetch (pages : site) (url : value) (prefer_cached : bool)
    (w : world) : outcome value * world :=
  match url with
  | VStr u => (answer pages u, (url, prefer_cached) :: w)
  | _ => (Raise TypeError, (url, prefer_cached) :: w)
  end.

Definition is_digit_or_dot (c : char) : bool :=
  ((48 <=? c)%N && (c <=? 57)%N) || N.eqb c (PyStr.ch ".").

Fixpoint drop (n : nat) (s : str) : str :=
  match n, s with
  | S n', String _ s' => drop n' s'
  | _, _ => s
  end.

(** A version collaborator: with a prefix, the names that start with it;
    without, the names as they are or after a leading [v]; in both cases
    only if what remains is made of digits and periods. *)
Definition parse_name (tag_prefix : option str) (name : value)
  : list version_info :=
  match name with
  | VStr s =>
      let p := match tag_prefix with
               | Some p => p
               | None => if PyStr.prefix "v" s then "v" else ""
               end in
      let rest := drop (PyStr.length p) s in
      if PyStr.prefix p s && negb (PyStr.eqb rest "") &&
         PyStr.all_chars is_digit_or_dot rest
      then [ {| vi_version := rest; vi_prefix := p |} ]
      else []
  | _ => []
  end.

Definition version_process (names : list value) (tag_prefix : option str)
  : outcome (list version_info) :=
  Ok (flat_map (parse_name tag_prefix) names).

(** [a] sorts before [b]. *)
Definition before (reverse : bool) (a b : version_info) : bool :=
  if reverse then PyStr.leb (vi_version b) (vi_version a)
  else PyStr.leb (vi_version a) (vi_version b).

Fixpoint insert (reverse : bool) (x : version_info) (l : list version_info)
  : list version_info :=
  match l with
  | [] => [x]
  | y :: l' =>
      if before reverse x y then x :: l else y :: insert reverse x l'
  end.

(** A stable sort by the version string. *)
Definition version_sort (l : list version_info) (reverse : bool)
  : list version_info :=
  fold_right (insert reverse) [] l.

Definition py_repr (v : value) : str := "<container>".

(** A case mapping: that of Python on the ASCII letters and on the Kelvin
    sign, U+212A, whose lower case is the letter [k]; other characters are
    left as they are. *)
Definition str_lower (s : str) : str :=
  PyStr.map_chars
    (fun c => if N.eqb c 8490 then PyStr.ch "k" else PyStr.lower_ascii c) s.

(** The order [version_sort] sorts by: [a] is later than [b]. *)
Definition version_gt (a b : str) : Prop := PyStr.ltb b a = true.

Definition tag (name date : str) : value :=
  VDict [("name", VStr name); ("target", VDict [("date", VStr date)])].

Definition entry (path : str) : value :=
  VDict [("path", VStr path); ("type", VStr "commit_file")].

Definition tags_page_1 : value :=
  VDict [("values", VList [tag "v1.0" "2020-01-02T03:04:05+00:00";
                           tag "2.0" "2021-05-06T12:00:00+00:00"]);
         ("next", VStr "https://api.bitbucket.org/page2")].

Definition tags_page_2 : value :=
  VDict [("values", VList [tag "v2.0" "2021-06-07T08:09:10+00:00";
                           tag "1.5" "2020-11-12T13:14:15+00:00";
                           tag "nightly" "2022-01-01T00:00:00+00:00"])].

Definition listing_page_1 : value :=
  VDict [("values", VList [entry "LICENSE"; entry "main.py"]);
         ("next", VStr "https://api.bitbucket.org/listing2")].

Definition listing_page_2 : value :=
  VDict [("values", VList [entry "README.MD"; entry "readme.rst"])].

Definition repo_json : value :=
  VDict [("name", VStr "repo");
         ("description", VStr "");
         ("website", VStr "");
         ("has_issues", VBool true);
         ("owner", VDict [("username", VStr "owner")]);
         ("mainbranch", VDict [("type", VStr "branch")])].

Definition branch_json : value :=
  VDict [("name", VStr "master");
         ("target", VDict [("date", VStr "2021-05-06T12:00:00+00:00")])].

Definition plain_json : value :=
  VDict [("name", VStr "plain");
         ("website", VStr "https://example.org/");
         ("has_issues", VBool false);
         ("owner", VDict [("nickname", VStr "The Owner");
                          ("username", VStr "owner")]);
         ("mainbranch", VDict [("name", VStr "default")])].

Definition pages : site :=
  [("https://api.bitbucket.org/2.0/repositories/owner/repo/refs/tags?pagelen=100",
    Ok tags_page_1);
   ("https://api.bitbucket.org/page2", Ok tags_page_2);
   ("https://api.bitbucket.org/2.0/repositories/owner/repo", Ok repo_json);
   ("https://api.bitbucket.org/2.0/repositories/owner/repo/refs/branches/master",
    Ok branch_json);
   ("https://api.bitbucket.org/2.0/repositories/owner/repo/src/master/?pagelen=100",
    Ok listing_page_1);
   ("https://api.bitbucket.org/listing2", Ok listing_page_2);
   ("https://api.bitbucket.org/2.0/repositories/owner/plain", Ok plain_json);
   ("https://api.bitbucket.org/2.0/repositories/owner/bare/refs/tags?pagelen=100",
    Ok (VDict [("values", VList [tag "nightly" "2022-01-01T00:00:00+00:00"])]));
   ("https://api.bitbucket.org/2.0/repositories/owner/lost/src/master/?pagelen=100",
    Ok (VDict [("values", VList [entry "setup.py"]);
               ("next", VStr "https://api.bitbucket.org/gone")]));
   ("https://api.bitbucket.org/2.0/repositories/owner/down/src/master/?pagelen=100",
    Raise (DownloaderException "HTTP error 503 downloading"))].

(** A repository whose answer has every field, and no listing. *)
Definition full_json : value :=
  VDict [("name", VStr "quiet");
         ("description", VStr "A package");
         ("website", VStr "");
         ("has_issues", VBool false);
         ("owner", VDict [("nickname", VStr "Nick")]);
         ("mainbranch", VDict [("name", VStr "main")])].


(** A repository whose first page of tags names a page that is gone. *)
Definition cut : site :=
  [("https://api.bitbucket.org/2.0/repositories/owner/cut/refs/tags?pagelen=100",
    Ok (VDict [("values", VList [tag "1.0" "2020-01-02T03:04:05+00:00"]);
               ("next", VStr "https://api.bitbucket.org/gone")]))].

(** A repository that names its main branch. *)
Definition named : site :=
  [("https://api.bitbucket.org/2.0/repositories/owner/named", Ok full_json);
   ("https://api.bitbucket.org/2.0/repositories/owner/named/refs/branches/main",
    Ok branch_json)].

(** A listing whose readme is written with the Kelvin sign for its [K]. *)
Definition kelvin : site :=
  [("https://api.bitbucket.org/2.0/repositories/owner/kelvin/src/master/?pagelen=100",
    Ok (VDict [("values", VList [entry "LICENSE"; entry "main.py"]);
               ("next", VStr "https://api.bitbucket.org/kelvin2")]));
   ("https://api.bitbucket.org/kelvin2",
    Ok (VDict [("values",
                VList [entry ("README.M" ++ String 8490 "D")%str;
                       entry "readme.rst"])]))].

Definition unlimited : settings := {| st_max_releases := None |}.
Definition limited (n : Z) : settings := {| st_max_releases := Some n |}.

Definition download_info (st : settings) (fuel : nat) (url : str)
    (tag_prefix : option str) : world -> outcome download_result * world :=
  download_info (fetch pages) version_process version_sort py_repr st
    fuel url tag_prefix.

Definition repo_info (fuel : nat) (url : str)
  : world -> outcome repo_result * world :=
  repo_info (fetch pages) py_repr str_lower fuel url.

Definition _readme_url (fuel : nat) (user_repo : str) (branch : value)
    (prefer_cached : bool) : world -> outcome (option str) * world :=
  _readme_url (fetch pages) py_repr str_lower fuel user_repo branch
    prefer_cached.

End Demo.

(* ------------------------------------------------------------------ *)
(** * Properties *)

(** ** The primitives on samples *)

Example quote_space : PyStr.quote "a b/c~d" = Some "a%20b/c~d".
Proof. reflexivity. Qed.

(** [quote] works on the UTF-8 bytes: U+00E9 has two, U+212A three. *)
Example quote_bytes :
  PyStr.quote (String 233 (String 8490 "")) = Some "%C3%A9%E2%84%AA".
Proof. reflexivity. Qed.

(** A lone surrogate has no UTF-8 encoding. *)
Example quote_surrogate :
  Py.quote (String 55296 "x") = Raise UnicodeEncodeError.
Proof. reflexivity. Qed.

Example lower_mixed : Demo.str_lower "README.Md" = "readme.md".
Proof. reflexivity. Qed.

(** Cutting counts characters: nineteen of them, whatever their bytes. *)
Example slice_counts_characters :
  PyStr.slice_to 3 (String 233 (String 8490 "abc")) =
  String 233 (String 8490 "a").
Proof. reflexivity. Qed.

Example of_Z_neg : PyStr.of_Z (-12) = "-12".
Proof. reflexivity. Qed.

Example compile_repo :
  Re.compile "s?://b.o/([^/]+/[^#/]+)/?$" =
  [Re.Opt (Re.CChar (PyStr.ch "s")); Re.One (Re.CChar (PyStr.ch ":"));
   Re.One (Re.CChar (PyStr.ch "/")); Re.One (Re.CChar (PyStr.ch "/"));
   Re.One (Re.CChar (PyStr.ch "b")); Re.One Re.CDot;
   Re.One (Re.CChar (PyStr.ch "o")); Re.One (Re.CChar (PyStr.ch "/"));
   Re.Open; Re.Plus (Re.CSet true [PyStr.ch "/"]);
   Re.One (Re.CChar (PyStr.ch "/"));
   Re.Plus (Re.CSet true [PyStr.ch "#"; PyStr.ch "/"]); Re.Close;
   Re.Opt (Re.CChar (PyStr.ch "/")); Re.Dollar].
Proof. reflexivity. Qed.

Example compile_sub :
  Re.compile "[\-: ]" =
  [Re.One (Re.CSet false [PyStr.ch "-"; PyStr.ch ":"; PyStr.ch " "])].
Proof. reflexivity. Qed.

Example match_repo_slash :
  Re.re_match "https?://bitbucket.org/([^/]+/[^/]+)/?$"
    "https://bitbucket.org/a/b/" = Some ["a/b"].
Proof. reflexivity. Qed.

Example match_branch_extra :
  Re.re_match "https?://bitbucket.org/([^/]+/[^/]+)/src/([^/]+)/?$"
    "https://bitbucket.org/a/b/src/dev/x" = None.
Proof. reflexivity. Qed.

(** The dot of the patterns takes one character, whatever its bytes. *)
Example match_dot_character :
  Re.re_match "https?://bitbucket.org/([^/]+/[^/]+)/?$"
    ("https://bitbucket" ++ String 233 "org/owner/repo")%str
  = Some ["owner/repo"].
Proof. reflexivity. Qed.

Example match_tags :
  Re.re_match "https?://bitbucket.org/([^/]+/[^#/]+)/?#tags$"
    "https://bitbucket.org/a#x/b#tags" = Some ["a#x/b"].
Proof. reflexivity. Qed.

Example demo_tags :
  fst (Demo.download_info (Demo.limited 2) 5
         "https://bitbucket.org/owner/repo#tags" None []) =
  Ok (DList [ {| rel_url := "https://bitbucket.org/owner/repo/get/2.0.zip";
                 rel_version := "2.0";
                 rel_date := "2021-05-06 12:00:00" |};
              {| rel_url := "https://bitbucket.org/owner/repo/get/1.5.zip";
                 rel_version := "1.5";
                 rel_date := "2020-11-12 13:14:15" |} ]).
Proof. vm_compute. reflexivity. Qed.

Example demo_out_of_fuel :
  fst (Demo.download_info Demo.unlimited 1
         "https://bitbucket.org/owner/repo#tags" None []) = OutOfFuel.
Proof. vm_compute. reflexivity. Qed.

(* ------------------------------------------------------------------ *)
(** ** Equality and length of texts *)

Lemma str_eqb_refl (s : str) : PyStr.eqb s s = true.
Proof.
  induction s as [|c s IH]; simpl; [reflexivity|].
  now rewrite N.eqb_refl, IH.
Qed.

Lemma str_eqb_eq (a b : str) : PyStr.eqb a b = true <-> a = b.
Proof.
  split; [|intros ->; apply str_eqb_refl].
  revert b. induction a as [|c a IH]; intros [|d b]; simpl;
    try discriminate; [reflexivity|].
  intro H. apply andb_prop in H. destruct H as [Hc Hs].
  apply N.eqb_eq in Hc. apply IH in Hs. now subst.
Qed.

Lemma str_eqb_neq (a b : str) : PyStr.eqb a b = false <-> a <> b.
Proof.
  split.
  - intros H Heq. apply str_eqb_eq in Heq. congruence.
  - intro H. destruct (PyStr.eqb a b) eqn:E; [|reflexivity].
    apply str_eqb_eq in E. now elim H.
Qed.

Lemma mem_string_In (s : str) (l : list str) :
  PyStr.mem_string s l = true <-> In s l.
Proof.
  unfold PyStr.mem_string. rewrite existsb_exists. split.
  - intros [x [Hx He]]. apply str_eqb_eq in He. now subst x.
  - intro H. exists s. split; [exact H | apply str_eqb_refl].
Qed.

(* ------------------------------------------------------------------ *)
(** ** What a match tells about the text *)

Module ReFacts.
Import Re.

Lemma plus_loop_inv (k : cclass) (cont : str -> option (list str)) :
  forall (t : str) (r : list str),
    plus_loop k cont t = Some r ->
    exists t', PyStr.length t' < PyStr.length t /\ cont t' = Some r.
Proof.
  induction t as [|c t IH]; simpl; intros r H; [discriminate|].
  destruct (cmatch k c); [|discriminate].
  destruct (plus_loop k cont t) as [r0|] eqn:E.
  - injection H as <-. destruct (IH r0 eq_refl) as [t' [Hl Hc]].
    exists t'. split; [lia | exact Hc].
  - exists t. split; [lia | exact H].
Qed.

(** A segment takes at least [consumes] characters before what follows it
    is run, with the same open and closed groups. *)
Lemma run_segment (body : list item) :
  is_segment body = true ->
  forall (q : list item) (opens caps : list str) (s : str)
         (r : list str),
    run (body ++ q) opens caps s = Some r ->
    exists s',
      PyStr.length s' + consumes body <= PyStr.length s /\
      run q opens caps s' = Some r.
Proof.
  induction body as [|x body IH]; intros Hseg q opens caps s r H.
  - exists s. split; [simpl; lia | exact H].
  - destruct x; simpl in Hseg; try discriminate; simpl in H.
    + destruct s as [|c s]; [discriminate|].
      destruct (cmatch k c); [|discriminate].
      destruct (IH Hseg _ _ _ _ _ H) as [s' [Hl Hr]].
      exists s'. split; [simpl; lia | exact Hr].
    + assert (Hskip : run (body ++ q) opens caps s = Some r ->
                exists s', PyStr.length s' + consumes (Opt k :: body)
                           <= PyStr.length s /\
                           run q opens caps s' = Some r).
      { intro H'. destruct (IH Hseg _ _ _ _ _ H') as [s' [Hl Hr]].
        exists s'. split; [simpl; lia | exact Hr]. }
      destruct s as [|c s]; [exact (Hskip H)|].
      destruct (cmatch k c); [|exact (Hskip H)].
      destruct (run (body ++ q) opens caps s) as [r0|] eqn:E;
        [|exact (Hskip H)].
      injection H as <-.
      destruct (IH Hseg _ _ _ _ _ E) as [s' [Hl Hr]].
      exists s'. split; [simpl in *; lia | exact Hr].
    + destruct (plus_loop_inv _ _ _ H) as [t' [Hl Hc]].
      destruct (IH Hseg _ _ _ _ _ Hc) as [s' [Hl' Hr]].
      exists s'. split; [simpl; lia | exact Hr].
    + destruct (at_end s); [|discriminate].
      destruct (IH Hseg _ _ _ _ _ H) as [s' [Hl Hr]].
      exists s'. split; [simpl; lia | exact Hr].
Qed.

(** The groups closed before [p] runs stay at the front of the result. *)
Lemma run_keeps_caps :
  forall (p : list item) (opens caps : list str) (s : str)
         (r : list str),
    run p opens caps s = Some r -> exists more, r = rev caps ++ more.
Proof.
  induction p as [|x p IH]; intros opens caps s r H; simpl in H.
  - injection H as <-. exists []. now rewrite app_nil_r.
  - destruct x.
    + destruct s as [|c s]; [discriminate|].
      destruct (cmatch k c); [|discriminate]. exact (IH _ _ _ _ H).
    + destruct s as [|c s]; [exact (IH _ _ _ _ H)|].
      destruct (cmatch k c); [|exact (IH _ _ _ _ H)].
      destruct (run p opens caps s) as [r0|] eqn:E.
      * injection H as <-. exact (IH _ _ _ _ E).
      * exact (IH _ _ _ _ H).
    + destruct (plus_loop_inv _ _ _ H) as [t' [_ Hc]]. exact (IH _ _ _ _ Hc).
    + exact (IH _ _ _ _ H).
    + destruct opens as [|o os]; [discriminate|].
      destruct (IH _ _ _ _ H) as [more Hm]. simpl in Hm.
      rewrite <- app_assoc in Hm. simpl in Hm.
      exists (captured o s :: more). exact Hm.
    + destruct (at_end s); [|discriminate]. exact (IH _ _ _ _ H).
Qed.

Lemma cut_at_sound (is_stop : item -> bool) :
  forall (p before after : list item),
    cut_at is_stop p = Some (before, after) ->
    exists x, is_stop x = true /\ p = before ++ x :: after.
Proof.
  induction p as [|x p IH]; simpl; intros before after H; [discriminate|].
  destruct (is_stop x) eqn:Ex.
  - injection H as <- <-. exists x. split; [exact Ex | reflexivity].
  - destruct (cut_at is_stop p) as [[b a]|]; [|discriminate].
    injection H as <- <-. destruct (IH _ _ eq_refl) as [y [Hy ->]].
    exists y. split; [exact Hy | reflexivity].
Qed.

Lemma captured_nonempty (from to : str) :
  PyStr.length to < PyStr.length from -> captured from to <> "".
Proof.
  unfold captured. intros Hl.
  destruct (PyStr.length from - PyStr.length to) as [|n] eqn:E; [lia|].
  destruct from as [|c from]; [simpl in Hl; lia|].
  simpl. discriminate.
Qed.

(** When the first group of a pattern has to take text, its capture is
    never the empty string. *)
Lemma first_group_nonempty :
  forall (pattern s : str) (r : list str),
    first_group_takes_text (compile pattern) = true ->
    re_match pattern s = Some r ->
    exists g more, r = g :: more /\ g <> "".
Proof.
  intros pattern s r. unfold first_group_takes_text, re_match.
  generalize (compile pattern). intros p Hok H.
  destruct (cut_at is_open p) as [[pre after]|] eqn:E1; [|discriminate].
  destruct (cut_at is_close after) as [[body rest]|] eqn:E2; [|discriminate].
  apply andb_prop in Hok. destruct Hok as [Hok Hmin].
  apply andb_prop in Hok. destruct Hok as [Hpre Hbody].
  apply Nat.leb_le in Hmin.
  destruct (cut_at_sound _ _ E1) as [x [Hx ->]].
  destruct (cut_at_sound _ _ E2) as [y [Hy ->]].
  destruct x; try discriminate. destruct y; try discriminate.
  destruct (run_segment _ Hpre _ _ _ _ H) as [s1 [_ H1]]. simpl in H1.
  destruct (run_segment _ Hbody _ _ _ _ H1) as [s2 [Hl H2]]. simpl in H2.
  destruct (run_keeps_caps _ _ _ _ H2) as [more Hm]. simpl in Hm.
  exists (captured s1 s2), more. split; [exact Hm|].
  apply captured_nonempty. lia.
Qed.

End ReFacts.

Lemma tags_pattern_group :
  Re.first_group_takes_text
    (Re.compile "https?://bitbucket.org/([^/]+/[^#/]+)/?#tags$") = true.
Proof. vm_compute. reflexivity. Qed.

Lemma branch_pattern_group :
  Re.first_group_takes_text
    (Re.compile "https?://bitbucket.org/([^/]+/[^/]+)/src/([^/]+)/?$") = true.
Proof. vm_compute. reflexivity. Qed.

Lemma repo_pattern_group :
  Re.first_group_takes_text
    (Re.compile "https?://bitbucket.org/([^/]+/[^/]+)/?$") = true.
Proof. vm_compute. reflexivity. Qed.

(** The [user/repo] part of a matched URL is never empty, so the test
    [not user_repo] fails exactly when the URL did not match. *)
Lemma user_repo_nonempty :
  forall (url user_repo : str) (branch : option str),
    _user_repo_branch url = (Some user_repo, branch) ->
    falsy_str (Some user_repo) = false.
Proof.
  intros url user_repo branch. unfold _user_repo_branch.
  destruct (Re.re_match
              "https?://bitbucket.org/([^/]+/[^/]+)/src/([^/]+)/?$" url)
    as [gs|] eqn:E1.
  - destruct (ReFacts.first_group_nonempty _ _ branch_pattern_group
                E1) as [g [more [-> Hg]]].
    assert (Hf : falsy_str (Some g) = false).
    { simpl. apply str_eqb_neq. exact Hg. }
    destruct more as [|g2 [|g3 more]].
    + destruct (Re.re_match "https?://bitbucket.org/([^/]+/[^/]+)/?$" url)
        as [gs|] eqn:E2.
      * destruct (ReFacts.first_group_nonempty _ _
                    repo_pattern_group E2) as [h [more [-> Hh]]].
        intro H. injection H as <- _. simpl. apply str_eqb_neq. exact Hh.
      * discriminate.
    + intro H. injection H as <- _. exact Hf.
    + destruct (Re.re_match "https?://bitbucket.org/([^/]+/[^/]+)/?$" url)
        as [gs|] eqn:E2.
      * destruct (ReFacts.first_group_nonempty _ _
                    repo_pattern_group E2) as [h [more' [-> Hh]]].
        intro H. injection H as <- _. simpl. apply str_eqb_neq. exact Hh.
      * discriminate.
  - destruct (Re.re_match "https?://bitbucket.org/([^/]+/[^/]+)/?$" url)
      as [gs|] eqn:E2.
    + destruct (ReFacts.first_group_nonempty _ _
                  repo_pattern_group E2) as [h [more [-> Hh]]].
      intro H. injection H as <- _. simpl. apply str_eqb_neq. exact Hh.
    + discriminate.
Qed.

(* ------------------------------------------------------------------ *)
(** ** URL matching and URL building *)

Lemma length_append (a b : str) :
  PyStr.length (a ++ b) = PyStr.length a + PyStr.length b.
Proof. induction a as [|c a IH]; simpl; [reflexivity | now rewrite IH]. Qed.

Lemma append_assoc (a b c : str) : ((a ++ b) ++ c = a ++ (b ++ c))%str.
Proof. induction a as [|x a IH]; simpl; [reflexivity | now rewrite IH]. Qed.

Lemma prefix_append (a b : str) : PyStr.prefix a (a ++ b) = true.
Proof.
  induction a as [|c a IH]; simpl; [reflexivity|].
  now rewrite N.eqb_refl, IH.
Qed.

(** *** Percent-encoding *)

Ltac div_lia := zify; Z.to_euclidean_division_equations; lia.

Lemma quote_safe_below (c : char) :
  PyStr.quote_safe c = true -> (c < 127)%N.
Proof.
  unfold PyStr.quote_safe, PyStr.mem_char. cbn [existsb PyStr.ch].
  intro H. repeat (apply orb_prop in H; destruct H as [H | H]);
    try (apply andb_prop in H; destruct H as [_ H]; apply N.leb_le in H; lia);
    try (apply N.eqb_eq in H; lia); discriminate.
Qed.

Lemma quote_safe_not_percent (c : char) :
  PyStr.quote_safe c = true -> N.eqb c (PyStr.ch "%") = false.
Proof.
  intro H. destruct (N.eqb_spec c (PyStr.ch "%")) as [->|]; [|reflexivity].
  discriminate H.
Qed.

Lemma utf8_safe (c : char) :
  PyStr.quote_safe c = true -> PyStr.utf8 c = Some [c].
Proof.
  intro H. apply quote_safe_below in H. unfold PyStr.utf8.
  destruct (N.ltb_spec c 128); [reflexivity | lia].
Qed.

(** A property of the numbers below [k], checked on each of them. *)
Lemma below_forallb (f : N -> bool) (k : nat) :
  forallb f (map N.of_nat (seq 0 k)) = true ->
  forall n : N, (n < N.of_nat k)%N -> f n = true.
Proof.
  intros H n Hn. rewrite forallb_forall in H. apply H.
  rewrite <- (N2Nat.id n). apply in_map. apply in_seq. lia.
Qed.

Lemma unhex_hex_digit (n : N) :
  (n < 16)%N -> unhex (PyStr.hex_digit n) = Some n.
Proof.
  intro Hn.
  pose proof (@below_forallb
                (fun n => match unhex (PyStr.hex_digit n) with
                          | Some m => N.eqb m n
                          | None => false
                          end) 16 eq_refl n Hn) as H.
  cbv beta in H. destruct (unhex (PyStr.hex_digit n)); [|discriminate].
  apply N.eqb_eq in H. now subst.
Qed.

Lemma unquote_percent (b : N) (rest : str) :
  (b < 256)%N -> PyStr.quote_safe b = false ->
  unquote (PyStr.percent b ++ rest) =
  match unquote rest with
  | Some bytes => Some (b :: bytes)
  | None => None
  end.
Proof.
  intros Hb Hs. unfold PyStr.percent. cbn [PyStr.append unquote].
  change (N.eqb (PyStr.ch "%") (PyStr.ch "%")) with true. cbv iota.
  rewrite !unhex_hex_digit by div_lia.
  replace (16 * (b / 16) + b mod 16)%N with b by div_lia.
  rewrite Hs. now destruct (unquote rest).
Qed.

Lemma unquote_percent_all (bytes : list N) (rest : str) :
  Forall (fun b => (b < 256)%N /\ PyStr.quote_safe b = false) bytes ->
  unquote (PyStr.percent_all bytes ++ rest) =
  match unquote rest with
  | Some more => Some (bytes ++ more)
  | None => None
  end.
Proof.
  induction 1 as [|b bytes [Hb Hs] _ IH]; cbn [PyStr.percent_all].
  - cbn [PyStr.append app]. now destruct (unquote rest).
  - rewrite append_assoc, (unquote_percent _ Hb Hs), IH.
    now destruct (unquote rest).
Qed.

(** The bytes of a character that [quote] does not keep are bytes, and
    none of them is a character that [quote] keeps. *)
Lemma utf8_unsafe_bytes (c : char) (bytes : list N) :
  PyStr.utf8 c = Some bytes -> PyStr.quote_safe c = false ->
  Forall (fun b => (b < 256)%N /\ PyStr.quote_safe b = false) bytes.
Proof.
  assert (Hhigh : forall b : N, (128 <= b)%N -> PyStr.quote_safe b = false).
  { intros b Hb. destruct (PyStr.quote_safe b) eqn:E; [|reflexivity].
    apply quote_safe_below in E. lia. }
  unfold PyStr.utf8. intros H Hs.
  destruct (N.ltb_spec c 128).
  { replace bytes with [c] by congruence.
    apply Forall_cons; [split; [lia | exact Hs] | apply Forall_nil]. }
  destruct (N.ltb_spec c 2048).
  { match type of H with Some ?l = _ => replace bytes with l by congruence end.
    repeat (apply Forall_cons;
            [split; [div_lia | apply Hhigh; div_lia]|]).
    apply Forall_nil. }
  destruct (N.ltb_spec c 65536).
  { destruct ((55296 <=? c)%N && (c <=? 57343)%N); [discriminate|].
    match type of H with Some ?l = _ => replace bytes with l by congruence end.
    repeat (apply Forall_cons;
            [split; [div_lia | apply Hhigh; div_lia]|]).
    apply Forall_nil. }
  destruct (N.ltb_spec c 1114112); [|discriminate].
  match type of H with Some ?l = _ => replace bytes with l by congruence end.
  repeat (apply Forall_cons; [split; [div_lia | apply Hhigh; div_lia]|]).
  apply Forall_nil.
Qed.

(** The characters [quote] keeps, one by one. *)
Lemma quote_safe_chars (c : char) :
  PyStr.quote_safe c = true <->
  In c (PyStr.chars
          "ABCDEFGHIJKLMNOPQRSTUVWXYZabcdefghijklmnopqrstuvwxyz0123456789_.-~/").
Proof.
  set (kept := PyStr.chars
          "ABCDEFGHIJKLMNOPQRSTUVWXYZabcdefghijklmnopqrstuvwxyz0123456789_.-~/").
  assert (Hmem : PyStr.mem_char c kept = true <-> In c kept).
  { unfold PyStr.mem_char. rewrite existsb_exists. split.
    - intros [x [Hx He]]. apply N.eqb_eq in He. now subst x.
    - intro H. exists c. split; [exact H | apply N.eqb_refl]. }
  rewrite <- Hmem. clear Hmem.
  destruct (N.ltb_spec c 128) as [Hc | Hc].
  - pose proof (@below_forallb
                  (fun c => Bool.eqb (PyStr.quote_safe c)
                              (PyStr.mem_char c kept)) 128 eq_refl c Hc)
      as H.
    cbv beta in H. apply Bool.eqb_prop in H. now rewrite H.
  - assert (Hq : PyStr.quote_safe c = false).
    { destruct (PyStr.quote_safe c) eqn:E; [|reflexivity].
      apply quote_safe_below in E. lia. }
    assert (Hk : PyStr.mem_char c kept = false).
    { unfold PyStr.mem_char.
      destruct (existsb (N.eqb c) kept) eqn:E; [|reflexivity].
      apply existsb_exists in E. destruct E as [x [Hx He]].
      apply N.eqb_eq in He. subst x.
      assert (Hall : forallb (fun x => (x <? 128)%N) kept = true)
        by reflexivity.
      rewrite forallb_forall in Hall. apply Hall in Hx.
      apply N.ltb_lt in Hx. lia. }
    rewrite Hq, Hk. reflexivity.
Qed.

(** What [quote] returns stands for the UTF-8 bytes of the text. *)
Lemma quote_percent_encoded :
  forall s q : str, PyStr.quote s = Some q -> percent_encoded s q.
Proof.
  unfold percent_encoded.
  induction s as [|c s IH]; intros q H.
  - injection H as <-. exists []. split; reflexivity.
  - cbn [PyStr.quote] in H. cbn [utf8_bytes].
    destruct (PyStr.utf8 c) as [here|] eqn:Eu; [|discriminate].
    destruct (PyStr.quote s) as [q'|]; [|discriminate].
    destruct (IH q' eq_refl) as [more [Hm Hq]]. rewrite Hm.
    exists (here ++ more). split; [reflexivity|].
    destruct (PyStr.quote_safe c) eqn:Es; injection H as <-.
    + rewrite (utf8_safe _ Es) in Eu. injection Eu as <-.
      cbn [unquote]. rewrite (quote_safe_not_percent _ Es), Es, Hq.
      reflexivity.
    + rewrite (unquote_percent_all _ (utf8_unsafe_bytes _ Eu Es)).
      now rewrite Hq.
Qed.

(** [quote] fails only where the text has no UTF-8 encoding. *)
Lemma quote_fails :
  forall s : str, PyStr.quote s = None -> utf8_bytes s = None.
Proof.
  induction s as [|c s IH]; [discriminate|].
  cbn [PyStr.quote utf8_bytes].
  destruct (PyStr.utf8 c); [|reflexivity].
  destruct (PyStr.quote s).
  - now destruct (PyStr.quote_safe c).
  - intros _. now rewrite IH.
Qed.

Lemma quote_safe_text (s : str) :
  PyStr.all_chars PyStr.quote_safe s = true -> PyStr.quote s = Some s.
Proof.
  induction s as [|c s IH]; simpl; [reflexivity|].
  intro H. apply andb_prop in H. destruct H as [Hc Hs].
  now rewrite (utf8_safe _ Hc), (IH Hs), Hc.
Qed.

Lemma length_percent_all (bytes : list N) :
  PyStr.length (PyStr.percent_all bytes) = 3 * List.length bytes.
Proof.
  induction bytes as [|b bytes IH]; [reflexivity|].
  cbn [PyStr.percent_all List.length]. rewrite length_append, IH.
  simpl. lia.
Qed.

Lemma utf8_some_byte (c : char) (bytes : list N) :
  PyStr.utf8 c = Some bytes -> 1 <= List.length bytes.
Proof.
  unfold PyStr.utf8.
  destruct (c <? 128)%N; [intro H; injection H as <-; simpl; lia|].
  destruct (c <? 2048)%N; [intro H; injection H as <-; simpl; lia|].
  destruct (c <? 65536)%N.
  - destruct ((55296 <=? c)%N && (c <=? 57343)%N); [discriminate|].
    intro H; injection H as <-; simpl; lia.
  - destruct (c <? 1114112)%N; [|discriminate].
    intro H; injection H as <-; simpl; lia.
Qed.

Lemma quote_length (s q : str) :
  PyStr.quote s = Some q -> PyStr.length s <= PyStr.length q.
Proof.
  revert q. induction s as [|c s IH]; intros q H.
  - injection H as <-. simpl. lia.
  - cbn [PyStr.quote] in H.
    destruct (PyStr.utf8 c) as [here|] eqn:Eu; [|discriminate].
    destruct (PyStr.quote s) as [q'|]; [|discriminate].
    specialize (IH q' eq_refl). apply utf8_some_byte in Eu.
    destruct (PyStr.quote_safe c); injection H as <-.
    + simpl. lia.
    + rewrite length_append, length_percent_all. simpl. lia.
Qed.

Lemma quote_unsafe_text (s q : str) :
  PyStr.quote s = Some q ->
  PyStr.all_chars PyStr.quote_safe s = false ->
  PyStr.length s < PyStr.length q.
Proof.
  revert q. induction s as [|c s IH]; intros q H; [discriminate|].
  cbn [PyStr.quote] in H. cbn [PyStr.all_chars].
  destruct (PyStr.utf8 c) as [here|] eqn:Eu; [|discriminate].
  destruct (PyStr.quote s) as [q'|] eqn:Eq; [|discriminate].
  apply utf8_some_byte in Eu.
  destruct (PyStr.quote_safe c); injection H as <-.
  - cbn [andb]. intro Hs. specialize (IH q' eq_refl Hs). simpl. lia.
  - intros _. pose proof (quote_length _ Eq).
    rewrite length_append, length_percent_all. simpl. lia.
Qed.

(** Between the same two pieces, a text and its percent-encoding give the
    same string exactly when the text has only safe characters. *)
Lemma quoted_differs (before after s : str) :
  match PyStr.quote s with
  | Some q =>
      if PyStr.all_chars PyStr.quote_safe s
      then q = s
      else (before ++ s ++ after)%str <> (before ++ q ++ after)%str
  | None => PyStr.all_chars PyStr.quote_safe s = false
  end.
Proof.
  destruct (PyStr.all_chars PyStr.quote_safe s) eqn:E.
  - now rewrite (quote_safe_text _ E).
  - destruct (PyStr.quote s) as [q|] eqn:Eq; [|reflexivity].
    intro H. apply (f_equal PyStr.length) in H.
    rewrite !length_append in H.
    pose proof (quote_unsafe_text _ Eq E). lia.
Qed.

(** C10, as the code has it.  [make_repo_url] puts the percent-encoding of
    the owner and of the repository, separated by a slash, after
    [https://bitbucket.com/]; it fails, with the [UnicodeEncodeError] of
    [quote], only for a name that has no UTF-8 encoding.  The encoding
    keeps the ASCII letters, the digits and [_.-~/] and writes every other
    byte of the UTF-8 text as a percent sign and two hexadecimal digits.
    Every other URL the client builds starts with
    [https://bitbucket.org/] or [https://api.bitbucket.org/], and this one
    starts with neither. *)
Theorem make_repo_url_host :
  forall (owner_name repo_name user_repo suffix ref branch path repo_url
          : str),
    match make_repo_url owner_name repo_name with
    | Ok url =>
        exists owner repo : str,
          percent_encoded owner_name owner /\
          percent_encoded repo_name repo /\
          url = ("https://bitbucket.com/" ++ owner ++ "/" ++ repo)%str /\
          PyStr.prefix "https://bitbucket.org/" url = false /\
          PyStr.prefix "https://api.bitbucket.org/" url = false
    | Raise e =>
        e = UnicodeEncodeError /\
        (utf8_bytes owner_name = None \/ utf8_bytes repo_name = None)
    | OutOfFuel => False
    end /\
    make_repo_url "my team" "r&d" = Ok "https://bitbucket.com/my%20team/r%26d" /\
    (forall c : char,
        PyStr.quote_safe c = true <->
        In c (PyStr.chars
                "ABCDEFGHIJKLMNOPQRSTUVWXYZabcdefghijklmnopqrstuvwxyz0123456789_.-~/")) /\
    PyStr.prefix "https://api.bitbucket.org/"
      (_make_api_url user_repo suffix) = true /\
    PyStr.prefix "https://bitbucket.org/" (url_pattern user_repo ref)
      = true /\
    PyStr.prefix "https://bitbucket.org/" (issues_url_of user_repo)
      = true /\
    PyStr.prefix "https://bitbucket.org/" (raw_url_of user_repo branch path)
      = true /\
    match make_tags_url repo_url with
    | Some u => PyStr.prefix "https://bitbucket.org/" u = true
    | None => True
    end /\
    match make_branch_url repo_url branch with
    | Ok (Some u) => PyStr.prefix "https://bitbucket.org/" u = true
    | _ => True
    end.
Proof.
  intros. split.
  { unfold make_repo_url, Py.quote.
    destruct (PyStr.quote owner_name) as [owner|] eqn:Eo; cbn [obind].
    - destruct (PyStr.quote repo_name) as [repo|] eqn:Er; cbn [obind].
      + exists owner, repo.
        split; [now apply quote_percent_encoded|].
        split; [now apply quote_percent_encoded|].
        repeat split; reflexivity.
      + split; [reflexivity|]. right. now apply quote_fails.
    - split; [reflexivity|]. left. now apply quote_fails. }
  split; [reflexivity|].
  split; [exact quote_safe_chars|].
  unfold make_tags_url, make_branch_url, Py.quote.
  destruct (Re.re_match "https?://bitbucket.org/([^/]+/[^/]+)/?$" repo_url)
    as [[|g gs]|];
    destruct (PyStr.quote branch); cbn [obind];
    repeat split;
    try reflexivity;
    unfold url_pattern, issues_url_of, raw_url_of; apply prefix_append.
Qed.

(** C10 at an owner with a space and a repository with an ampersand. *)
Lemma make_repo_url_host_witness :
  exists owner repo : str,
    percent_encoded "my team" owner /\
    percent_encoded "r&d" repo /\
    "https://bitbucket.com/my%20team/r%26d" =
      ("https://bitbucket.com/" ++ owner ++ "/" ++ repo)%str /\
    PyStr.prefix "https://bitbucket.org/"
      "https://bitbucket.com/my%20team/r%26d" = false /\
    PyStr.prefix "https://api.bitbucket.org/"
      "https://bitbucket.com/my%20team/r%26d" = false.
Proof.
  exact (proj1 (make_repo_url_host "my team" "r&d" "" "" "" "" "" "")).
Defined.

(** C10 as stated fails for a name that has no UTF-8 encoding: a lone
    surrogate makes [quote], and with it [make_repo_url], raise
    [UnicodeEncodeError] where the claim has it return a URL. *)
Lemma make_repo_url_unencodable_name :
  make_repo_url (String 55296 "") "repo" = Raise UnicodeEncodeError /\
  make_repo_url "owner" (String 57343 "") = Raise UnicodeEncodeError.
Proof. split; reflexivity. Qed.

(** C9, as the code has it.  The tags page, the branch page and the issues
    page carry the [user/repo] text exactly as the URL matcher captured
    it, and so do the API URLs; only [make_repo_url] percent-encodes the
    owner and the repository, and [make_branch_url] the branch.  The
    captured text equals its percent-encoding exactly when all its
    characters are safe. *)
Theorem web_urls_carry_identity_verbatim :
  forall (repo_url branch user_repo suffix owner_name repo_name : str),
    match Re.re_match "https?://bitbucket.org/([^/]+/[^/]+)/?$" repo_url with
    | Some (g :: _) =>
        make_tags_url repo_url =
          Some ("https://bitbucket.org/" ++ g ++ "#tags")%str /\
        make_branch_url repo_url branch =
          (quoted <~ Py.quote branch ;;
           Ok (Some ("https://bitbucket.org/" ++ g ++ "/src/" ++
                     quoted)%str)) /\
        match PyStr.quote g with
        | Some q =>
            if PyStr.all_chars PyStr.quote_safe g
            then q = g
            else ("https://bitbucket.org/" ++ g ++ "#tags")%str <>
                 ("https://bitbucket.org/" ++ q ++ "#tags")%str
        | None => PyStr.all_chars PyStr.quote_safe g = false
        end
    | _ => make_tags_url repo_url = None /\
           make_branch_url repo_url branch = Ok None
    end /\
    issues_url_of user_repo =
      ("https://bitbucket.org/" ++ user_repo ++ "/issues")%str /\
    _make_api_url user_repo suffix =
      ("https://api.bitbucket.org/2.0/repositories/" ++ user_repo ++
       suffix)%str /\
    make_repo_url owner_name repo_name =
      (owner <~ Py.quote owner_name ;;
       repo <~ Py.quote repo_name ;;
       Ok ("https://bitbucket.com/" ++ owner ++ "/" ++ repo)%str).
Proof.
  intros. unfold make_tags_url, make_branch_url.
  split; [|repeat split; reflexivity].
  destruct (Re.re_match "https?://bitbucket.org/([^/]+/[^/]+)/?$" repo_url)
    as [[|g gs]|]; [split; reflexivity | | split; reflexivity].
  split; [reflexivity|]. split; [reflexivity|].
  exact (quoted_differs "https://bitbucket.org/" "#tags" g).
Qed.

(** C9 as stated fails: a repository URL whose owner is written
    [my%20team] matches, and the tags page, the branch page and the issues
    page keep [my%20team], where percent-encoding would give
    [my%2520team]. *)
Lemma web_urls_not_percent_encoded :
  _user_repo_branch "https://bitbucket.org/my%20team/repo" =
    (Some "my%20team/repo", None) /\
  PyStr.quote "my%20team/repo" = Some "my%2520team/repo" /\
  make_tags_url "https://bitbucket.org/my%20team/repo" =
    Some "https://bitbucket.org/my%20team/repo#tags" /\
  make_tags_url "https://bitbucket.org/my%20team/repo" <>
    Some "https://bitbucket.org/my%2520team/repo#tags" /\
  make_branch_url "https://bitbucket.org/my%20team/repo" "dev" <>
    Ok (Some "https://bitbucket.org/my%2520team/repo/src/dev") /\
  issues_url_of "my%20team/repo" <>
    "https://bitbucket.org/my%2520team/repo/issues".
Proof.
  repeat split; try (vm_compute; reflexivity); vm_compute; discriminate.
Qed.

(** Every URL of the three shapes of the specification starts with
    [https://bitbucket.org/]. *)
Lemma spec_shape_prefix (url : str) :
  spec_shape url -> PyStr.prefix "https://bitbucket.org/" url = true.
Proof.
  intros [owner [repo [rest [_ [_ [-> _]]]]]]. apply prefix_append.
Qed.

Section Urls.

Variable W : Type.
Variable fetch_json : value -> bool -> W -> outcome value * W.
Variable version_process :
  list value -> option str -> outcome (list version_info).
Variable version_sort : list version_info -> bool -> list version_info.
Variable py_repr : value -> str.
Variable str_lower : str -> str.
Variable st : settings.

(** C1, as the code has it.  A URL that none of the three patterns of the
    client matches makes both [download_info] and [repo_info] return
    [None]: an ordinary return value, reached without a single request
    and without an exception. *)
Theorem unmatched_url_returns_none :
  forall (fuel : nat) (url : str) (tag_prefix : option str) (w : W),
    accepted_shape url = false ->
    download_info fetch_json version_process version_sort py_repr st
      fuel url tag_prefix w = (Ok DNone, w) /\
    repo_info fetch_json py_repr str_lower fuel url w
      = (Ok (RNoMatch None), w).
Proof.
  intros fuel url tag_prefix w.
  unfold accepted_shape, download_info, repo_info, _user_repo_branch.
  destruct (Re.re_match "https?://bitbucket.org/([^/]+/[^#/]+)/?#tags$" url);
    [intro H; discriminate H|].
  destruct (Re.re_match "https?://bitbucket.org/([^/]+/[^/]+)/src/([^/]+)/?$"
              url); [intro H; discriminate H|].
  destruct (Re.re_match "https?://bitbucket.org/([^/]+/[^/]+)/?$" url);
    [intro H; discriminate H|].
  intros _; split; reflexivity.
Qed.

End Urls.

(** C1 at a URL of another hosting service. *)
Lemma unmatched_url_returns_none_witness :
  accepted_shape "https://github.com/owner/repo" = false /\
  Demo.download_info Demo.unlimited 0 "https://github.com/owner/repo" None []
    = (Ok DNone, []) /\
  Demo.repo_info 0 "https://github.com/owner/repo" [] = (Ok (RNoMatch None), []).
Proof.
  split; [vm_compute; reflexivity|].
  apply (@unmatched_url_returns_none Demo.world (Demo.fetch Demo.pages)
           Demo.version_process Demo.version_sort Demo.py_repr Demo.str_lower
           Demo.unlimited 0 "https://github.com/owner/repo" None []).
  vm_compute; reflexivity.
Defined.

(** C1 as stated fails: a URL written with [http] is none of the three
    shapes of the specification, and yet [download_info] and [repo_info]
    take it as the repository's URL, make their requests and return a
    release and the metadata. *)
Lemma http_url_is_taken :
  ~ spec_shape "http://bitbucket.org/owner/repo" /\
  fst (Demo.download_info Demo.unlimited 0 "http://bitbucket.org/owner/repo"
         None []) =
  Ok (DList
        [ {| rel_url := "https://bitbucket.org/owner/repo/get/master.zip";
             rel_version := "2021.05.06.12.00.00";
             rel_date := "2021-05-06 12:00:00" |} ]) /\
  fst (Demo.repo_info 5 "http://bitbucket.org/owner/repo" []) =
  Ok (RMeta
        {| md_name := VStr "repo";
           md_description := VStr "No description provided";
           md_homepage := VStr "http://bitbucket.org/owner/repo";
           md_author := VStr "owner";
           md_donate := None;
           md_readme :=
             Some "https://bitbucket.org/owner/repo/raw/master/README.MD";
           md_issues := Some "https://bitbucket.org/owner/repo/issues" |}).
Proof.
  split; [|split; vm_compute; reflexivity].
  intro H. apply spec_shape_prefix in H. discriminate H.
Qed.

(* ------------------------------------------------------------------ *)
(** ** Branch mode *)

Lemma re_sub_dotted (timestamp : str) :
  Re.re_sub "[\-: ]" (PyStr.ch ".") timestamp = dotted timestamp.
Proof.
  unfold Re.re_sub, dotted.
  change (Re.compile "[\-: ]")
    with [Re.One (Re.CSet false [PyStr.ch "-"; PyStr.ch ":"; PyStr.ch " "])].
  induction timestamp as [|c t IH]; [reflexivity|].
  cbn [PyStr.map_chars]. rewrite IH. unfold Re.cmatch.
  destruct (PyStr.mem_char c [PyStr.ch "-"; PyStr.ch ":"; PyStr.ch " "]);
    reflexivity.
Qed.

Lemma chars_slice_to (n : nat) :
  forall s : str, PyStr.chars (PyStr.slice_to n s) = firstn n (PyStr.chars s).
Proof.
  induction n as [|n IH]; intros [|c s]; simpl; try reflexivity.
  now rewrite IH.
Qed.

Lemma chars_map_chars (f : char -> char) (s : str) :
  PyStr.chars (PyStr.map_chars f s) = map f (PyStr.chars s).
Proof. induction s as [|c s IH]; simpl; [reflexivity | now rewrite IH]. Qed.

Section BranchMode.

Variable W : Type.
Variable fetch_json : value -> bool -> W -> outcome value * W.
Variable version_process :
  list value -> option str -> outcome (list version_info).
Variable version_sort : list version_info -> bool -> list version_info.
Variable py_repr : value -> str.
Variable st : settings.

(** C5.  On a branch URL or a bare repository URL, [download_info] takes
    the branch of the URL or, with one request for the repository, the
    name its [mainbranch] object gives ([master] when it gives none); it
    then asks for that branch and returns one release.  The date of the
    release is made of the first 19 characters of the commit time, with
    every [T] turned into a space; the version is the date with every
    hyphen, colon and space turned into a period. *)
Theorem branch_mode_one_release :
  forall (fuel : nat) (url : str) (tag_prefix : option str)
         (user_repo : str) (branch : option str) (name : value)
         (info target : value) (date : str) (w w1 w2 : W),
    Re.re_match "https?://bitbucket.org/([^/]+/[^#/]+)/?#tags$" url = None ->
    _user_repo_branch url = (Some user_repo, branch) ->
    branch_resolved fetch_json user_repo branch w name w1 ->
    fetch_json
      (VStr (_make_api_url user_repo
               ("/refs/branches/" ++ format_s py_repr name)%str))
      false w1 = (Ok info, w2) ->
    Py.subscript info "target" = Ok target ->
    Py.subscript target "date" = Ok (VStr date) ->
    exists stamp version : str,
      download_info fetch_json version_process version_sort py_repr st
        fuel url tag_prefix w =
      (Ok (DList
             [ {| rel_url := url_pattern user_repo (format_s py_repr name);
                  rel_version := version;
                  rel_date := stamp |} ]),
       w2) /\
      PyStr.chars stamp =
        map (fun c => if N.eqb c (PyStr.ch "T") then PyStr.ch " " else c)
          (firstn 19 (PyStr.chars date)) /\
      PyStr.chars version =
        map (fun c =>
               if N.eqb c (PyStr.ch "-") || N.eqb c (PyStr.ch ":") ||
                  N.eqb c (PyStr.ch " ")
               then PyStr.ch "." else c)
          (PyStr.chars stamp) /\
      (date = "2021-05-06T12:00:00+00:00" ->
       stamp = "2021-05-06 12:00:00" /\ version = "2021.05.06.12.00.00").
Proof.
  intros fuel url tag_prefix user_repo branch name info target date w w1 w2
         Htags Hurb Hbranch Hfetch Htarget Hdate.
  exists (PyStr.replace_char (PyStr.ch "T") (PyStr.ch " ")
            (PyStr.slice_to 19 date)).
  exists (dotted (PyStr.replace_char (PyStr.ch "T") (PyStr.ch " ")
                    (PyStr.slice_to 19 date))).
  split; [|split; [|split]].
  - unfold download_info. rewrite Htags, Hurb.
    rewrite (user_repo_nonempty _ Hurb).
    destruct Hbranch as [b w | w fields w1 mainbranch Hrepo Hmain];
      unfold bind, lift, ret.
    + rewrite Hfetch, Htarget, Hdate. unfold timestamp_of.
      cbn [obind Py.slice Py.replace format_s]. now rewrite re_sub_dotted.
    + rewrite Hrepo. cbn [Py.subscript]. rewrite Hmain. cbn [Py.get].
      unfold main_branch_of in *.
      destruct (Py.assoc "name" mainbranch); cbv beta iota zeta;
        rewrite Hfetch, Htarget, Hdate; unfold timestamp_of;
        cbn [obind Py.slice Py.replace format_s]; now rewrite re_sub_dotted.
  - unfold PyStr.replace_char. now rewrite chars_map_chars, chars_slice_to.
  - unfold dotted. rewrite chars_map_chars. apply map_ext. intro c.
    unfold PyStr.mem_char. cbn [existsb]. now rewrite orb_false_r, orb_assoc.
  - intros ->. split; reflexivity.
Qed.

End BranchMode.

(** C5 on a repository that names its main branch [main]: that branch is
    asked for, after the request for the repository. *)
Lemma branch_mode_one_release_witness :
  exists stamp version : str,
    download_info (Demo.fetch Demo.named) Demo.version_process
      Demo.version_sort Demo.py_repr Demo.unlimited 0
      "https://bitbucket.org/owner/named" None [] =
    (Ok (DList
           [ {| rel_url := url_pattern "owner/named"
                             (format_s Demo.py_repr (VStr "main"));
                rel_version := version;
                rel_date := stamp |} ]),
     [(VStr "https://api.bitbucket.org/2.0/repositories/owner/named/refs/branches/main",
       false);
      (VStr "https://api.bitbucket.org/2.0/repositories/owner/named",
       false)]) /\
    PyStr.chars stamp =
      map (fun c => if N.eqb c (PyStr.ch "T") then PyStr.ch " " else c)
        (firstn 19 (PyStr.chars "2021-05-06T12:00:00+00:00")) /\
    PyStr.chars version =
      map (fun c =>
             if N.eqb c (PyStr.ch "-") || N.eqb c (PyStr.ch ":") ||
                N.eqb c (PyStr.ch " ")
             then PyStr.ch "." else c)
        (PyStr.chars stamp) /\
    ("2021-05-06T12:00:00+00:00" = "2021-05-06T12:00:00+00:00" ->
     stamp = "2021-05-06 12:00:00" /\ version = "2021.05.06.12.00.00").
Proof.
  refine (@branch_mode_one_release Demo.world
            (Demo.fetch Demo.named) Demo.version_process Demo.version_sort
            Demo.py_repr Demo.unlimited 0 "https://bitbucket.org/owner/named"
            None "owner/named" None (VStr "main") Demo.branch_json
            (VDict [("date", VStr "2021-05-06T12:00:00+00:00")])
            "2021-05-06T12:00:00+00:00" [] _ _ _ _ _ _ _ _).
  - vm_compute; reflexivity.
  - vm_compute; reflexivity.
  - exact (@branch_default Demo.world (Demo.fetch Demo.named) "owner/named"
             []
             [("name", VStr "quiet"); ("description", VStr "A package");
              ("website", VStr ""); ("has_issues", VBool false);
              ("owner", VDict [("nickname", VStr "Nick")]);
              ("mainbranch", VDict [("name", VStr "main")])]
             _ [("name", VStr "main")] eq_refl eq_refl).
  - vm_compute; reflexivity.
  - vm_compute; reflexivity.
  - vm_compute; reflexivity.
Defined.

(** Where the repository names no main branch, [master] is asked for. *)
Example branch_mode_master_fallback :
  Demo.download_info Demo.unlimited 0 "https://bitbucket.org/owner/repo"
    None [] =
  (Ok (DList
         [ {| rel_url := "https://bitbucket.org/owner/repo/get/master.zip";
              rel_version := "2021.05.06.12.00.00";
              rel_date := "2021-05-06 12:00:00" |} ]),
   [(VStr "https://api.bitbucket.org/2.0/repositories/owner/repo/refs/branches/master",
     false);
    (VStr "https://api.bitbucket.org/2.0/repositories/owner/repo", false)]).
Proof. vm_compute. reflexivity. Qed.

(** The cut is at 19 characters, not at 19 bytes. *)
Example branch_mode_counts_characters :
  timestamp_of (VStr (String 233 "021-05-06T12:00:00+00:00")) =
  Ok (String 233 "021-05-06 12:00:00").
Proof. reflexivity. Qed.

(** ** The readme finder *)

Lemma find_app (A : Type) (f : A -> bool) (a b : list A) :
  find f (a ++ b) =
  match find f a with
  | Some x => Some x
  | None => find f b
  end.
Proof.
  induction a as [|x a IH]; simpl; [reflexivity|].
  destruct (f x); [reflexivity | exact IH].
Qed.

Lemma page_items_inv (page : value) (items : list value) :
  page_items page = Ok items ->
  exists values,
    Py.subscript page "values" = Ok values /\ Py.iterate values = Ok items.
Proof.
  unfold page_items, obind.
  destruct (Py.subscript page "values") as [values| |]; try discriminate.
  intro H. exists values. split; [reflexivity | exact H].
Qed.

Lemma page_paths_inv (page : value) (paths : list str) :
  page_paths page = Some paths ->
  exists values entries,
    Py.subscript page "values" = Ok values /\
    Py.iterate values = Ok entries /\
    entry_paths entries = Some paths.
Proof.
  unfold page_paths.
  destruct (page_items page) as [entries| |] eqn:E; try discriminate.
  destruct (page_items_inv _ E) as [values [Hv Hi]].
  intro H. exists values, entries. repeat split; assumption.
Qed.

Section Readme.

Variable W : Type.
Variable fetch_json : value -> bool -> W -> outcome value * W.
Variable py_repr : value -> str.
Variable str_lower : str -> str.

Lemma scan_entries_paths (user_repo branch : str) :
  forall (entries : list value) (paths : list str),
    entry_paths entries = Some paths ->
    scan_entries py_repr str_lower user_repo branch entries =
    Ok (option_map (raw_url_of user_repo branch)
          (find (is_readme str_lower) paths)).
Proof.
  induction entries as [|entry entries IH]; intros paths H.
  - injection H as <-. reflexivity.
  - cbn [entry_paths] in H. cbn [scan_entries]. unfold entry_path in H.
    destruct (Py.subscript entry "path") as [[| | |path| |]| |];
      try discriminate.
    destruct (entry_paths entries) as [more|]; [|discriminate].
    injection H as <-. cbn [obind Py.lower format_s find].
    unfold is_readme at 1.
    destruct (PyStr.mem_string (str_lower path) _readme_filenames);
      [reflexivity | now apply IH].
Qed.

Lemma listing_walk_pages (user_repo branch : str) (prefer_cached : bool) :
  forall (pages : list value) (url url' : value) (w w' : W),
    chain fetch_json prefer_cached url w pages url' w' ->
    forall (paths : list str) (fuel : nat),
      all_paths pages = Some paths ->
      List.length pages <= fuel ->
      match find (is_readme str_lower) paths with
      | Some path =>
          exists w'',
            listing_walk fetch_json py_repr str_lower fuel user_repo branch
              prefer_cached url w =
            (Ok (Some (raw_url_of user_repo branch path)), w'')
      | None =>
          listing_walk fetch_json py_repr str_lower fuel user_repo branch
            prefer_cached url w =
          listing_walk fetch_json py_repr str_lower (fuel - List.length pages)
            user_repo branch prefer_cached url' w'
      end.
Proof.
  induction 1 as [url w | url w page w1 next pages url' w' Ht Hf Hn Hc IH];
    intros paths fuel Hp Hl.
  - injection Hp as <-. simpl. now rewrite Nat.sub_0_r.
  - simpl in Hp.
    destruct (page_paths page) as [here|] eqn:Eh; [|discriminate].
    destruct (all_paths pages) as [more|] eqn:Em; [|discriminate].
    injection Hp as <-.
    destruct (page_paths_inv _ Eh) as [values [entries [Hv [Hi He]]]].
    destruct fuel as [|fuel]; [simpl in Hl; lia|].
    assert (Hl' : List.length pages <= fuel) by (simpl in Hl; lia).
    specialize (IH more fuel eq_refl Hl').
    rewrite find_app. cbn [listing_walk]. rewrite Ht.
    unfold bind, lift, ret. rewrite Hf, Hv, Hi.
    rewrite (scan_entries_paths user_repo branch _ He).
    destruct (find (is_readme str_lower) here) as [path|]; simpl.
    + eexists. reflexivity.
    + rewrite Hn. exact IH.
Qed.

(** C7.  [_readme_url] returns the raw URL of the first entry, in the
    order of the listing and across its pages, whose path, put in lower
    case by [str.lower], is one of the nine readme names, and [None] when
    the walk ends without one.  The raw URL is
    [https://bitbucket.org/{user/repo}/raw/{branch}/{path}] with the path
    as the entry has it.  On ASCII paths the match is blind to the case of
    the letters. *)
Theorem readme_is_first_in_listing_order :
  forall (fuel : nat) (user_repo : str) (branch : value)
         (prefer_cached : bool) (pages : list value) (paths : list str)
         (url' : value) (w w' : W),
    chain fetch_json prefer_cached
      (VStr (_make_api_url user_repo
               ("/src/" ++ format_s py_repr branch ++ "/?pagelen=100")%str))
      w pages url' w' ->
    all_paths pages = Some paths ->
    find (is_readme str_lower) paths <> None \/ Py.truthy url' = false ->
    List.length pages <= fuel ->
    fst (_readme_url fetch_json py_repr str_lower fuel user_repo branch
           prefer_cached w)
    = Ok (option_map (raw_url_of user_repo (format_s py_repr branch))
            (find (is_readme str_lower) paths)) /\
    (forall path : str,
        is_readme str_lower path = true <->
        In (str_lower path)
          ["readme"; "readme.txt"; "readme.md"; "readme.mkd"; "readme.mdown";
           "readme.markdown"; "readme.textile"; "readme.creole";
           "readme.rst"]) /\
    (forall path : str,
        raw_url_of user_repo (format_s py_repr branch) path =
        ("https://bitbucket.org/" ++ user_repo ++ "/raw/" ++
         format_s py_repr branch ++ "/" ++ path)%str) /\
    (lowers_ascii str_lower ->
     is_readme str_lower "README.MD" = true /\
     forall a b : str,
       is_ascii a = true -> is_ascii b = true ->
       PyStr.map_chars PyStr.lower_ascii a =
       PyStr.map_chars PyStr.lower_ascii b ->
       is_readme str_lower a = is_readme str_lower b).
Proof.
  intros fuel user_repo branch prefer_cached pages paths url' w w'
         Hc Hp Hend Hl.
  split; [|split; [|split]].
  - unfold _readme_url.
    pose proof (listing_walk_pages user_repo (format_s py_repr branch)
                  Hc Hp Hl) as H.
    destruct (find (is_readme str_lower) paths) as [path|].
    + destruct H as [w'' ->]. reflexivity.
    + rewrite H. destruct Hend as [Hend | Hend]; [now elim Hend|].
      destruct (fuel - List.length pages); simpl; now rewrite Hend.
  - intro path. unfold is_readme. apply mem_string_In.
  - reflexivity.
  - intro Hlow. split.
    + unfold is_readme. now rewrite (Hlow "README.MD" eq_refl).
    + intros a b Ha Hb Hab. unfold is_readme.
      now rewrite (Hlow a Ha), (Hlow b Hb), Hab.
Qed.


End Readme.

(** C7 on a listing whose readme is on the second page and written
    [README.M], the Kelvin sign, [D]: in lower case that is [readme.mkd],
    and the entry comes before [readme.rst]. *)
Lemma readme_is_first_in_listing_order_witness :
  fst (_readme_url (Demo.fetch Demo.kelvin) Demo.py_repr Demo.str_lower 5
         "owner/kelvin" (VStr "master") false []) =
  Ok (Some ("https://bitbucket.org/owner/kelvin/raw/master/README.M" ++
            String 8490 "D")%str).
Proof.
  refine (proj1 (@readme_is_first_in_listing_order Demo.world
            (Demo.fetch Demo.kelvin) Demo.py_repr Demo.str_lower 5
            "owner/kelvin" (VStr "master") false
            [VDict [("values",
                     VList [Demo.entry "LICENSE"; Demo.entry "main.py"]);
                    ("next", VStr "https://api.bitbucket.org/kelvin2")];
             VDict [("values",
                     VList [Demo.entry ("README.M" ++ String 8490 "D")%str;
                            Demo.entry "readme.rst"])]]
            ["LICENSE"; "main.py"; ("README.M" ++ String 8490 "D")%str;
             "readme.rst"] VNone [] _ _ _ _ _)).
  - eapply chain_step; [vm_compute; reflexivity ..|].
    eapply chain_step; [vm_compute; reflexivity ..|].
    apply chain_done.
  - vm_compute; reflexivity.
  - right. reflexivity.
  - simpl. lia.
Defined.

(** The case mapping of the demo site is that of Python on ASCII. *)
Lemma demo_lowers_ascii : lowers_ascii Demo.str_lower.
Proof.
  unfold lowers_ascii, Demo.str_lower, is_ascii.
  induction s as [|c s IH]; [reflexivity|].
  cbn [PyStr.all_chars PyStr.map_chars]. intro H.
  apply andb_prop in H. destruct H as [Hc Hs]. rewrite (IH Hs).
  apply N.ltb_lt in Hc.
  destruct (N.eqb_spec c 8490) as [->|]; [lia | reflexivity].
Qed.


(** Another failure of the listing comes out of [_readme_url] as raised. *)
Example readme_propagates_503 :
  fst (Demo._readme_url 5 "owner/down" (VStr "master") false []) =
  Raise (DownloaderException "HTTP error 503 downloading").
Proof. vm_compute. reflexivity. Qed.

(* ------------------------------------------------------------------ *)
(** ** Repository metadata *)

Section Metadata.

Variable W : Type.
Variable fetch_json : value -> bool -> W -> outcome value * W.
Variable py_repr : value -> str.
Variable str_lower : str -> str.

(** C6, as the code has it.  From an answer that has an owner object and a
    name (and, for a bare URL, a [mainbranch] object), [repo_info] goes on
    to the description.  Without a [description] field it raises
    [KeyError], before any further request.  With one, and with the
    fields [website] and [has_issues], it builds the record: the
    description, or the fixed text when the description is empty or null;
    the website, or the input URL when the website is empty or null; the
    owner's nickname, else the owner's username; the issues page when
    [has_issues] is true; no donate link; the readme found on the
    resolved branch. *)
Theorem repo_info_record :
  forall (fuel : nat) (url user_repo : str) (branch : option str)
         (d owner : list (str * value)) (name bv : value) (w w1 : W),
    _user_repo_branch url = (Some user_repo, branch) ->
    fetch_json (VStr (_make_api_url user_repo "")) false w
      = (Ok (VDict d), w1) ->
    match branch with
    | Some b => bv = VStr b
    | None => exists mainbranch,
        Py.assoc "mainbranch" d = Some (VDict mainbranch) /\
        bv = main_branch_of mainbranch
    end ->
    Py.assoc "owner" d = Some (VDict owner) ->
    Py.assoc "name" d = Some name ->
    match Py.assoc "description" d with
    | None =>
        repo_info fetch_json py_repr str_lower fuel url w =
        (Raise (KeyError "description"), w1)
    | Some description =>
        forall (website has_issues : value) (readme : option str) (w2 : W),
          Py.assoc "website" d = Some website ->
          Py.assoc "has_issues" d = Some has_issues ->
          _readme_url fetch_json py_repr str_lower fuel user_repo bv false w1
            = (Ok readme, w2) ->
          repo_info fetch_json py_repr str_lower fuel url w =
          (Ok (RMeta
                 {| md_name := name;
                    md_description :=
                      if Py.truthy description then description
                      else VStr "No description provided";
                    md_homepage :=
                      if Py.truthy website then website else VStr url;
                    md_author := author_of owner;
                    md_donate := None;
                    md_readme := readme;
                    md_issues :=
                      if Py.truthy has_issues
                      then Some ("https://bitbucket.org/" ++ user_repo ++
                                 "/issues")%str
                      else None |}),
           w2) /\
          Py.truthy (VStr "") = false /\
          Py.truthy VNone = false /\
          Py.truthy (VBool true) = true /\
          Py.truthy (VBool false) = false
    end.
Proof.
  intros fuel url user_repo branch d owner name bv w w1
         Hurb Hfetch Hbranch Howner Hname.
  assert (Hstart :
    repo_info fetch_json py_repr str_lower fuel url w =
    bind (lift (Py.subscript (VDict d) "description"))
      (fun description =>
       bind (lift (Py.subscript (VDict d) "website"))
         (fun website =>
          bind (_readme_url fetch_json py_repr str_lower fuel user_repo bv
                  false)
            (fun readme =>
             bind (lift (Py.subscript (VDict d) "has_issues"))
               (fun has_issues =>
                ret (RMeta
                       {| md_name := name;
                          md_description :=
                            Py.or description
                              (VStr "No description provided");
                          md_homepage := Py.or website (VStr url);
                          md_author := author_of owner;
                          md_donate := None;
                          md_readme := readme;
                          md_issues :=
                            if Py.truthy has_issues
                            then Some (issues_url_of user_repo)
                            else None |}))))) w1).
  { unfold repo_info. rewrite Hurb.
    rewrite (user_repo_nonempty _ Hurb).
    unfold bind at 1. rewrite Hfetch.
    unfold author_of.
    destruct branch as [b|].
    - subst bv. unfold bind, lift, ret. cbn [Py.subscript].
      rewrite Howner, Hname. cbn [Py.get].
      destruct (Py.assoc "nickname" owner) as [[]|];
        cbn [Py.is_none]; rewrite ?Howner; cbn [Py.get];
        destruct (Py.assoc "username" owner); reflexivity.
    - destruct Hbranch as [mainbranch [Hm ->]].
      unfold bind, lift, ret. cbn [Py.subscript].
      rewrite Hm, Howner, Hname. cbn [Py.get]. unfold main_branch_of.
      destruct (Py.assoc "name" mainbranch);
        destruct (Py.assoc "nickname" owner) as [[]|];
        cbn [Py.is_none]; rewrite ?Howner; cbn [Py.get];
        destruct (Py.assoc "username" owner); reflexivity. }
  rewrite Hstart. clear Hstart.
  unfold bind, lift, ret. cbn [Py.subscript].
  destruct (Py.assoc "description" d) as [description|]; [|reflexivity].
  intros website has_issues readme w2 Hweb Hissues Hreadme.
  rewrite Hweb, Hreadme, Hissues.
  repeat split.
Qed.

End Metadata.

(** C6 on the demo site: empty description and website, no nickname. *)
Lemma repo_info_record_witness :
  Demo.repo_info 5 "https://bitbucket.org/owner/repo" [] =
  (Ok (RMeta
         {| md_name := VStr "repo";
            md_description := VStr "No description provided";
            md_homepage := VStr "https://bitbucket.org/owner/repo";
            md_author := VStr "owner";
            md_donate := None;
            md_readme :=
              Some "https://bitbucket.org/owner/repo/raw/master/README.MD";
            md_issues := Some "https://bitbucket.org/owner/repo/issues" |}),
   [(VStr "https://api.bitbucket.org/listing2", false);
    (VStr "https://api.bitbucket.org/2.0/repositories/owner/repo/src/master/?pagelen=100",
     false);
    (VStr "https://api.bitbucket.org/2.0/repositories/owner/repo", false)]).
Proof.
  refine (proj1 (@repo_info_record Demo.world (Demo.fetch Demo.pages)
            Demo.py_repr Demo.str_lower
            5 "https://bitbucket.org/owner/repo" "owner/repo" None
            [("name", VStr "repo"); ("description", VStr "");
             ("website", VStr ""); ("has_issues", VBool true);
             ("owner", VDict [("username", VStr "owner")]);
             ("mainbranch", VDict [("type", VStr "branch")])]
            [("username", VStr "owner")]
            (VStr "repo") (VStr "master") [] _ _ _ _ _ _
            (VStr "") (VBool true)
            (Some "https://bitbucket.org/owner/repo/raw/master/README.MD")
            _ _ _ _)).
  - vm_compute; reflexivity.
  - vm_compute; reflexivity.
  - exists [("type", VStr "branch")]. split; reflexivity.
  - reflexivity.
  - reflexivity.
  - reflexivity.
  - reflexivity.
  - vm_compute; reflexivity.
Defined.

(** C6 as stated fails where the answer has no [description] field at
    all: [repo_info] raises [KeyError] instead of falling back. *)
Lemma repo_info_missing_description :
  Py.assoc "description"
    [("name", VStr "plain"); ("website", VStr "https://example.org/");
     ("has_issues", VBool false);
     ("owner", VDict [("nickname", VStr "The Owner");
                      ("username", VStr "owner")]);
     ("mainbranch", VDict [("name", VStr "default")])] = None /\
  Demo.repo_info 5 "https://bitbucket.org/owner/plain" [] =
  (Raise (KeyError "description"),
   [(VStr "https://api.bitbucket.org/2.0/repositories/owner/plain", false)]).
Proof. split; vm_compute; reflexivity. Qed.

(* ------------------------------------------------------------------ *)
(** ** Tag mode *)

Lemma add_tags_app (a b : list value) :
  forall acc : tag_dict,
    add_tags (a ++ b) acc = (acc' <~ add_tags a acc ;; add_tags b acc').
Proof.
  induction a as [|tag a IH]; intro acc; [reflexivity|].
  cbn [app add_tags].
  destruct (Py.subscript tag "target") as [target| |]; [|reflexivity ..].
  cbn [obind].
  destruct (Py.subscript target "date") as [date| |]; [|reflexivity ..].
  cbn [obind].
  destruct (timestamp_of date) as [stamp| |]; [|reflexivity ..].
  cbn [obind].
  destruct (Py.subscript tag "name") as [name| |]; [|reflexivity ..].
  cbn [obind].
  destruct (TagDict.set acc name stamp) as [acc'| |]; [|reflexivity ..].
  cbn [obind]. apply IH.
Qed.

Lemma dedup_fresh (l : list version_info) :
  forall (seen : list str) (i : version_info),
    In i (dedup_by_version seen l) -> ~ In (vi_version i) seen.
Proof.
  induction l as [|a l IH]; intros seen i H; [destruct H|].
  cbn [dedup_by_version] in H.
  destruct (PyStr.mem_string (vi_version a) seen) eqn:E.
  - now apply IH.
  - destruct H as [<- | H].
    + intro Hin. apply mem_string_In in Hin. congruence.
    + intro Hin. apply (IH _ _ H). now right.
Qed.

Lemma dedup_In (l : list version_info) :
  forall (seen : list str) (i : version_info),
    In i (dedup_by_version seen l) -> In i l.
Proof.
  induction l as [|a l IH]; intros seen i H; [destruct H|].
  cbn [dedup_by_version] in H.
  destruct (PyStr.mem_string (vi_version a) seen).
  - right. now apply IH with seen.
  - destruct H as [<- | H]; [now left | right; now apply IH in H].
Qed.

(** No version is kept twice. *)
Lemma dedup_NoDup (l : list version_info) :
  forall seen : list str,
    NoDup (map vi_version (dedup_by_version seen l)).
Proof.
  induction l as [|a l IH]; intro seen; [constructor|].
  cbn [dedup_by_version].
  destruct (PyStr.mem_string (vi_version a) seen); [apply IH|].
  cbn [map]. constructor; [|apply IH].
  intro Hin. apply in_map_iff in Hin. destruct Hin as [i [Hv Hi]].
  apply dedup_fresh in Hi. apply Hi. left. now symmetry.
Qed.

(** What is kept is, for its version, the first entry of the list. *)
Lemma dedup_first (l : list version_info) :
  forall (seen : list str) (i : version_info),
    In i (dedup_by_version seen l) ->
    first_with_version (vi_version i) l = Some i.
Proof.
  unfold first_with_version.
  induction l as [|a l IH]; intros seen i H; [destruct H|].
  cbn [dedup_by_version] in H. cbn [find].
  destruct (PyStr.mem_string (vi_version a) seen) eqn:E.
  - destruct (PyStr.eqb (vi_version a) (vi_version i)) eqn:Ev.
    + apply str_eqb_eq in Ev. apply mem_string_In in E.
      rewrite Ev in E. now elim (dedup_fresh _ _ _ H).
    + now apply IH with seen.
  - destruct H as [<- | H]; [now rewrite str_eqb_refl|].
    destruct (PyStr.eqb (vi_version a) (vi_version i)) eqn:Ev.
    + apply str_eqb_eq in Ev. elim (dedup_fresh _ _ _ H). now left.
    + now apply IH with (vi_version a :: seen).
Qed.

(** The order of the list is kept. *)
Lemma dedup_sorted (R : str -> str -> Prop) (l : list version_info) :
  forall seen : list str,
    StronglySorted R (map vi_version l) ->
    StronglySorted R (map vi_version (dedup_by_version seen l)).
Proof.
  induction l as [|a l IH]; intros seen H; [constructor|].
  cbn [map] in H. apply StronglySorted_inv in H. destruct H as [Hs Hf].
  cbn [dedup_by_version].
  destruct (PyStr.mem_string (vi_version a) seen); [now apply IH|].
  cbn [map]. constructor; [now apply IH|].
  rewrite Forall_forall in *. intros v Hv.
  apply in_map_iff in Hv. destruct Hv as [i [<- Hi]].
  apply Hf. apply in_map. now apply dedup_In in Hi.
Qed.

Lemma firstn_sorted (A : Type) (R : A -> A -> Prop) (n : nat) :
  forall l : list A, StronglySorted R l -> StronglySorted R (firstn n l).
Proof.
  induction n as [|n IH]; intros l H; [constructor|].
  destruct l as [|a l]; [constructor|].
  apply StronglySorted_inv in H. destruct H as [Hs Hf].
  cbn [firstn]. constructor; [now apply IH|].
  rewrite Forall_forall in *. intros x Hx. apply Hf.
  revert Hx. clear. revert l.
  induction n as [|n IH]; intros l Hx; [destruct Hx|].
  destruct l as [|b l]; [destruct Hx|].
  destruct Hx as [<- | Hx]; [now left | right; now apply IH].
Qed.

Lemma firstn_incl (A : Type) (n : nat) :
  forall (l : list A) (x : A), In x (firstn n l) -> In x l.
Proof.
  induction n as [|n IH]; intros l x Hx; [destruct Hx|].
  destruct l as [|b l]; [destruct Hx|].
  destruct Hx as [<- | Hx]; [now left | right; now apply IH].
Qed.

Lemma firstn_NoDup (A : Type) (n : nat) :
  forall l : list A, NoDup l -> NoDup (firstn n l).
Proof.
  induction n as [|n IH]; intros l H; [constructor|].
  destruct l as [|a l]; [constructor|].
  inversion H as [|x l' Hn Hd]; subst.
  cbn [firstn]. constructor; [|now apply IH].
  intro Hin. apply Hn. now apply firstn_incl in Hin.
Qed.

Lemma cap_sorted (R : str -> str -> Prop) (max : Z)
    (l : list version_info) :
  StronglySorted R (map vi_version l) ->
  StronglySorted R (map vi_version (cap max l)).
Proof.
  unfold cap. destruct (0 <? max)%Z; [|trivial].
  rewrite <- firstn_map. apply firstn_sorted.
Qed.

Lemma cap_NoDup (max : Z) (l : list version_info) :
  NoDup (map vi_version l) -> NoDup (map vi_version (cap max l)).
Proof.
  unfold cap. destruct (0 <? max)%Z; [|trivial].
  rewrite <- firstn_map. apply firstn_NoDup.
Qed.

Lemma cap_incl (max : Z) (l : list version_info) (i : version_info) :
  In i (cap max l) -> In i l.
Proof.
  unfold cap. destruct (0 <? max)%Z; [apply firstn_incl | trivial].
Qed.

(** A list without repetition that never ascends descends strictly. *)
Lemma sorted_strict (A : Type) (R : A -> A -> Prop) (l : list A) :
  StronglySorted (fun a b => R a b \/ a = b) l -> NoDup l ->
  StronglySorted R l.
Proof.
  induction l as [|a l IH]; intros Hs Hd; [constructor|].
  apply StronglySorted_inv in Hs. destruct Hs as [Hs Hf].
  inversion Hd as [|x l' Hn Hd']; subst.
  constructor; [now apply IH|].
  rewrite Forall_forall in *. intros x Hx.
  destruct (Hf x Hx) as [H | H]; [exact H | now subst x].
Qed.

Lemma releases_of_versions (user_repo : str) (tags_list : tag_dict) :
  forall (l : list version_info) (rs : list release),
    releases_of user_repo tags_list l = Some rs ->
    map rel_version rs = map vi_version l.
Proof.
  induction l as [|i l IH]; intros rs H.
  - injection H as <-. reflexivity.
  - cbn [releases_of] in H. unfold release_of in H.
    destruct (TagDict.find (VStr (vi_prefix i ++ vi_version i)) tags_list);
      [|discriminate].
    destruct (releases_of user_repo tags_list l) as [rs'|]; [|discriminate].
    injection H as <-. cbn [map rel_version]. now rewrite (IH rs').
Qed.

Lemma releases_of_each (user_repo : str) (tags_list : tag_dict) :
  forall (l : list version_info) (rs : list release),
    releases_of user_repo tags_list l = Some rs ->
    Forall2 (fun i r => release_of user_repo tags_list i = Some r) l rs.
Proof.
  induction l as [|i l IH]; intros rs H.
  - injection H as <-. constructor.
  - cbn [releases_of] in H.
    destruct (release_of user_repo tags_list i) as [r|] eqn:E;
      [|discriminate].
    destruct (releases_of user_repo tags_list l) as [rs'|]; [|discriminate].
    injection H as <-. constructor; [exact E | now apply IH].
Qed.

Lemma releases_of_length (user_repo : str) (tags_list : tag_dict)
    (l : list version_info) (rs : list release) :
  releases_of user_repo tags_list l = Some rs ->
  List.length rs = List.length l.
Proof.
  intro H. apply releases_of_versions in H.
  rewrite <- (length_map rel_version rs), H. apply length_map.
Qed.

(** The loop under a positive cap: with fewer versions used than the cap
    allows, it appends the releases of the entries kept, up to what is left
    of the cap. *)
Lemma release_loop_capped (max : Z) (user_repo : str)
    (tags_list : tag_dict) :
  (0 < max)%Z ->
  forall (l : list version_info) (used : list str) (out rs : list release),
    (Z.of_nat (List.length used) < max)%Z ->
    releases_of user_repo tags_list
      (firstn (Z.to_nat max - List.length used) (dedup_by_version used l))
      = Some rs ->
    release_loop max user_repo tags_list l used out = Ok (out ++ rs).
Proof.
  intro Hmax.
  induction l as [|a l IH]; intros used out rs Hused H.
  - cbn [dedup_by_version] in H. rewrite firstn_nil in H.
    injection H as <-. cbn [release_loop]. now rewrite app_nil_r.
  - cbn [dedup_by_version] in H. cbn [release_loop].
    destruct (PyStr.mem_string (vi_version a) used); [now apply IH|].
    destruct (Z.to_nat max - List.length used) as [|n] eqn:En; [lia|].
    cbn [firstn releases_of] in H. unfold release_of in H.
    unfold TagDict.lookup.
    destruct (TagDict.find (VStr (vi_prefix a ++ vi_version a)) tags_list)
      as [date|]; [|discriminate].
    destruct (releases_of user_repo tags_list
                (firstn n (dedup_by_version (vi_version a :: used) l)))
      as [rs'|] eqn:Er; [|discriminate].
    injection H as <-. cbn [obind].
    assert (H0 : (0 <? max)%Z = true) by now apply Z.ltb_lt.
    rewrite H0. cbn [andb].
    destruct (max <=? Z.of_nat (List.length (vi_version a :: used)))%Z
      eqn:Ec.
    + apply Z.leb_le in Ec. cbn [List.length] in Ec.
      assert (n = 0) by lia. subst n.
      cbn [firstn releases_of] in Er. injection Er as <-. reflexivity.
    + apply Z.leb_gt in Ec. cbn [List.length] in Ec.
      rewrite (IH (vi_version a :: used) _ rs').
      * now rewrite <- app_assoc.
      * cbn [List.length]. lia.
      * cbn [List.length].
        replace (Z.to_nat max - S (List.length used)) with n by lia.
        exact Er.
Qed.

(** The loop without a cap: zero, or a negative number. *)
Lemma release_loop_uncapped (max : Z) (user_repo : str)
    (tags_list : tag_dict) :
  (max <= 0)%Z ->
  forall (l : list version_info) (used : list str) (out rs : list release),
    releases_of user_repo tags_list (dedup_by_version used l) = Some rs ->
    release_loop max user_repo tags_list l used out = Ok (out ++ rs).
Proof.
  intro Hmax.
  induction l as [|a l IH]; intros used out rs H.
  - injection H as <-. cbn [release_loop]. now rewrite app_nil_r.
  - cbn [dedup_by_version] in H. cbn [release_loop].
    destruct (PyStr.mem_string (vi_version a) used); [now apply IH|].
    cbn [releases_of] in H. unfold release_of in H.
    unfold TagDict.lookup.
    destruct (TagDict.find (VStr (vi_prefix a ++ vi_version a)) tags_list)
      as [date|]; [|discriminate].
    destruct (releases_of user_repo tags_list
                (dedup_by_version (vi_version a :: used) l))
      as [rs'|] eqn:Er; [|discriminate].
    injection H as <-. cbn [obind].
    assert (H0 : (0 <? max)%Z = false) by now apply Z.ltb_ge.
    rewrite H0. cbn [andb].
    rewrite (IH (vi_version a :: used) _ rs' Er).
    now rewrite <- app_assoc.
Qed.

(** The loop from its initial state. *)
Lemma release_loop_cap (max : Z) (user_repo : str) (tags_list : tag_dict)
    (l : list version_info) (rs : list release) :
  releases_of user_repo tags_list (cap max (dedup_by_version [] l))
    = Some rs ->
  release_loop max user_repo tags_list l [] [] = Ok rs.
Proof.
  unfold cap. destruct (0 <? max)%Z eqn:E; intro H.
  - apply Z.ltb_lt in E.
    apply (release_loop_capped user_repo tags_list E l [] []).
    + cbn [List.length]. lia.
    + cbn [List.length]. now rewrite Nat.sub_0_r.
  - apply Z.ltb_ge in E.
    now apply (release_loop_uncapped user_repo tags_list E l [] []).
Qed.

Section TagMode.

Variable W : Type.
Variable fetch_json : value -> bool -> W -> outcome value * W.
Variable version_process :
  list value -> option str -> outcome (list version_info).
Variable version_sort : list version_info -> bool -> list version_info.
Variable py_repr : value -> str.
Variable st : settings.

(** The version collaborator's order: [version_gt a b] says that [a] is a
    later version than [b]. *)
Variable version_gt : str -> str -> Prop.

(** The walk over the pages of tags adds the items of every page, in the
    order of the pages, to the dictionary. *)
Lemma tags_walk_pages :
  forall (pages : list value) (url url' : value) (w w' : W),
    chain fetch_json false url w pages url' w' ->
    Py.truthy url' = false ->
    forall (items : list value) (acc tags_list : tag_dict) (fuel : nat),
      all_items pages = Ok items ->
      add_tags items acc = Ok tags_list ->
      List.length pages <= fuel ->
      tags_walk fetch_json fuel url acc w = (Ok tags_list, w').
Proof.
  induction 1 as [url w | url w page w1 next pages url' w' Ht Hf Hn Hc IH];
    intros Hend items acc tags_list fuel Hi Ha Hl.
  - injection Hi as <-. cbn [add_tags] in Ha. injection Ha as <-.
    destruct fuel; cbn [tags_walk]; now rewrite Hend.
  - cbn [all_items] in Hi.
    destruct (page_items page) as [here| |] eqn:Eh; try discriminate.
    destruct (all_items pages) as [more| |] eqn:Em; try discriminate.
    cbn [obind] in Hi. injection Hi as <-.
    destruct (page_items_inv _ Eh) as [values [Hv Hit]].
    rewrite add_tags_app in Ha.
    destruct (add_tags here acc) as [acc'| |] eqn:Ea; try discriminate.
    cbn [obind] in Ha.
    destruct fuel as [|fuel]; [cbn [List.length] in Hl; lia|].
    cbn [tags_walk]. rewrite Ht. unfold bind, lift.
    rewrite Hf, Hv, Hit, Ea, Hn.
    apply (IH Hend more acc' tags_list fuel eq_refl Ha).
    cbn [List.length] in Hl. lia.
Qed.

(** [download_info] on a tags URL whose pages all arrive: the sentinel
    when the sorted list of versions is empty, else what the loop over it
    gives. *)
Lemma tags_mode_run :
  forall (fuel : nat) (url : str) (tag_prefix : option str)
         (user_repo : str) (groups : list str)
         (pages items : list value) (url' : value) (tags_list : tag_dict)
         (infos : list version_info) (w w' : W),
    Re.re_match "https?://bitbucket.org/([^/]+/[^#/]+)/?#tags$" url
      = Some (user_repo :: groups) ->
    chain fetch_json false
      (VStr (_make_api_url user_repo "/refs/tags?pagelen=100")) w
      pages url' w' ->
    Py.truthy url' = false ->
    all_items pages = Ok items ->
    add_tags items [] = Ok tags_list ->
    List.length pages <= fuel ->
    version_process (TagDict.keys tags_list) tag_prefix = Ok infos ->
    download_info fetch_json version_process version_sort py_repr st
      fuel url tag_prefix w =
    match version_sort infos true with
    | [] => (Ok DFalse, w')
    | info :: rest =>
        (output <~ release_loop (get_max_releases st) user_repo tags_list
                     (info :: rest) [] [] ;;
         Ok (DList output), w')
    end.
Proof.
  intros fuel url tag_prefix user_repo groups pages items url' tags_list
         infos w w' Hm Hc Hend Hi Ha Hl Hv.
  unfold download_info. rewrite Hm. unfold bind, lift, ret.
  rewrite (tags_walk_pages Hc Hend _ Hi Ha Hl). rewrite Hv.
  destruct (version_sort infos true) as [|info rest]; [reflexivity|].
  destruct (release_loop (get_max_releases st) user_repo tags_list
              (info :: rest) [] []); reflexivity.
Qed.

(** C2.  On a tags URL, [download_info] walks the pages of tags up to the
    one without a next link and merges their tags into one dictionary from
    name to date; of the versions the collaborator makes of the names,
    sorted from latest to earliest, it keeps for each version the first
    entry; the releases it returns are those of the entries kept, in that
    order, so strictly descending and without a repeated version. *)
Theorem tags_mode_sorted_dedup :
  forall (fuel : nat) (url : str) (tag_prefix : option str)
         (user_repo : str) (groups : list str)
         (pages items : list value) (url' : value) (tags_list : tag_dict)
         (infos sorted kept : list version_info) (rs : list release)
         (w w' : W),
    Re.re_match "https?://bitbucket.org/([^/]+/[^#/]+)/?#tags$" url
      = Some (user_repo :: groups) ->
    chain fetch_json false
      (VStr (_make_api_url user_repo "/refs/tags?pagelen=100")) w
      pages url' w' ->
    Py.truthy url' = false ->
    all_items pages = Ok items ->
    add_tags items [] = Ok tags_list ->
    List.length pages <= fuel ->
    version_process (TagDict.keys tags_list) tag_prefix = Ok infos ->
    sorted = version_sort infos true ->
    sorted <> [] ->
    StronglySorted (fun a b => version_gt a b \/ a = b)
      (map vi_version sorted) ->
    kept = cap (get_max_releases st) (dedup_by_version [] sorted) ->
    releases_of user_repo tags_list kept = Some rs ->
    download_info fetch_json version_process version_sort py_repr st
      fuel url tag_prefix w = (Ok (DList rs), w') /\
    Forall2 (fun i r => release_of user_repo tags_list i = Some r) kept rs /\
    StronglySorted version_gt (map rel_version rs) /\
    NoDup (map rel_version rs) /\
    Forall (fun i => first_with_version (vi_version i) sorted = Some i) kept.
Proof.
  intros fuel url tag_prefix user_repo groups pages items url' tags_list
         infos sorted kept rs w w' Hm Hc Hend Hi Ha Hl Hv Hs Hne Hsorted
         Hk Hr.
  assert (Hd : NoDup (map vi_version kept)).
  { subst kept. apply cap_NoDup, dedup_NoDup. }
  repeat split.
  - rewrite (@tags_mode_run _ _ _ _ _ _ _ _ _ _ _ _ Hm Hc Hend Hi Ha Hl Hv).
    rewrite <- Hs. destruct sorted as [|info rest]; [now elim Hne|].
    subst kept. now rewrite (@release_loop_cap _ _ _ _ _ Hr).
  - now apply releases_of_each.
  - rewrite (releases_of_versions _ _ _ Hr).
    apply sorted_strict; [|exact Hd].
    subst kept. now apply cap_sorted, dedup_sorted.
  - now rewrite (releases_of_versions _ _ _ Hr).
  - rewrite Forall_forall. intros i Hin. subst kept.
    apply cap_incl in Hin. now apply dedup_first with (seen := []).
Qed.

(** C3, as the code has it.  The list holds the releases of the different
    versions up to [max_releases] of them when that setting is positive,
    and of all of them when it is zero or negative; with [max_releases]
    at 1 it holds exactly one. *)
Theorem tags_mode_cap :
  forall (fuel : nat) (url : str) (tag_prefix : option str)
         (user_repo : str) (groups : list str)
         (pages items : list value) (url' : value) (tags_list : tag_dict)
         (infos sorted kept : list version_info) (rs : list release)
         (w w' : W),
    Re.re_match "https?://bitbucket.org/([^/]+/[^#/]+)/?#tags$" url
      = Some (user_repo :: groups) ->
    chain fetch_json false
      (VStr (_make_api_url user_repo "/refs/tags?pagelen=100")) w
      pages url' w' ->
    Py.truthy url' = false ->
    all_items pages = Ok items ->
    add_tags items [] = Ok tags_list ->
    List.length pages <= fuel ->
    version_process (TagDict.keys tags_list) tag_prefix = Ok infos ->
    sorted = version_sort infos true ->
    sorted <> [] ->
    kept = cap (get_max_releases st) (dedup_by_version [] sorted) ->
    releases_of user_repo tags_list kept = Some rs ->
    download_info fetch_json version_process version_sort py_repr st
      fuel url tag_prefix w = (Ok (DList rs), w') /\
    ((0 < get_max_releases st)%Z ->
     List.length rs =
       Nat.min (Z.to_nat (get_max_releases st))
         (List.length (dedup_by_version [] sorted)) /\
     (Z.of_nat (List.length rs) <= get_max_releases st)%Z) /\
    ((get_max_releases st <= 0)%Z ->
     List.length rs = List.length (dedup_by_version [] sorted)) /\
    (get_max_releases st = 1%Z -> List.length rs = 1).
Proof.
  intros fuel url tag_prefix user_repo groups pages items url' tags_list
         infos sorted kept rs w w' Hm Hc Hend Hi Ha Hl Hv Hs Hne Hk Hr.
  assert (Hlen : List.length rs = List.length kept)
    by now apply releases_of_length in Hr.
  assert (Hpos : (0 < get_max_releases st)%Z ->
                 List.length rs =
                 Nat.min (Z.to_nat (get_max_releases st))
                   (List.length (dedup_by_version [] sorted))).
  { intro Hp. rewrite Hlen, Hk. unfold cap.
    apply Z.ltb_lt in Hp. rewrite Hp. apply length_firstn. }
  split; [|split; [|split]].
  - rewrite (@tags_mode_run _ _ _ _ _ _ _ _ _ _ _ _ Hm Hc Hend Hi Ha Hl Hv).
    rewrite <- Hs. destruct sorted as [|info rest]; [now elim Hne|].
    subst kept. now rewrite (@release_loop_cap _ _ _ _ _ Hr).
  - intro Hp. split; [now apply Hpos|]. rewrite (Hpos Hp). lia.
  - intro Hz. rewrite Hlen, Hk. unfold cap.
    apply Z.ltb_ge in Hz. now rewrite Hz.
  - intro H1. rewrite Hpos by lia. rewrite H1.
    destruct sorted as [|info rest]; [now elim Hne|].
    cbn [dedup_by_version PyStr.mem_string existsb List.length]. lia.
Qed.

(** C4.  On a tags URL whose names give the version collaborator nothing,
    be it that there is no tag or that it rejects them all,
    [download_info] returns [False], which is neither [None] nor the empty
    list. *)
Theorem tags_mode_no_version :
  forall (fuel : nat) (url : str) (tag_prefix : option str)
         (user_repo : str) (groups : list str)
         (pages items : list value) (url' : value) (tags_list : tag_dict)
         (w w' : W),
    Re.re_match "https?://bitbucket.org/([^/]+/[^#/]+)/?#tags$" url
      = Some (user_repo :: groups) ->
    chain fetch_json false
      (VStr (_make_api_url user_repo "/refs/tags?pagelen=100")) w
      pages url' w' ->
    Py.truthy url' = false ->
    all_items pages = Ok items ->
    add_tags items [] = Ok tags_list ->
    List.length pages <= fuel ->
    version_process (TagDict.keys tags_list) tag_prefix = Ok [] ->
    version_sort [] true = [] ->
    download_info fetch_json version_process version_sort py_repr st
      fuel url tag_prefix w = (Ok DFalse, w') /\
    DFalse <> DNone /\
    DFalse <> DList [].
Proof.
  intros fuel url tag_prefix user_repo groups pages items url' tags_list
         w w' Hm Hc Hend Hi Ha Hl Hv Hs.
  split; [|split; discriminate].
  rewrite (@tags_mode_run _ _ _ _ _ _ _ _ _ _ _ _ Hm Hc Hend Hi Ha Hl Hv).
  now rewrite Hs.
Qed.

End TagMode.

(** C2 on the demo site: two pages of tags, [2.0] and [v2.0] for the same
    version, [nightly] no version. *)
Lemma tags_mode_sorted_dedup_witness :
  Demo.download_info Demo.unlimited 5 "https://bitbucket.org/owner/repo#tags"
    None [] =
  (Ok (DList
         [ {| rel_url := "https://bitbucket.org/owner/repo/get/2.0.zip";
              rel_version := "2.0";
              rel_date := "2021-05-06 12:00:00" |};
           {| rel_url := "https://bitbucket.org/owner/repo/get/1.5.zip";
              rel_version := "1.5";
              rel_date := "2020-11-12 13:14:15" |};
           {| rel_url := "https://bitbucket.org/owner/repo/get/v1.0.zip";
              rel_version := "1.0";
              rel_date := "2020-01-02 03:04:05" |} ]),
   [(VStr "https://api.bitbucket.org/page2", false);
    (VStr "https://api.bitbucket.org/2.0/repositories/owner/repo/refs/tags?pagelen=100",
     false)]).
Proof.
  refine (proj1 (@tags_mode_sorted_dedup Demo.world
            (Demo.fetch Demo.pages) Demo.version_process Demo.version_sort
            Demo.py_repr Demo.unlimited Demo.version_gt 5
            "https://bitbucket.org/owner/repo#tags" None "owner/repo" []
            [Demo.tags_page_1; Demo.tags_page_2]
            [Demo.tag "v1.0" "2020-01-02T03:04:05+00:00";
             Demo.tag "2.0" "2021-05-06T12:00:00+00:00";
             Demo.tag "v2.0" "2021-06-07T08:09:10+00:00";
             Demo.tag "1.5" "2020-11-12T13:14:15+00:00";
             Demo.tag "nightly" "2022-01-01T00:00:00+00:00"]
            VNone
            [(VStr "v1.0", "2020-01-02 03:04:05");
             (VStr "2.0", "2021-05-06 12:00:00");
             (VStr "v2.0", "2021-06-07 08:09:10");
             (VStr "1.5", "2020-11-12 13:14:15");
             (VStr "nightly", "2022-01-01 00:00:00")]
            [ {| vi_version := "1.0"; vi_prefix := "v" |};
              {| vi_version := "2.0"; vi_prefix := "" |};
              {| vi_version := "2.0"; vi_prefix := "v" |};
              {| vi_version := "1.5"; vi_prefix := "" |} ]
            [ {| vi_version := "2.0"; vi_prefix := "" |};
              {| vi_version := "2.0"; vi_prefix := "v" |};
              {| vi_version := "1.5"; vi_prefix := "" |};
              {| vi_version := "1.0"; vi_prefix := "v" |} ]
            [ {| vi_version := "2.0"; vi_prefix := "" |};
              {| vi_version := "1.5"; vi_prefix := "" |};
              {| vi_version := "1.0"; vi_prefix := "v" |} ]
            _ [] _ _ _ _ _ _ _ _ _ _ _ _ _)).
  - vm_compute; reflexivity.
  - eapply chain_step; [vm_compute; reflexivity ..|].
    eapply chain_step; [vm_compute; reflexivity ..|].
    apply chain_done.
  - reflexivity.
  - vm_compute; reflexivity.
  - vm_compute; reflexivity.
  - simpl. lia.
  - vm_compute; reflexivity.
  - vm_compute; reflexivity.
  - discriminate.
  - unfold Demo.version_gt. cbn [map vi_version].
    repeat first [ apply SSorted_nil | apply SSorted_cons
                 | apply Forall_nil | apply Forall_cons
                 | left; vm_compute; reflexivity
                 | right; reflexivity ].
  - vm_compute; reflexivity.
  - vm_compute; reflexivity.
Defined.

(** C3 on the demo site: three different versions, [max_releases] 1. *)
Lemma tags_mode_cap_witness :
  Demo.download_info (Demo.limited 1) 5
    "https://bitbucket.org/owner/repo#tags" None [] =
  (Ok (DList
         [ {| rel_url := "https://bitbucket.org/owner/repo/get/2.0.zip";
              rel_version := "2.0";
              rel_date := "2021-05-06 12:00:00" |} ]),
   [(VStr "https://api.bitbucket.org/page2", false);
    (VStr "https://api.bitbucket.org/2.0/repositories/owner/repo/refs/tags?pagelen=100",
     false)]).
Proof.
  refine (proj1 (@tags_mode_cap Demo.world
            (Demo.fetch Demo.pages) Demo.version_process Demo.version_sort
            Demo.py_repr (Demo.limited 1) 5
            "https://bitbucket.org/owner/repo#tags" None "owner/repo" []
            [Demo.tags_page_1; Demo.tags_page_2]
            [Demo.tag "v1.0" "2020-01-02T03:04:05+00:00";
             Demo.tag "2.0" "2021-05-06T12:00:00+00:00";
             Demo.tag "v2.0" "2021-06-07T08:09:10+00:00";
             Demo.tag "1.5" "2020-11-12T13:14:15+00:00";
             Demo.tag "nightly" "2022-01-01T00:00:00+00:00"]
            VNone
            [(VStr "v1.0", "2020-01-02 03:04:05");
             (VStr "2.0", "2021-05-06 12:00:00");
             (VStr "v2.0", "2021-06-07 08:09:10");
             (VStr "1.5", "2020-11-12 13:14:15");
             (VStr "nightly", "2022-01-01 00:00:00")]
            [ {| vi_version := "1.0"; vi_prefix := "v" |};
              {| vi_version := "2.0"; vi_prefix := "" |};
              {| vi_version := "2.0"; vi_prefix := "v" |};
              {| vi_version := "1.5"; vi_prefix := "" |} ]
            [ {| vi_version := "2.0"; vi_prefix := "" |};
              {| vi_version := "2.0"; vi_prefix := "v" |};
              {| vi_version := "1.5"; vi_prefix := "" |};
              {| vi_version := "1.0"; vi_prefix := "v" |} ]
            [ {| vi_version := "2.0"; vi_prefix := "" |} ]
            _ [] _ _ _ _ _ _ _ _ _ _ _ _)).
  - vm_compute; reflexivity.
  - eapply chain_step; [vm_compute; reflexivity ..|].
    eapply chain_step; [vm_compute; reflexivity ..|].
    apply chain_done.
  - reflexivity.
  - vm_compute; reflexivity.
  - vm_compute; reflexivity.
  - simpl. lia.
  - vm_compute; reflexivity.
  - vm_compute; reflexivity.
  - discriminate.
  - vm_compute; reflexivity.
  - vm_compute; reflexivity.
Defined.

(** C3 as stated fails for a negative [max_releases]: the setting is not
    zero, yet the list is not cut, and its three entries are more than
    the setting allows. *)
Lemma tags_mode_negative_cap_unbounded :
  get_max_releases (Demo.limited (-1)) = (-1)%Z /\
  Demo.download_info (Demo.limited (-1)) 5
    "https://bitbucket.org/owner/repo#tags" None [] =
  (Ok (DList
         [ {| rel_url := "https://bitbucket.org/owner/repo/get/2.0.zip";
              rel_version := "2.0";
              rel_date := "2021-05-06 12:00:00" |};
           {| rel_url := "https://bitbucket.org/owner/repo/get/1.5.zip";
              rel_version := "1.5";
              rel_date := "2020-11-12 13:14:15" |};
           {| rel_url := "https://bitbucket.org/owner/repo/get/v1.0.zip";
              rel_version := "1.0";
              rel_date := "2020-01-02 03:04:05" |} ]),
   [(VStr "https://api.bitbucket.org/page2", false);
    (VStr "https://api.bitbucket.org/2.0/repositories/owner/repo/refs/tags?pagelen=100",
     false)]) /\
  ~ (3 <= get_max_releases (Demo.limited (-1)))%Z.
Proof.
  split; [reflexivity|]. split; [vm_compute; reflexivity|].
  cbn [get_max_releases st_max_releases Demo.limited]. lia.
Qed.

(** C4 on the demo site: the only tag, [nightly], is no version. *)
Lemma tags_mode_no_version_witness :
  Demo.download_info Demo.unlimited 5 "https://bitbucket.org/owner/bare#tags"
    None [] =
  (Ok DFalse,
   [(VStr "https://api.bitbucket.org/2.0/repositories/owner/bare/refs/tags?pagelen=100",
     false)]).
Proof.
  refine (proj1 (@tags_mode_no_version Demo.world
            (Demo.fetch Demo.pages) Demo.version_process Demo.version_sort
            Demo.py_repr Demo.unlimited 5
            "https://bitbucket.org/owner/bare#tags" None "owner/bare" []
            [VDict [("values",
                     VList [Demo.tag "nightly" "2022-01-01T00:00:00+00:00"])]]
            [Demo.tag "nightly" "2022-01-01T00:00:00+00:00"]
            VNone
            [(VStr "nightly", "2022-01-01 00:00:00")]
            [] _ _ _ _ _ _ _ _ _)).
  - vm_compute; reflexivity.
  - eapply chain_step; [vm_compute; reflexivity ..|]. apply chain_done.
  - reflexivity.
  - vm_compute; reflexivity.
  - vm_compute; reflexivity.
  - simpl. lia.
  - vm_compute; reflexivity.
  - reflexivity.
Defined.


(* ------------------------------------------------------------------ *)
(** * Further properties of the client *)

(** ** The shapes of URL *)

(** A match has as many groups as the pattern closes. *)
Lemma run_groups :
  forall (p : list Re.item) (opens caps : list str) (s : str)
         (r : list str),
    Re.run p opens caps s = Some r ->
    List.length r = List.length caps + Re.closes p.
Proof.
  induction p as [|x p IH]; intros opens caps s r H; simpl in H.
  - injection H as <-. rewrite length_rev. simpl. lia.
  - destruct x; cbn [Re.closes].
    + destruct s as [|c s]; [discriminate|].
      destruct (Re.cmatch k c); [|discriminate]. exact (IH _ _ _ _ H).
    + destruct s as [|c s]; [exact (IH _ _ _ _ H)|].
      destruct (Re.cmatch k c); [|exact (IH _ _ _ _ H)].
      destruct (Re.run p opens caps s) as [r0|] eqn:E.
      * injection H as <-. exact (IH _ _ _ _ E).
      * exact (IH _ _ _ _ H).
    + destruct (ReFacts.plus_loop_inv _ _ _ H) as [t' [_ Hc]].
      exact (IH _ _ _ _ Hc).
    + exact (IH _ _ _ _ H).
    + destruct opens as [|o os]; [discriminate|].
      rewrite (IH _ _ _ _ H). simpl. lia.
    + destruct (Re.at_end s); [|discriminate]. exact (IH _ _ _ _ H).
Qed.

Lemma match_groups (pattern s : str) (r : list str) :
  Re.re_match pattern s = Some r ->
  List.length r = Re.closes (Re.compile pattern).
Proof. unfold Re.re_match. intro H. now rewrite (run_groups _ _ _ _ H). Qed.

Lemma branch_pattern_closes :
  Re.closes
    (Re.compile "https?://bitbucket.org/([^/]+/[^/]+)/src/([^/]+)/?$") = 2.
Proof. vm_compute. reflexivity. Qed.

(** The branch pattern gives two groups, the first of them not empty. *)
Lemma branch_match_groups (url : str) (gs : list str) :
  Re.re_match "https?://bitbucket.org/([^/]+/[^/]+)/src/([^/]+)/?$" url
    = Some gs ->
  exists g1 g2, gs = [g1; g2] /\ g1 <> "".
Proof.
  intro H.
  destruct (ReFacts.first_group_nonempty _ _ branch_pattern_group H)
    as [g [more [-> Hg]]].
  pose proof (match_groups _ _ H) as Hlen.
  rewrite branch_pattern_closes in Hlen.
  destruct more as [|g2 [|g3 more]]; try discriminate Hlen.
  exists g, g2. split; [reflexivity | exact Hg].
Qed.

(** The results of [_user_repo_branch], case by case. *)
Lemma user_repo_branch_cases :
  forall url : str,
    match _user_repo_branch url with
    | (Some user_repo, _) => user_repo <> ""
    | (None, Some _) => False
    | (None, None) =>
        Re.re_match "https?://bitbucket.org/([^/]+/[^/]+)/src/([^/]+)/?$" url
          = None /\
        Re.re_match "https?://bitbucket.org/([^/]+/[^/]+)/?$" url = None
    end.
Proof.
  intro url. unfold _user_repo_branch.
  destruct (Re.re_match
              "https?://bitbucket.org/([^/]+/[^/]+)/src/([^/]+)/?$" url)
    as [gs|] eqn:E1.
  - destruct (branch_match_groups _ E1) as [g1 [g2 [-> Hg]]]. exact Hg.
  - destruct (Re.re_match "https?://bitbucket.org/([^/]+/[^/]+)/?$" url)
      as [gs|] eqn:E2.
    + destruct (ReFacts.first_group_nonempty _ _ repo_pattern_group E2)
        as [g [more [-> Hg]]]. exact Hg.
    + split; reflexivity.
Qed.

(** X1.  [_user_repo_branch] gives a branch only together with a
    repository, a repository it gives is never the empty string, and it
    gives no repository only when neither of its patterns matches. *)
Theorem user_repo_branch_shape :
  forall (url : str) (user_repo branch : option str),
    _user_repo_branch url = (user_repo, branch) ->
    match user_repo with
    | Some s => s <> ""
    | None =>
        branch = None /\
        Re.re_match "https?://bitbucket.org/([^/]+/[^/]+)/src/([^/]+)/?$" url
          = None /\
        Re.re_match "https?://bitbucket.org/([^/]+/[^/]+)/?$" url = None
    end.
Proof.
  intros url user_repo branch.
  pose proof (user_repo_branch_cases url) as Hc. revert Hc.
  destruct (_user_repo_branch url) as [[s|] [b|]];
    intros Hc H; injection H as <- <-.
  - exact Hc.
  - exact Hc.
  - destruct Hc.
  - split; [reflexivity | exact Hc].
Qed.

Lemma user_repo_branch_shape_witness : "owner/repo" <> "".
Proof.
  apply (@user_repo_branch_shape "https://bitbucket.org/owner/repo/src/dev"
           (Some "owner/repo") (Some "dev")).
  vm_compute; reflexivity.
Defined.

(** X2.  On a bare repository URL, [make_tags_url] and [make_branch_url]
    build their URLs around the very [user/repo] that
    [_user_repo_branch] reads from it. *)
Theorem make_urls_agree_with_user_repo :
  forall (url branch user_repo : str),
    _user_repo_branch url = (Some user_repo, None) ->
    make_tags_url url =
      Some ("https://bitbucket.org/" ++ user_repo ++ "#tags")%str /\
    make_branch_url url branch =
      (quoted <~ Py.quote branch ;;
       Ok (Some ("https://bitbucket.org/" ++ user_repo ++ "/src/" ++
                 quoted)%str)).
Proof.
  intros url branch user_repo.
  unfold _user_repo_branch, make_tags_url, make_branch_url.
  destruct (Re.re_match
              "https?://bitbucket.org/([^/]+/[^/]+)/src/([^/]+)/?$" url)
    as [gs|] eqn:E1.
  - destruct (branch_match_groups _ E1) as [g1 [g2 [-> _]]].
    intro H. discriminate H.
  - destruct (Re.re_match "https?://bitbucket.org/([^/]+/[^/]+)/?$" url)
      as [[|g gs]|]; intro H; try discriminate H.
    injection H as <-. split; reflexivity.
Qed.

Lemma make_urls_agree_with_user_repo_witness :
  make_tags_url "https://bitbucket.org/owner/repo/" =
    Some "https://bitbucket.org/owner/repo#tags" /\
  make_branch_url "https://bitbucket.org/owner/repo/" "fix me" =
    Ok (Some "https://bitbucket.org/owner/repo/src/fix%20me").
Proof.
  apply (@make_urls_agree_with_user_repo
           "https://bitbucket.org/owner/repo/" "fix me" "owner/repo").
  vm_compute; reflexivity.
Defined.

(** X3.  The URL [make_repo_url] builds is on [bitbucket.com], and none of
    the client's own patterns accepts it, whatever the owner and the
    repository. *)
Theorem make_repo_url_not_accepted :
  forall owner_name repo_name : str,
    match make_repo_url owner_name repo_name with
    | Ok url =>
        accepted_shape url = false /\
        _user_repo_branch url = (None, None) /\
        make_tags_url url = None
    | Raise e => e = UnicodeEncodeError
    | OutOfFuel => False
    end.
Proof.
  intros owner_name repo_name. unfold make_repo_url, Py.quote.
  destruct (PyStr.quote owner_name) as [owner|]; [|reflexivity].
  destruct (PyStr.quote repo_name) as [repo|]; [|reflexivity].
  cbn [obind].
  unfold accepted_shape, _user_repo_branch, make_tags_url.
  repeat split; vm_compute; reflexivity.
Qed.

(** ** A [None] tells that the URL did not match *)

Section NoMatch.

Variable W : Type.
Variable fetch_json : value -> bool -> W -> outcome value * W.
Variable version_process :
  list value -> option str -> outcome (list version_info).
Variable version_sort : list version_info -> bool -> list version_info.
Variable py_repr : value -> str.
Variable str_lower : str -> str.
Variable st : settings.

(** What every continuation excludes, the whole computation excludes. *)
Lemma bind_excludes (A B : Type) (m : M W A) (k : A -> M W B)
    (bad : B -> Prop) :
  (forall (a : A) (w : W) (b : B), fst (k a w) = Ok b -> ~ bad b) ->
  forall (w : W) (b : B), fst (bind m k w) = Ok b -> ~ bad b.
Proof.
  intros Hk w b. unfold bind.
  destruct (m w) as [[a| |] w1]; simpl; try discriminate.
  apply Hk.
Qed.

Lemma ret_excludes (B : Type) (x : B) (bad : B -> Prop) :
  ~ bad x -> forall (w : W) (b : B), fst (ret x w) = Ok b -> ~ bad b.
Proof. intros Hx w b H. simpl in H. injection H as <-. exact Hx. Qed.

(** X4.  When [download_info] returns [None], the URL has none of the
    three shapes. *)
Theorem download_info_none_unmatched :
  forall (fuel : nat) (url : str) (tag_prefix : option str) (w : W),
    fst (download_info fetch_json version_process version_sort py_repr st
           fuel url tag_prefix w) = Ok DNone ->
    accepted_shape url = false.
Proof.
  intros fuel url tag_prefix w.
  pose proof (user_repo_branch_cases url) as Hshape. revert Hshape.
  unfold accepted_shape, download_info.
  destruct (Re.re_match "https?://bitbucket.org/([^/]+/[^#/]+)/?#tags$" url)
    as [gs|] eqn:E.
  - destruct (ReFacts.first_group_nonempty _ _ tags_pattern_group E)
      as [g [more [-> _]]].
    intros _ H. exfalso. revert H.
    intro H.
    refine (@bind_excludes _ _ _ _ (fun x => x = DNone) _ w DNone H eq_refl).
    intros tags_list w0 b.
    apply bind_excludes with (bad := fun x => x = DNone).
      intros infos w1 b1.
    destruct (version_sort infos true) as [|info rest].
    + apply ret_excludes with (bad := fun x => x = DNone). discriminate.
    + apply bind_excludes with (bad := fun x => x = DNone).
      intros output w2 b2.
      apply ret_excludes with (bad := fun x => x = DNone). discriminate.
  - destruct (_user_repo_branch url) as [[user_repo|] [branch|]].
    + intros Hne H. exfalso. revert H.
      assert (Hf : falsy_str (Some user_repo) = false)
        by (simpl; now apply str_eqb_neq).
      rewrite Hf.
      intro H.
      refine (@bind_excludes _ _ _ _ (fun x => x = DNone) _ w DNone H
                eq_refl).
      intros bv w0 b.
      apply bind_excludes with (bad := fun x => x = DNone).
      intros info w1 b1.
      apply bind_excludes with (bad := fun x => x = DNone).
      intros target w2 b2.
      apply bind_excludes with (bad := fun x => x = DNone).
      intros date w3 b3.
      apply bind_excludes with (bad := fun x => x = DNone).
      intros stamp w4 b4.
      apply ret_excludes with (bad := fun x => x = DNone). discriminate.
    + intros Hne H. exfalso. revert H.
      assert (Hf : falsy_str (Some user_repo) = false)
        by (simpl; now apply str_eqb_neq).
      rewrite Hf.
      intro H.
      refine (@bind_excludes _ _ _ _ (fun x => x = DNone) _ w DNone H
                eq_refl).
      intros bv w0 b.
      apply bind_excludes with (bad := fun x => x = DNone).
      intros info w1 b1.
      apply bind_excludes with (bad := fun x => x = DNone).
      intros target w2 b2.
      apply bind_excludes with (bad := fun x => x = DNone).
      intros date w3 b3.
      apply bind_excludes with (bad := fun x => x = DNone).
      intros stamp w4 b4.
      apply ret_excludes with (bad := fun x => x = DNone). discriminate.
    + intros [].
    + intros [-> ->] _. reflexivity.
Qed.

(** X5.  When [repo_info] returns its falsy [user_repo], that is [None], and
    neither the branch pattern nor the repository pattern matches the
    URL. *)
Theorem repo_info_no_match_unmatched :
  forall (fuel : nat) (url : str) (user_repo : option str) (w : W),
    fst (repo_info fetch_json py_repr str_lower fuel url w)
      = Ok (RNoMatch user_repo) ->
    user_repo = None /\ _user_repo_branch url = (None, None).
Proof.
  intros fuel url user_repo w.
  pose proof (user_repo_branch_cases url) as Hshape. revert Hshape.
  unfold repo_info.
  destruct (_user_repo_branch url) as [[ur|] [branch|]].
  - intros Hne H. exfalso. revert H.
    assert (Hf : falsy_str (Some ur) = false)
      by (simpl; now apply str_eqb_neq).
    rewrite Hf.
    intro H.
    refine (@bind_excludes _ _ _ _ (fun x => exists u, x = RNoMatch u) _ w
              (RNoMatch user_repo) H (ex_intro _ user_repo eq_refl)).
    intros repo w0 b.
    repeat (apply bind_excludes
              with (bad := fun x => exists u, x = RNoMatch u);
            intros ? ? ?).
    apply ret_excludes with (bad := fun x => exists u, x = RNoMatch u).
    intros [u Hu]. discriminate Hu.
  - intros Hne H. exfalso. revert H.
    assert (Hf : falsy_str (Some ur) = false)
      by (simpl; now apply str_eqb_neq).
    rewrite Hf.
    intro H.
    refine (@bind_excludes _ _ _ _ (fun x => exists u, x = RNoMatch u) _ w
              (RNoMatch user_repo) H (ex_intro _ user_repo eq_refl)).
    intros repo w0 b.
    repeat (apply bind_excludes
              with (bad := fun x => exists u, x = RNoMatch u);
            intros ? ? ?).
    apply ret_excludes with (bad := fun x => exists u, x = RNoMatch u).
    intros [u Hu]. discriminate Hu.
  - intros [].
  - intros _ H. simpl in H. injection H as <-. split; reflexivity.
Qed.

End NoMatch.

Lemma download_info_none_unmatched_witness :
  accepted_shape "https://gitlab.com/owner/repo#tags" = false.
Proof.
  apply (@download_info_none_unmatched Demo.world (Demo.fetch Demo.pages)
           Demo.version_process Demo.version_sort Demo.py_repr Demo.unlimited
           3 "https://gitlab.com/owner/repo#tags" None []).
  vm_compute; reflexivity.
Defined.

Lemma repo_info_no_match_unmatched_witness :
  @None str = None /\
  _user_repo_branch "https://bitbucket.org/owner/repo/#tags" = (None, None).
Proof.
  apply (@repo_info_no_match_unmatched Demo.world (Demo.fetch Demo.pages)
           Demo.py_repr Demo.str_lower 3 "https://bitbucket.org/owner/repo/#tags" None []).
  vm_compute; reflexivity.
Defined.

(** ** More on tag mode *)

Lemma key_eqb_str_l (k : value) (name : str) :
  Py.key_eqb k (VStr name) = true -> k = VStr name.
Proof.
  destruct k as [|b|z|s|l|d]; simpl; try discriminate.
  intro H. apply str_eqb_eq in H. now subst s.
Qed.

Lemma key_eqb_str_r (k : value) (name : str) :
  Py.key_eqb (VStr name) k = true -> k = VStr name.
Proof.
  destruct k as [|b|z|s|l|d]; simpl; try discriminate.
  intro H. apply str_eqb_eq in H. now subst s.
Qed.

Lemma key_eqb_str_refl (name : str) :
  Py.key_eqb (VStr name) (VStr name) = true.
Proof. simpl. apply str_eqb_refl. Qed.

(** Reading a name after an assignment to the dictionary. *)
Lemma find_update (k : value) (x name : str) :
  forall d : tag_dict,
    TagDict.find (VStr name) (TagDict.update k x d) =
    if Py.key_eqb k (VStr name) then Some x
    else TagDict.find (VStr name) d.
Proof.
  induction d as [|[k' x'] d IH]; [reflexivity|].
  cbn [TagDict.update].
  destruct (Py.key_eqb k' k) eqn:Ek; cbn [TagDict.find].
  - destruct (Py.key_eqb k' (VStr name)) eqn:En.
    + apply key_eqb_str_l in En. subst k'.
      apply key_eqb_str_r in Ek. subst k.
      now rewrite key_eqb_str_refl.
    + destruct (Py.key_eqb k (VStr name)) eqn:Ekn; [|reflexivity].
      apply key_eqb_str_l in Ekn. subst k. congruence.
  - rewrite IH.
    destruct (Py.key_eqb k' (VStr name)) eqn:En; [|reflexivity].
    apply key_eqb_str_l in En. subst k'.
    destruct (Py.key_eqb k (VStr name)) eqn:Ekn; [|reflexivity].
    apply key_eqb_str_l in Ekn. subst k.
    rewrite key_eqb_str_refl in Ek. discriminate.
Qed.

(** X6.  After the loop over the tags, a name has the date of the last tag
    that carries it, and a name no tag carries has the date it had. *)
Theorem add_tags_latest :
  forall (name : str) (tags : list value) (acc tags_list : tag_dict),
    add_tags tags acc = Ok tags_list ->
    TagDict.find (VStr name) tags_list =
    latest name tags (TagDict.find (VStr name) acc).
Proof.
  intro name. induction tags as [|tag tags IH]; intros acc tags_list H.
  - injection H as <-. reflexivity.
  - cbn [add_tags] in H. cbn [latest]. unfold stamp_named.
    destruct (Py.subscript tag "target") as [target| |]; try discriminate.
    cbn [obind] in *.
    destruct (Py.subscript target "date") as [date| |]; try discriminate.
    cbn [obind] in *.
    destruct (timestamp_of date) as [stamp| |]; try discriminate.
    cbn [obind] in *.
    destruct (Py.subscript tag "name") as [key| |]; try discriminate.
    cbn [obind] in *. unfold TagDict.set in H.
    destruct (Py.hashable key); [|discriminate].
    cbn [obind] in H. rewrite (IH _ _ H). rewrite find_update.
    now destruct (Py.key_eqb key (VStr name)).
Qed.

Lemma add_tags_latest_witness :
  TagDict.find (VStr "v1.0")
    [(VStr "v1.0", "2021-05-06 12:00:00"); (VStr "v2.0", "2020-11-12 13:14:15")]
  = Some "2021-05-06 12:00:00".
Proof.
  apply (@add_tags_latest "v1.0"
           [Demo.tag "v1.0" "2020-01-02T03:04:05+00:00";
            Demo.tag "v2.0" "2020-11-12T13:14:15+00:00";
            Demo.tag "v1.0" "2021-05-06T12:00:00+00:00"] []
           [(VStr "v1.0", "2021-05-06 12:00:00");
            (VStr "v2.0", "2020-11-12 13:14:15")]).
  vm_compute; reflexivity.
Defined.

Lemma find_key (tag : str) :
  forall d : tag_dict,
    In (VStr tag) (TagDict.keys d) ->
    exists x, TagDict.find (VStr tag) d = Some x.
Proof.
  induction d as [|[k x] d IH]; intro H; [destruct H|].
  cbn [TagDict.find].
  destruct (Py.key_eqb k (VStr tag)) eqn:E; [now exists x|].
  destruct H as [H | H]; [|now apply IH].
  simpl in H. subst k. rewrite key_eqb_str_refl in E. discriminate.
Qed.

Lemma releases_of_defined (user_repo : str) (tags_list : tag_dict) :
  forall l : list version_info,
    (forall i, In i l -> In (VStr (tag_of i)) (TagDict.keys tags_list)) ->
    exists rs, releases_of user_repo tags_list l = Some rs.
Proof.
  induction l as [|i l IH]; intro H; [now exists []|].
  destruct (find_key _ _ (H i (or_introl eq_refl))) as [x Hx].
  destruct IH as [rs Hrs]; [intros j Hj; apply H; now right|].
  cbn [releases_of]. unfold release_of. unfold tag_of in Hx.
  rewrite Hx, Hrs. eexists. reflexivity.
Qed.

Section TagModeMore.

Variable W : Type.
Variable fetch_json : value -> bool -> W -> outcome value * W.
Variable version_process :
  list value -> option str -> outcome (list version_info).
Variable version_sort : list version_info -> bool -> list version_info.
Variable py_repr : value -> str.
Variable st : settings.

(** The walk along pages that arrive, up to any place of the chain. *)
Lemma tags_walk_along :
  forall (pages : list value) (url url' : value) (w w' : W),
    chain fetch_json false url w pages url' w' ->
    forall (items : list value) (acc acc' : tag_dict) (fuel : nat),
      all_items pages = Ok items ->
      add_tags items acc = Ok acc' ->
      List.length pages <= fuel ->
      tags_walk fetch_json fuel url acc w =
      tags_walk fetch_json (fuel - List.length pages) url' acc' w'.
Proof.
  induction 1 as [url w | url w page w1 next pages url' w' Ht Hf Hn Hc IH];
    intros items acc acc' fuel Hi Ha Hl.
  - injection Hi as <-. cbn [add_tags] in Ha. injection Ha as <-.
    cbn [List.length]. now rewrite Nat.sub_0_r.
  - cbn [all_items] in Hi.
    destruct (page_items page) as [here| |] eqn:Eh; try discriminate.
    destruct (all_items pages) as [more| |] eqn:Em; try discriminate.
    cbn [obind] in Hi. injection Hi as <-.
    destruct (page_items_inv _ Eh) as [values [Hv Hit]].
    rewrite add_tags_app in Ha.
    destruct (add_tags here acc) as [acc1| |] eqn:Ea; try discriminate.
    cbn [obind] in Ha.
    destruct fuel as [|fuel]; [cbn [List.length] in Hl; lia|].
    cbn [tags_walk]. rewrite Ht. unfold bind, lift.
    rewrite Hf, Hv, Hit, Ea, Hn. cbn [List.length Nat.sub].
    apply (IH more acc1 acc' fuel eq_refl Ha).
    cbn [List.length] in Hl. lia.
Qed.

(** X7.  In tag mode nothing is tolerated: when the request for a page of
    tags fails, be it the first or a later one, be it with a 404,
    [download_info] fails with that exception and returns none of the
    tags it has read. *)
Theorem tags_mode_request_failure :
  forall (fuel : nat) (url : str) (tag_prefix : option str)
         (user_repo : str) (groups : list str)
         (pages items : list value) (url' : value) (tags_list : tag_dict)
         (e : exn) (w w' w'' : W),
    Re.re_match "https?://bitbucket.org/([^/]+/[^#/]+)/?#tags$" url
      = Some (user_repo :: groups) ->
    chain fetch_json false
      (VStr (_make_api_url user_repo "/refs/tags?pagelen=100")) w
      pages url' w' ->
    all_items pages = Ok items ->
    add_tags items [] = Ok tags_list ->
    Py.truthy url' = true ->
    fetch_json url' false w' = (Raise e, w'') ->
    List.length pages < fuel ->
    download_info fetch_json version_process version_sort py_repr st
      fuel url tag_prefix w = (Raise e, w'').
Proof.
  intros fuel url tag_prefix user_repo groups pages items url' tags_list
         e w w' w'' Hm Hc Hi Ha Ht Hf Hl.
  unfold download_info. rewrite Hm. unfold bind at 1.
  rewrite (tags_walk_along Hc _ Hi Ha (Nat.lt_le_incl _ _ Hl)).
  destruct (fuel - List.length pages) as [|n] eqn:E; [lia|].
  cbn [tags_walk]. rewrite Ht. unfold bind at 1. now rewrite Hf.
Qed.

(** X8.  When every entry the version collaborator returns stands for one
    of the names it was given, the loop over the entries finds every date
    it looks up, and [download_info] returns the releases of the entries
    kept. *)
Theorem tags_mode_total :
  forall (fuel : nat) (url : str) (tag_prefix : option str)
         (user_repo : str) (groups : list str)
         (pages items : list value) (url' : value) (tags_list : tag_dict)
         (infos sorted : list version_info) (w w' : W),
    Re.re_match "https?://bitbucket.org/([^/]+/[^#/]+)/?#tags$" url
      = Some (user_repo :: groups) ->
    chain fetch_json false
      (VStr (_make_api_url user_repo "/refs/tags?pagelen=100")) w
      pages url' w' ->
    Py.truthy url' = false ->
    all_items pages = Ok items ->
    add_tags items [] = Ok tags_list ->
    List.length pages <= fuel ->
    version_process (TagDict.keys tags_list) tag_prefix = Ok infos ->
    sorted = version_sort infos true ->
    sorted <> [] ->
    Forall (fun i => In (VStr (tag_of i)) (TagDict.keys tags_list)) sorted ->
    exists rs : list release,
      releases_of user_repo tags_list
        (cap (get_max_releases st) (dedup_by_version [] sorted)) = Some rs /\
      download_info fetch_json version_process version_sort py_repr st
        fuel url tag_prefix w = (Ok (DList rs), w').
Proof.
  intros fuel url tag_prefix user_repo groups pages items url' tags_list
         infos sorted w w' Hm Hc Hend Hi Ha Hl Hv Hs Hne Hall.
  destruct (@releases_of_defined user_repo tags_list
              (cap (get_max_releases st) (dedup_by_version [] sorted)))
    as [rs Hrs].
  { intros i Hin. rewrite Forall_forall in Hall. apply Hall.
    apply cap_incl in Hin. now apply dedup_In in Hin. }
  exists rs. split; [exact Hrs|].
  rewrite (@tags_mode_run _ fetch_json version_process version_sort py_repr
             st _ _ _ _ _ _ _ _ _ _ _ _ Hm Hc Hend Hi Ha Hl Hv).
  rewrite <- Hs. destruct sorted as [|info rest]; [now elim Hne|].
  now rewrite (@release_loop_cap _ _ _ _ _ Hrs).
Qed.

(** X9.  When the first entry of the sorted list stands for a tag that is
    not in the dictionary, the lookup of its date fails and
    [download_info] raises [KeyError] with that tag. *)
Theorem tags_mode_missing_tag :
  forall (fuel : nat) (url : str) (tag_prefix : option str)
         (user_repo : str) (groups : list str)
         (pages items : list value) (url' : value) (tags_list : tag_dict)
         (infos rest : list version_info) (info : version_info) (w w' : W),
    Re.re_match "https?://bitbucket.org/([^/]+/[^#/]+)/?#tags$" url
      = Some (user_repo :: groups) ->
    chain fetch_json false
      (VStr (_make_api_url user_repo "/refs/tags?pagelen=100")) w
      pages url' w' ->
    Py.truthy url' = false ->
    all_items pages = Ok items ->
    add_tags items [] = Ok tags_list ->
    List.length pages <= fuel ->
    version_process (TagDict.keys tags_list) tag_prefix = Ok infos ->
    version_sort infos true = info :: rest ->
    TagDict.find (VStr (tag_of info)) tags_list = None ->
    download_info fetch_json version_process version_sort py_repr st
      fuel url tag_prefix w = (Raise (KeyError (tag_of info)), w').
Proof.
  intros fuel url tag_prefix user_repo groups pages items url' tags_list
         infos rest info w w' Hm Hc Hend Hi Ha Hl Hv Hs Hnone.
  rewrite (@tags_mode_run _ fetch_json version_process version_sort py_repr
             st _ _ _ _ _ _ _ _ _ _ _ _ Hm Hc Hend Hi Ha Hl Hv).
  rewrite Hs. cbn [release_loop PyStr.mem_string existsb].
  unfold TagDict.lookup. unfold tag_of in Hnone. now rewrite Hnone.
Qed.

(** X10.  Outside tag mode, [download_info] looks neither at the tag
    prefix, nor at the settings, nor at the version collaborator, and it
    has no loop to run. *)
Theorem branch_mode_ignores_tag_inputs :
  forall (version_process' :
            list value -> option str -> outcome (list version_info))
         (version_sort' : list version_info -> bool -> list version_info)
         (st' : settings) (fuel fuel' : nat) (url : str)
         (tag_prefix tag_prefix' : option str) (w : W),
    Re.re_match "https?://bitbucket.org/([^/]+/[^#/]+)/?#tags$" url = None ->
    download_info fetch_json version_process version_sort py_repr st
      fuel url tag_prefix w =
    download_info fetch_json version_process' version_sort' py_repr st'
      fuel' url tag_prefix' w.
Proof.
  intros version_process' version_sort' st' fuel fuel' url tag_prefix
         tag_prefix' w Hm.
  unfold download_info. now rewrite Hm.
Qed.

End TagModeMore.

Lemma tags_mode_request_failure_witness :
  download_info (Demo.fetch Demo.cut) Demo.version_process Demo.version_sort
    Demo.py_repr Demo.unlimited 5 "https://bitbucket.org/owner/cut#tags"
    None [] =
  (Raise (DownloaderException "HTTP error 404 downloading"),
   [(VStr "https://api.bitbucket.org/gone", false);
    (VStr "https://api.bitbucket.org/2.0/repositories/owner/cut/refs/tags?pagelen=100",
     false)]).
Proof.
  refine (@tags_mode_request_failure Demo.world (Demo.fetch Demo.cut)
            Demo.version_process Demo.version_sort Demo.py_repr
            Demo.unlimited 5 "https://bitbucket.org/owner/cut#tags" None
            "owner/cut" []
            [VDict [("values",
                     VList [Demo.tag "1.0" "2020-01-02T03:04:05+00:00"]);
                    ("next", VStr "https://api.bitbucket.org/gone")]]
            [Demo.tag "1.0" "2020-01-02T03:04:05+00:00"]
            (VStr "https://api.bitbucket.org/gone")
            [(VStr "1.0", "2020-01-02 03:04:05")]
            (DownloaderException "HTTP error 404 downloading")
            [] _ _ _ _ _ _ _ _ _).
  - vm_compute; reflexivity.
  - eapply chain_step; [vm_compute; reflexivity ..|]. apply chain_done.
  - vm_compute; reflexivity.
  - vm_compute; reflexivity.
  - reflexivity.
  - vm_compute; reflexivity.
  - simpl. lia.
Defined.

Lemma tags_mode_total_witness :
  exists rs : list release,
    releases_of "owner/repo"
      [(VStr "v1.0", "2020-01-02 03:04:05");
       (VStr "2.0", "2021-05-06 12:00:00");
       (VStr "v2.0", "2021-06-07 08:09:10");
       (VStr "1.5", "2020-11-12 13:14:15");
       (VStr "nightly", "2022-01-01 00:00:00")]
      (cap (get_max_releases (Demo.limited 2))
         (dedup_by_version []
            [ {| vi_version := "2.0"; vi_prefix := "" |};
              {| vi_version := "2.0"; vi_prefix := "v" |};
              {| vi_version := "1.5"; vi_prefix := "" |};
              {| vi_version := "1.0"; vi_prefix := "v" |} ])) = Some rs /\
    Demo.download_info (Demo.limited 2) 5
      "https://bitbucket.org/owner/repo#tags" None [] =
    (Ok (DList rs),
     [(VStr "https://api.bitbucket.org/page2", false);
      (VStr "https://api.bitbucket.org/2.0/repositories/owner/repo/refs/tags?pagelen=100",
       false)]).
Proof.
  refine (@tags_mode_total Demo.world
            (Demo.fetch Demo.pages) Demo.version_process Demo.version_sort
            Demo.py_repr (Demo.limited 2) 5
            "https://bitbucket.org/owner/repo#tags" None "owner/repo" []
            [Demo.tags_page_1; Demo.tags_page_2]
            [Demo.tag "v1.0" "2020-01-02T03:04:05+00:00";
             Demo.tag "2.0" "2021-05-06T12:00:00+00:00";
             Demo.tag "v2.0" "2021-06-07T08:09:10+00:00";
             Demo.tag "1.5" "2020-11-12T13:14:15+00:00";
             Demo.tag "nightly" "2022-01-01T00:00:00+00:00"]
            VNone
            [(VStr "v1.0", "2020-01-02 03:04:05");
             (VStr "2.0", "2021-05-06 12:00:00");
             (VStr "v2.0", "2021-06-07 08:09:10");
             (VStr "1.5", "2020-11-12 13:14:15");
             (VStr "nightly", "2022-01-01 00:00:00")]
            [ {| vi_version := "1.0"; vi_prefix := "v" |};
              {| vi_version := "2.0"; vi_prefix := "" |};
              {| vi_version := "2.0"; vi_prefix := "v" |};
              {| vi_version := "1.5"; vi_prefix := "" |} ]
            [ {| vi_version := "2.0"; vi_prefix := "" |};
              {| vi_version := "2.0"; vi_prefix := "v" |};
              {| vi_version := "1.5"; vi_prefix := "" |};
              {| vi_version := "1.0"; vi_prefix := "v" |} ]
            [] _ _ _ _ _ _ _ _ _ _ _).
  - vm_compute; reflexivity.
  - eapply chain_step; [vm_compute; reflexivity ..|].
    eapply chain_step; [vm_compute; reflexivity ..|].
    apply chain_done.
  - reflexivity.
  - vm_compute; reflexivity.
  - vm_compute; reflexivity.
  - simpl. lia.
  - vm_compute; reflexivity.
  - vm_compute; reflexivity.
  - discriminate.
  - repeat (apply Forall_cons; [simpl; auto 10|]). apply Forall_nil.
Defined.

Lemma tags_mode_missing_tag_witness :
  download_info (Demo.fetch Demo.pages)
    (fun _ _ => Ok [ {| vi_version := "9.9"; vi_prefix := "" |} ])
    Demo.version_sort Demo.py_repr Demo.unlimited 5
    "https://bitbucket.org/owner/bare#tags" None [] =
  (Raise (KeyError "9.9"),
   [(VStr "https://api.bitbucket.org/2.0/repositories/owner/bare/refs/tags?pagelen=100",
     false)]).
Proof.
  refine (@tags_mode_missing_tag Demo.world (Demo.fetch Demo.pages)
            (fun _ _ => Ok [ {| vi_version := "9.9"; vi_prefix := "" |} ])
            Demo.version_sort Demo.py_repr Demo.unlimited 5
            "https://bitbucket.org/owner/bare#tags" None "owner/bare" []
            [VDict [("values",
                     VList [Demo.tag "nightly" "2022-01-01T00:00:00+00:00"])]]
            [Demo.tag "nightly" "2022-01-01T00:00:00+00:00"]
            VNone
            [(VStr "nightly", "2022-01-01 00:00:00")]
            [ {| vi_version := "9.9"; vi_prefix := "" |} ] []
            {| vi_version := "9.9"; vi_prefix := "" |}
            [] _ _ _ _ _ _ _ _ _ _).
  - vm_compute; reflexivity.
  - eapply chain_step; [vm_compute; reflexivity ..|]. apply chain_done.
  - reflexivity.
  - vm_compute; reflexivity.
  - vm_compute; reflexivity.
  - simpl. lia.
  - reflexivity.
  - vm_compute; reflexivity.
  - vm_compute; reflexivity.
Defined.

Lemma branch_mode_ignores_tag_inputs_witness :
  Demo.download_info (Demo.limited 1) 0
    "https://bitbucket.org/owner/repo/src/master" (Some "v") [] =
  Demo.download_info Demo.unlimited 5
    "https://bitbucket.org/owner/repo/src/master" None [].
Proof.
  apply (@branch_mode_ignores_tag_inputs Demo.world (Demo.fetch Demo.pages)
           Demo.version_process Demo.version_sort Demo.py_repr
           (Demo.limited 1) Demo.version_process Demo.version_sort
           Demo.unlimited 0 5 "https://bitbucket.org/owner/repo/src/master"
           (Some "v") None []).
  vm_compute; reflexivity.
Defined.

(* ------------------------------------------------------------------ *)
(** ** More on the readme, the metadata and the main branch *)


Section ReadmeMore.

Variable W : Type.
Variable fetch_json : value -> bool -> W -> outcome value * W.
Variable py_repr : value -> str.
Variable str_lower : str -> str.

(** X11.  [_readme_url] stops at the page that holds the readme: the world
    it leaves is the one after the request for that page, whatever next
    page that page names. *)
Theorem readme_stops_at_first_hit :
  forall (fuel : nat) (user_repo : str) (branch : value)
         (prefer_cached : bool) (pages : list value)
         (paths here : list str) (path : str) (page url' : value)
         (w w' w'' : W),
    chain fetch_json prefer_cached
      (VStr (_make_api_url user_repo
               ("/src/" ++ format_s py_repr branch ++ "/?pagelen=100")%str))
      w pages url' w' ->
    all_paths pages = Some paths ->
    find (is_readme str_lower) paths = None ->
    Py.truthy url' = true ->
    fetch_json url' prefer_cached w' = (Ok page, w'') ->
    page_paths page = Some here ->
    find (is_readme str_lower) here = Some path ->
    List.length pages < fuel ->
    _readme_url fetch_json py_repr str_lower fuel user_repo branch
      prefer_cached w =
    (Ok (Some (raw_url_of user_repo (format_s py_repr branch) path)), w'').
Proof.
  intros fuel user_repo branch prefer_cached pages paths here path page url'
         w w' w'' Hc Hp Hnone Ht Hf Hh Hfound Hl.
  unfold _readme_url.
  pose proof (@listing_walk_pages _ fetch_json py_repr str_lower user_repo
                (format_s py_repr branch) prefer_cached _ _ _ _ _ Hc _ fuel
                Hp (Nat.lt_le_incl _ _ Hl)) as H.
  rewrite Hnone in H. rewrite H.
  destruct (fuel - List.length pages) as [|n] eqn:E; [lia|].
  destruct (page_paths_inv _ Hh) as [values [entries [Hv [Hi He]]]].
  cbn [listing_walk]. rewrite Ht. unfold bind, lift, ret.
  rewrite Hf, Hv, Hi.
  rewrite (scan_entries_paths py_repr str_lower user_repo
             (format_s py_repr branch) _ He).
  now rewrite Hfound.
Qed.



(** X13.  [_main_branch_name] asks for the repository with a cached answer
    allowed and returns the name of its main branch; where the answer
    names none it raises [KeyError], with no fallback to [master]. *)
Theorem main_branch_name_strict :
  forall (user_repo : str) (repo : value) (mainbranch : list (str * value))
         (w w1 : W),
    fetch_json (VStr (_make_api_url user_repo "")) true w = (Ok repo, w1) ->
    Py.subscript repo "mainbranch" = Ok (VDict mainbranch) ->
    _main_branch_name fetch_json user_repo w =
    (match Py.assoc "name" mainbranch with
     | Some name => Ok name
     | None => Raise (KeyError "name")
     end, w1) /\
    (Py.assoc "name" mainbranch = None ->
     Py.get (VDict mainbranch) "name" (VStr "master") = Ok (VStr "master")).
Proof.
  intros user_repo repo mainbranch w w1 Hf Hm. split.
  - unfold _main_branch_name, bind, lift. rewrite Hf, Hm.
    cbn [Py.subscript]. now destruct (Py.assoc "name" mainbranch).
  - intro Hn. cbn [Py.get]. now rewrite Hn.
Qed.

End ReadmeMore.

Lemma readme_stops_at_first_hit_witness :
  Demo._readme_url 5 "owner/repo" (VStr "master") true [] =
  (Ok (Some "https://bitbucket.org/owner/repo/raw/master/README.MD"),
   [(VStr "https://api.bitbucket.org/listing2", true);
    (VStr "https://api.bitbucket.org/2.0/repositories/owner/repo/src/master/?pagelen=100",
     true)]).
Proof.
  refine (@readme_stops_at_first_hit Demo.world (Demo.fetch Demo.pages)
            Demo.py_repr Demo.str_lower 5 "owner/repo" (VStr "master") true
            [Demo.listing_page_1] ["LICENSE"; "main.py"]
            ["README.MD"; "readme.rst"] "README.MD" Demo.listing_page_2
            (VStr "https://api.bitbucket.org/listing2") [] _ _ _ _ _ _ _ _
            _ _).
  - eapply chain_step; [vm_compute; reflexivity ..|]. apply chain_done.
  - vm_compute; reflexivity.
  - vm_compute; reflexivity.
  - reflexivity.
  - vm_compute; reflexivity.
  - vm_compute; reflexivity.
  - vm_compute; reflexivity.
  - simpl. lia.
Defined.


Lemma main_branch_name_strict_witness :
  _main_branch_name (Demo.fetch Demo.pages) "owner/repo" [] =
  (Raise (KeyError "name"),
   [(VStr "https://api.bitbucket.org/2.0/repositories/owner/repo", true)]).
Proof.
  refine (proj1 (@main_branch_name_strict Demo.world (Demo.fetch Demo.pages)
                   "owner/repo" Demo.repo_json [("type", VStr "branch")]
                   [] _ _ _)).
  - vm_compute; reflexivity.
  - vm_compute; reflexivity.
Defined.

(* ------------------------------------------------------------------ *)
(** ** The list of releases *)

(** The loop only ever appends to its output. *)
Lemma release_loop_extends (max : Z) (user_repo : str)
    (tags_list : tag_dict) :
  forall (l : list version_info) (used : list str) (out rs : list release),
    release_loop max user_repo tags_list l used out = Ok rs ->
    exists more, rs = out ++ more.
Proof.
  induction l as [|a l IH]; intros used out rs H.
  - injection H as <-. exists []. now rewrite app_nil_r.
  - cbn [release_loop] in H.
    destruct (PyStr.mem_string (vi_version a) used); [now apply IH in H|].
    destruct (TagDict.lookup tags_list (vi_prefix a ++ vi_version a))
      as [date| |]; try discriminate.
    cbn [obind] in H.
    destruct ((0 <? max)%Z &&
              (max <=? Z.of_nat (List.length (vi_version a :: used)))%Z).
    + injection H as <-. eexists. reflexivity.
    + apply IH in H. destruct H as [more ->].
      rewrite <- app_assoc. eexists. reflexivity.
Qed.

(** From its initial state and on a list that is not empty, the loop
    returns at least one release. *)
Lemma release_loop_first (max : Z) (user_repo : str)
    (tags_list : tag_dict) (info : version_info) (rest : list version_info)
    (rs : list release) :
  release_loop max user_repo tags_list (info :: rest) [] [] = Ok rs ->
  rs <> [].
Proof.
  cbn [release_loop PyStr.mem_string existsb].
  destruct (TagDict.lookup tags_list (vi_prefix info ++ vi_version info))
    as [date| |]; try discriminate.
  cbn [obind app].
  destruct ((0 <? max)%Z &&
            (max <=? Z.of_nat (List.length [vi_version info]))%Z).
  - intro H. injection H as <-. discriminate.
  - intro H. apply release_loop_extends in H. destruct H as [more ->].
    discriminate.
Qed.

Section Releases.

Variable W : Type.
Variable fetch_json : value -> bool -> W -> outcome value * W.
Variable version_process :
  list value -> option str -> outcome (list version_info).
Variable version_sort : list version_info -> bool -> list version_info.
Variable py_repr : value -> str.
Variable st : settings.

(** X14.  A list [download_info] returns is never empty: where there is no
    release it returns [False] or [None], in every mode and under every
    setting. *)
Theorem download_info_list_nonempty :
  forall (fuel : nat) (url : str) (tag_prefix : option str)
         (rs : list release) (w : W),
    fst (download_info fetch_json version_process version_sort py_repr st
           fuel url tag_prefix w) = Ok (DList rs) ->
    rs <> [].
Proof.
  intros fuel url tag_prefix rs w H Hrs. subst rs. revert H.
  unfold download_info.
  destruct (Re.re_match "https?://bitbucket.org/([^/]+/[^#/]+)/?#tags$" url)
    as [[|g more]|].
  2: { intro H.
       refine (@bind_excludes _ _ _ _ _ (fun x => x = DList []) _ w
                 (DList []) H eq_refl).
       intros tags_list w0 b.
       apply bind_excludes with (bad := fun x => x = DList []).
       intros infos w1 b1.
       destruct (version_sort infos true) as [|info rest].
       - apply ret_excludes with (bad := fun x => x = DList []).
         discriminate.
       - unfold bind, lift, ret.
         destruct (release_loop (get_max_releases st) g tags_list
                     (info :: rest) [] []) as [out| |] eqn:El;
           simpl; try discriminate.
         intro Hb. injection Hb as <-. intro Hnil. injection Hnil as ->.
         now apply release_loop_first in El. }
  all: destruct (_user_repo_branch url) as [user_repo branch];
    destruct (falsy_str user_repo); [discriminate|];
    intro H;
    refine (@bind_excludes _ _ _ _ _ (fun x => x = DList []) _ w (DList []) H
              eq_refl);
    intros bv w0 b;
    repeat (apply bind_excludes with (bad := fun x => x = DList []);
            intros ? ? ?);
    apply ret_excludes with (bad := fun x => x = DList []); discriminate.
Qed.

End Releases.

Lemma download_info_list_nonempty_witness :
  [ {| rel_url := "https://bitbucket.org/owner/repo/get/2.0.zip";
       rel_version := "2.0";
       rel_date := "2021-05-06 12:00:00" |} ] <> [].
Proof.
  apply (@download_info_list_nonempty Demo.world (Demo.fetch Demo.pages)
           Demo.version_process Demo.version_sort Demo.py_repr
           (Demo.limited 1) 5 "https://bitbucket.org/owner/repo#tags" None
           _ []).
  vm_compute; reflexivity.
Defined.

(** ** The pseudo-version of branch mode *)

Lemma length_map_chars (f : char -> char) (s : str) :
  PyStr.length (PyStr.map_chars f s) = PyStr.length s.
Proof. induction s as [|c s IH]; simpl; [reflexivity | now rewrite IH]. Qed.

Lemma length_slice_to (n : nat) :
  forall s : str, PyStr.length (PyStr.slice_to n s) <= n.
Proof.
  induction n as [|n IH]; intro s; [simpl; lia|].
  destruct s as [|c s]; simpl; [lia|]. specialize (IH s). lia.
Qed.

Lemma all_chars_map_chars (p : char -> bool) (f g : char -> char) :
  (forall c, p (f (g c)) = true) ->
  forall s : str,
    PyStr.all_chars p (PyStr.map_chars f (PyStr.map_chars g s)) = true.
Proof.
  intros H s. induction s as [|c s IH]; simpl; [reflexivity|].
  now rewrite H, IH.
Qed.

(** A timestamp comes from a string only. *)
Lemma timestamp_of_inv (v : value) (stamp : str) :
  timestamp_of v = Ok stamp ->
  exists date : str,
    v = VStr date /\
    stamp = PyStr.replace_char (PyStr.ch "T") (PyStr.ch " ")
              (PyStr.slice_to 19 date).
Proof.
  unfold timestamp_of.
  destruct v as [| | |date|l|d]; try discriminate.
  intro H. injection H as <-. now exists date.
Qed.

(** The date and the version made of a commit time. *)
Lemma stamp_shape (date : str) :
  let stamp :=
    PyStr.replace_char (PyStr.ch "T") (PyStr.ch " ")
      (PyStr.slice_to 19 date) in
  PyStr.length stamp <= 19 /\
  PyStr.length (Re.re_sub "[\-: ]" (PyStr.ch ".") stamp)
    = PyStr.length stamp /\
  PyStr.all_chars
    (fun c =>
       negb (PyStr.mem_char c
               [PyStr.ch "-"; PyStr.ch ":"; PyStr.ch " "; PyStr.ch "T"]))
    (Re.re_sub "[\-: ]" (PyStr.ch ".") stamp) = true.
Proof.
  cbv zeta. rewrite re_sub_dotted. unfold dotted.
  unfold PyStr.replace_char. rewrite !length_map_chars.
  split; [apply length_slice_to|]. split; [reflexivity|].
  apply all_chars_map_chars. intro c.
  destruct (N.eqb c (PyStr.ch "T")) eqn:E1; [reflexivity|].
  destruct (PyStr.mem_char c [PyStr.ch "-"; PyStr.ch ":"; PyStr.ch " "])
    eqn:E2; [reflexivity|].
  unfold PyStr.mem_char in *. cbn [existsb] in *.
  destruct (N.eqb c (PyStr.ch "-")), (N.eqb c (PyStr.ch ":")),
           (N.eqb c (PyStr.ch " "));
    try discriminate E2.
  now rewrite E1.
Qed.

Section VersionShape.

Variable W : Type.
Variable fetch_json : value -> bool -> W -> outcome value * W.
Variable version_process :
  list value -> option str -> outcome (list version_info).
Variable version_sort : list version_info -> bool -> list version_info.
Variable py_repr : value -> str.
Variable st : settings.

(** What every continuation ensures, the whole computation ensures. *)
Lemma bind_ensures (A B : Type) (m : M W A) (k : A -> M W B)
    (good : B -> Prop) :
  (forall (a : A) (w : W) (b : B), fst (k a w) = Ok b -> good b) ->
  forall (w : W) (b : B), fst (bind m k w) = Ok b -> good b.
Proof.
  intros Hk w b. unfold bind.
  destruct (m w) as [[a| |] w1]; simpl; try discriminate.
  apply Hk.
Qed.

Lemma lift_ensures (A B : Type) (o : outcome A) (k : A -> M W B)
    (good : B -> Prop) :
  (forall a : A, o = Ok a ->
     forall (w : W) (b : B), fst (k a w) = Ok b -> good b) ->
  forall (w : W) (b : B), fst (bind (lift o) k w) = Ok b -> good b.
Proof.
  intros Hk w b. unfold bind, lift.
  destruct o as [a| |]; simpl; try discriminate.
  now apply Hk.
Qed.

(** X15.  The list [download_info] returns in branch mode has one release;
    its date has at most 19 characters, its version has as many, and the
    version holds no hyphen, no colon, no space and no [T]. *)
Theorem branch_version_shape :
  forall (fuel : nat) (url : str) (tag_prefix : option str)
         (rs : list release) (w : W),
    Re.re_match "https?://bitbucket.org/([^/]+/[^#/]+)/?#tags$" url = None ->
    fst (download_info fetch_json version_process version_sort py_repr st
           fuel url tag_prefix w) = Ok (DList rs) ->
    exists r : release,
      rs = [r] /\
      PyStr.length (rel_date r) <= 19 /\
      PyStr.length (rel_version r) = PyStr.length (rel_date r) /\
      PyStr.all_chars
        (fun c =>
           negb (PyStr.mem_char c
                   [PyStr.ch "-"; PyStr.ch ":"; PyStr.ch " "; PyStr.ch "T"]))
        (rel_version r) = true.
Proof.
  intros fuel url tag_prefix rs w Htags.
  unfold download_info. rewrite Htags.
  destruct (_user_repo_branch url) as [user_repo branch].
  destruct (falsy_str user_repo); [discriminate|].
  set (good := fun x : download_result =>
         forall rs, x = DList rs ->
         exists r : release,
           rs = [r] /\
           PyStr.length (rel_date r) <= 19 /\
           PyStr.length (rel_version r) = PyStr.length (rel_date r) /\
           PyStr.all_chars
             (fun c =>
                negb (PyStr.mem_char c
                        [PyStr.ch "-"; PyStr.ch ":"; PyStr.ch " ";
                         PyStr.ch "T"]))
             (rel_version r) = true).
  intro H.
  refine (@bind_ensures _ _ _ _ good _ w (DList rs) H rs eq_refl).
  intros bv w0 b.
  apply bind_ensures with (good := good). intros info w1 b1.
  apply lift_ensures with (good := good). intros target _ w2 b2.
  apply lift_ensures with (good := good). intros date _ w3 b3.
  apply lift_ensures with (good := good). intros stamp Hstamp w4 b4.
  destruct (timestamp_of_inv _ Hstamp) as [text [_ ->]].
  cbn [ret fst]. intro Hb. injection Hb as <-.
  intros rs' Hrs. injection Hrs as <-.
  eexists. split; [reflexivity|]. cbn [rel_date rel_version].
  exact (stamp_shape text).
Qed.

End VersionShape.

Lemma branch_version_shape_witness :
  exists r : release,
    [ {| rel_url := "https://bitbucket.org/owner/repo/get/master.zip";
         rel_version := "2021.05.06.12.00.00";
         rel_date := "2021-05-06 12:00:00" |} ] = [r] /\
    PyStr.length (rel_date r) <= 19 /\
    PyStr.length (rel_version r) = PyStr.length (rel_date r) /\
    PyStr.all_chars
      (fun c =>
         negb (PyStr.mem_char c
                 [PyStr.ch "-"; PyStr.ch ":"; PyStr.ch " "; PyStr.ch "T"]))
      (rel_version r) = true.
Proof.
  apply (@branch_version_shape Demo.world (Demo.fetch Demo.pages)
           Demo.version_process Demo.version_sort Demo.py_repr
           Demo.unlimited 0 "https://bitbucket.org/owner/repo/src/master"
           None _ []).
  - vm_compute; reflexivity.
  - vm_compute; reflexivity.
Defined.
